(** * Clivra study planner: priority, scheduling, readiness and recovery

    A shallow embedding of the algorithmic core of the Clivra study planner
    ([src/lib/study-algorithm.ts], and the revision-aware variant of the same
    module that is kept in [src/hooks/useYoutubeRecommendations.tsx]).

    Conventions of the embedding.
    - A JavaScript [number] is an exact rational ([Q]); the rounding error of
      IEEE doubles is not modelled.  Where the code divides by a computed
      quantity ([rebalanceAfterMissed]) the numbers are extended with the two
      infinities and NaN ([Js.number]).
    - A value produced by [Math.round], [Math.floor] or [Math.ceil] on a
      finite number is an integer ([Z]).
    - A timestamp field ([string | null]) is [option Z]: [Some ms] is a
      non-empty string that [new Date] parses to [ms] milliseconds since the
      epoch, [None] is [null].
    - Every read of the clock ([Date.now()], [new Date()]) is an explicit
      argument [now] of the function that performs it.
    - A [Date] object is its time value in milliseconds ([Z]); the functions
      of the library date-fns that [useScheduleGenerator] calls are
      parameters of its model. *)

From Stdlib Require Import ZArith QArith Qround Qminmax List String Bool.
From Stdlib Require Import Lia Lqa Sorted Permutation.
Import ListNotations.

Local Open Scope Q_scope.

(** ** JavaScript arithmetic *)

Module Js.

Definition leb (x y : Q) : bool := Qle_bool x y.
Definition ltb (x y : Q) : bool := negb (Qle_bool y x).
Definition geb (x y : Q) : bool := Qle_bool y x.
Definition gtb (x y : Q) : bool := negb (Qle_bool x y).

(** [Math.round]: the nearest integer, a tie going up. *)
Definition round (x : Q) : Z := Qfloor (x + (1 # 2)).
Definition floor (x : Q) : Z := Qfloor x.
Definition ceil (x : Q) : Z := Qceiling x.

(** Numbers with the special values of IEEE arithmetic.  The two zeros are
    identified; a non-zero number divided by zero is the infinity of the
    sign of the numerator. *)
Inductive number : Type :=
| Num (q : Q)
| PosInf
| NegInf
| NaN.

Definition isFinite (x : number) : bool :=
  match x with Num _ => true | _ => false end.

Definition ofZ (z : Z) : number := Num (inject_Z z).

Definition div (x y : number) : number :=
  match x, y with
  | NaN, _ | _, NaN => NaN
  | Num a, Num b =>
      if Qeq_bool b 0
      then (if Qeq_bool a 0 then NaN else if ltb 0 a then PosInf else NegInf)
      else Num (a / b)
  | Num _, (PosInf | NegInf) => Num 0
  | (PosInf | NegInf), (PosInf | NegInf) => NaN
  | PosInf, Num b => if ltb b 0 then NegInf else PosInf
  | NegInf, Num b => if ltb b 0 then PosInf else NegInf
  end.

Definition min (x y : number) : number :=
  match x, y with
  | NaN, _ | _, NaN => NaN
  | NegInf, _ | _, NegInf => NegInf
  | PosInf, z | z, PosInf => z
  | Num a, Num b => Num (Qmin a b)
  end.

(** [Math.round] and [Math.ceil] leave the special values unchanged. *)
Definition roundN (x : number) : number :=
  match x with Num a => ofZ (round a) | s => s end.
Definition ceilN (x : number) : number :=
  match x with Num a => ofZ (ceil a) | s => s end.

End Js.

(** ** Data model (the interfaces of both source files) *)

Inductive Strength : Type := weak | average | strong.
Inductive SessionType : Type := learning | revision | recall.
Inductive ReadinessStatus : Type :=
  not_ready | improving | almost_ready | exam_ready.

Record Topic : Type := {
  topic_id : string;
  topic_name : string;
  confidence_level : Q;
  priority_score : Q;
  estimated_hours : Q;
  completed_hours : Q;
  last_studied_at : option Z;
  next_revision_at : option Z;
  revision_count : Z;
  is_completed : bool;
  last_revision_date : option Z;
  revision_confidence_delta : option Q
}.

Record Subject : Type := {
  subject_id : string;
  subject_name : string;
  strength : Strength;
  color : string;
  topics : option (list Topic)
}.

(** A reason is a fixed text, or one of the two template literals of
    [checkRevisionEligibility], kept with the number it interpolates
    ([None] is [Infinity]). *)
Inductive Reason : Type :=
| Text (s : string)
| LowConfidenceOutOf5 (confidence : Q)
| NotRevisedInDays (days : option Z).

Record ScheduleSession : Type := {
  topicId : string;
  topicName : string;
  subjectName : string;
  subjectColor : string;
  type : SessionType;
  durationMinutes : Q;
  priorityScore : Z;
  reason : Reason;
  isRevisionScheduled : option bool
}.

Record Priority : Type := { score : Z; reasons : list Reason }.

Module WEIGHTS.
Definition STRENGTH : Q := 30.
Definition URGENCY : Q := 25.
Definition CONFIDENCE : Q := 25.
Definition RECENCY : Q := 15.
Definition COMPLETION : Q := 5.
End WEIGHTS.

Definition STRENGTH_SCORES (s : Strength) : Q :=
  match s with weak => 100 | average => 60 | strong => 30 end.

Definition MS_PER_DAY : Z := 1000 * 60 * 60 * 24.

(** [Math.floor((Date.now() - new Date(t).getTime()) / (1000*60*60*24))] *)
Definition daysSince (now t : Z) : Z := ((now - t) / MS_PER_DAY)%Z.

Definition isRevisionType (s : ScheduleSession) : bool :=
  match type s with revision => true | _ => false end.

(** Total duration of a list of sessions, and of its sessions of one kind. *)
Definition totalDuration (l : list ScheduleSession) : Q :=
  fold_right (fun s acc => durationMinutes s + acc) 0 l.

Definition revisionTime (l : list ScheduleSession) : Q :=
  totalDuration (filter isRevisionType l).

(** [Array.prototype.sort] with the comparator [(a, b) => b.score - a.score]:
    a stable sort, highest score first. *)
Fixpoint insertByScore {A : Type} (key : A -> Z) (x : A) (l : list A) : list A :=
  match l with
  | [] => [x]
  | y :: l' =>
      if (key y <=? key x)%Z then x :: l else y :: insertByScore key x l'
  end.

Definition sortByScoreDesc {A : Type} (key : A -> Z) (l : list A) : list A :=
  fold_right (insertByScore key) [] l.

(** ** [src/lib/study-algorithm.ts] *)

Module StudyAlgorithm.

(** [calculateTopicPriority]; [now] is the value of [Date.now()]. *)
Definition calculateTopicPriority (now : Z) (topic : Topic)
    (subjectStrength : Strength) (daysUntilExam : Q) : Priority :=
  (* 1. subject strength *)
  let strengthScore := STRENGTH_SCORES subjectStrength in
  let strengthContribution := (strengthScore / 100) * WEIGHTS.STRENGTH in
  let reasons1 :=
    match subjectStrength with
    | weak => [Text "Weak subject needs attention"]
    | _ => []
    end in
  (* 2. urgency *)
  let urgencyScore : Q :=
    if Js.leb daysUntilExam 7 then 100
    else if Js.leb daysUntilExam 30 then 80
    else if Js.leb daysUntilExam 60 then 50
    else 30 in
  let urgencyContribution := (urgencyScore / 100) * WEIGHTS.URGENCY in
  let reasons2 :=
    if Js.leb daysUntilExam 7 then [Text "Exam is less than a week away!"]
    else if Js.leb daysUntilExam 30 then [Text "Exam approaching soon"]
    else [] in
  (* 3. confidence *)
  let confidenceScore := ((5 - confidence_level topic) / 4) * 100 in
  let confidenceContribution := (confidenceScore / 100) * WEIGHTS.CONFIDENCE in
  let reasons3 :=
    if Js.leb (confidence_level topic) 2
    then [Text "Low confidence - needs more practice"]
    else [] in
  (* 4. recency *)
  let recency : Q * list Reason :=
    match last_studied_at topic with
    | Some t =>
        let daysSinceStudy := daysSince now t in
        ((if (14 <=? daysSinceStudy)%Z then 100
          else if (7 <=? daysSinceStudy)%Z then 75
          else if (3 <=? daysSinceStudy)%Z then 50
          else 25),
         (if (7 <=? daysSinceStudy)%Z then [Text "Due for revision"] else []))
    | None => (100, [Text "Never studied before"])
    end in
  let recencyScore := fst recency in
  let recencyContribution := (recencyScore / 100) * WEIGHTS.RECENCY in
  (* 5. completion *)
  let completionRate :=
    if Js.gtb (estimated_hours topic) 0
    then completed_hours topic / estimated_hours topic
    else 0 in
  let completionScore := (1 - completionRate) * 100 in
  let completionContribution := (completionScore / 100) * WEIGHTS.COMPLETION in
  let totalScore :=
    0 + strengthContribution + urgencyContribution + confidenceContribution
      + recencyContribution + completionContribution in
  let finalScore := Js.round (Qmin 100 (Qmax 0 totalScore)) in
  {| score := finalScore;
     reasons := reasons1 ++ reasons2 ++ reasons3 ++ snd recency |}.

Record Entry : Type := { topic : Topic; subject : Subject; priority : Priority }.

(** The two nested [forEach] loops that fill [topicsWithPriority]. *)
Definition topicsWithPriority (now : Z) (subjects : list Subject)
    (daysUntilExam : Q) : list Entry :=
  flat_map (fun subject =>
    flat_map (fun topic =>
      if negb (is_completed topic)
      then [ {| topic := topic; subject := subject;
                priority := calculateTopicPriority now topic
                              (strength subject) daysUntilExam |} ]
      else [])
      (match topics subject with Some ts => ts | None => [] end))
    subjects.

(** The mutable variables of the allocation loop. *)
Record Alloc : Type := {
  remainingMinutes : Q;
  learningAllocated : Q;
  revisionAllocated : Q;
  recallAllocated : Q
}.

Section Allocation.
Variables availableMinutes pomodoroWorkMinutes pomodoroBreakMinutes : Q.

Definition sessionDuration : Q := pomodoroWorkMinutes + pomodoroBreakMinutes.
Definition targetLearning : Q := availableMinutes * 0.6.
Definition targetRevision : Q := availableMinutes * 0.3.
Definition targetRecall : Q := availableMinutes * 0.1.

(** The body of the [if / else if] chain: the session type, its duration
    and the updated counters. *)
Definition chooseSession (t : Topic) (st : Alloc) : SessionType * Q * Alloc :=
  let rem := remainingMinutes st in
  if match last_studied_at t with None => true | Some _ => false end
     && Js.ltb (learningAllocated st) targetLearning
  then
    let duration := Qmin (sessionDuration * 2) rem in
    (learning, duration,
     {| remainingMinutes := rem;
        learningAllocated := learningAllocated st + duration;
        revisionAllocated := revisionAllocated st;
        recallAllocated := recallAllocated st |})
  else if (0 <? revision_count t)%Z
          && Js.ltb (recallAllocated st) targetRecall
  then
    let duration := Qmin pomodoroWorkMinutes rem in
    (recall, duration,
     {| remainingMinutes := rem;
        learningAllocated := learningAllocated st;
        revisionAllocated := revisionAllocated st;
        recallAllocated := recallAllocated st + duration |})
  else if Js.ltb (revisionAllocated st) targetRevision
  then
    let duration := Qmin sessionDuration rem in
    (revision, duration,
     {| remainingMinutes := rem;
        learningAllocated := learningAllocated st;
        revisionAllocated := revisionAllocated st + duration;
        recallAllocated := recallAllocated st |})
  else
    let duration := Qmin sessionDuration rem in
    (learning, duration,
     {| remainingMinutes := rem;
        learningAllocated := learningAllocated st + duration;
        revisionAllocated := revisionAllocated st;
        recallAllocated := recallAllocated st |}).

Definition mkSession (e : Entry) (ty : SessionType) (duration : Q)
  : ScheduleSession :=
  {| topicId := topic_id (topic e);
     topicName := topic_name (topic e);
     subjectName := subject_name (subject e);
     subjectColor := color (subject e);
     type := ty;
     durationMinutes := duration;
     priorityScore := score (priority e);
     reason := hd (Text "Scheduled for today") (reasons (priority e));
     isRevisionScheduled := None |}.

(** The [for ... of] loop: one session per topic, until the remaining
    time is below one session ([break]). *)
Fixpoint allocate (entries : list Entry) (st : Alloc) : list ScheduleSession :=
  match entries with
  | [] => []
  | e :: rest =>
      if Js.ltb (remainingMinutes st) sessionDuration then []
      else
        let '(sessionType, duration, st1) := chooseSession (topic e) st in
        mkSession e sessionType duration
        :: allocate rest
             {| remainingMinutes := remainingMinutes st - duration;
                learningAllocated := learningAllocated st1;
                revisionAllocated := revisionAllocated st1;
                recallAllocated := recallAllocated st1 |}
  end.

Definition initialAlloc : Alloc :=
  {| remainingMinutes := availableMinutes;
     learningAllocated := 0;
     revisionAllocated := 0;
     recallAllocated := 0 |}.

End Allocation.

Definition generateDailySchedule (now : Z) (subjects : list Subject)
    (availableMinutes pomodoroWorkMinutes pomodoroBreakMinutes : Q)
    (daysUntilExam : Q) : list ScheduleSession :=
  let sorted :=
    sortByScoreDesc (fun e => score (priority e))
      (topicsWithPriority now subjects daysUntilExam) in
  allocate availableMinutes pomodoroWorkMinutes pomodoroBreakMinutes
    sorted (initialAlloc availableMinutes).

(** *** [getRevisionSummary] *)

(** What the function reads from [new Date()]: the instant [now], and the
    local midnights before and after it ([new Date(y, m, d)] and
    [new Date(y, m, d + 1)]), which depend on the time zone of the host. *)
Record Clock : Type := { now : Z; startOfToday : Z; endOfToday : Z }.

Record RevisionSummary : Type := {
  overdueTopics : list Topic;
  pendingRevisions : list Topic;
  completedThisWeek : list Topic;
  upcomingRevisions : list Topic
}.

(** The body of [topics.forEach]. *)
Definition visitTopic (c : Clock) (acc : RevisionSummary) (t : Topic)
  : RevisionSummary :=
  let weekAgo := (now c - 7 * 24 * 60 * 60 * 1000)%Z in
  let upcomingWindowEnd := (now c + 7 * 24 * 60 * 60 * 1000)%Z in
  let acc1 :=
    match last_revision_date t with
    | Some revisionDate =>
        if ((weekAgo <=? revisionDate) && (revisionDate <=? now c))%Z
        then {| overdueTopics := overdueTopics acc;
                pendingRevisions := pendingRevisions acc;
                completedThisWeek := completedThisWeek acc ++ [t];
                upcomingRevisions := upcomingRevisions acc |}
        else acc
    | None => acc
    end in
  match next_revision_at t with
  | Some revisionAt =>
      if (revisionAt <? startOfToday c)%Z then
        {| overdueTopics := overdueTopics acc1 ++ [t];
           pendingRevisions := pendingRevisions acc1;
           completedThisWeek := completedThisWeek acc1;
           upcomingRevisions := upcomingRevisions acc1 |}
      else if ((startOfToday c <=? revisionAt)
               && (revisionAt <? endOfToday c))%Z then
        {| overdueTopics := overdueTopics acc1;
           pendingRevisions := pendingRevisions acc1 ++ [t];
           completedThisWeek := completedThisWeek acc1;
           upcomingRevisions := upcomingRevisions acc1 |}
      else if ((endOfToday c <=? revisionAt)
               && (revisionAt <=? upcomingWindowEnd))%Z then
        {| overdueTopics := overdueTopics acc1;
           pendingRevisions := pendingRevisions acc1;
           completedThisWeek := completedThisWeek acc1;
           upcomingRevisions := upcomingRevisions acc1 ++ [t] |}
      else acc1
  | None => acc1
  end.

Definition getRevisionSummary (c : Clock) (topics : list Topic)
  : RevisionSummary :=
  fold_left (visitTopic c) topics
    {| overdueTopics := []; pendingRevisions := [];
       completedThisWeek := []; upcomingRevisions := [] |}.

(** *** [calculateExamReadiness] *)

Record Readiness : Type := {
  status : ReadinessStatus;
  percentage : Z;
  message : string
}.

Definition readinessScore (completionPercentage averageConfidence
    consistencyStreak daysUntilExam : Q) : Q :=
  let completionWeight := 0.4 in
  let confidenceWeight := 0.35 in
  let consistencyWeight := 0.15 in
  let timeWeight := 0.1 in
  let normalizedCompletion := completionPercentage / 100 in
  let normalizedConfidence := averageConfidence / 5 in
  let normalizedStreak := Qmin (consistencyStreak / 14) 1 in
  let normalizedTime :=
    if Js.gtb daysUntilExam 0 then Qmin (daysUntilExam / 30) 1 else 0 in
  normalizedCompletion * completionWeight
  + normalizedConfidence * confidenceWeight
  + normalizedStreak * consistencyWeight
  + normalizedTime * timeWeight.

Definition calculateExamReadiness (completionPercentage averageConfidence
    consistencyStreak daysUntilExam : Q) : Readiness :=
  let percentage :=
    Js.round (readinessScore completionPercentage averageConfidence
                consistencyStreak daysUntilExam * 100) in
  if (80 <=? percentage)%Z then
    {| status := exam_ready; percentage := percentage;
       message := "You're well prepared! Keep up the consistency." |}
  else if (60 <=? percentage)%Z then
    {| status := almost_ready; percentage := percentage;
       message := "Great progress! Focus on weak areas to get exam-ready." |}
  else if (35 <=? percentage)%Z then
    {| status := improving; percentage := percentage;
       message :=
         "You're making progress. Stay consistent with your schedule." |}
  else
    {| status := not_ready; percentage := percentage;
       message :=
         "Let's build your study momentum. Start with high-priority topics." |}.

(** *** [rebalanceAfterMissed] *)

(** The message is a fixed text or the template literal
    [Adding ${cappedExtra} extra minutes for ${daysToRecover} days to catch up.] *)
Inductive RecoveryMessage : Type :=
| Fixed (s : string)
| AddingExtraMinutes (cappedExtra daysToRecover : Js.number).

Record Recovery : Type := {
  extraMinutesPerDay : Js.number;
  daysToRecover : Js.number;
  recoveryMessage : RecoveryMessage
}.

(** The arguments are finite numbers; [maxOverloadPercentage] is 25 when
    the caller omits it. *)
Definition rebalanceAfterMissed (missedMinutes remainingDays
    dailyStudyMinutes maxOverloadPercentage : Q) : Recovery :=
  if Js.leb remainingDays 0 then
    {| extraMinutesPerDay := Js.Num 0;
       daysToRecover := Js.Num 0;
       recoveryMessage :=
         Fixed "No time left to recover. Focus on key topics only." |}
  else
    let maxExtraPerDay :=
      Js.ofZ (Js.round (dailyStudyMinutes * (maxOverloadPercentage / 100))) in
    let idealRecoveryDays :=
      Js.ceilN (Js.div (Js.Num missedMinutes) maxExtraPerDay) in
    let daysToRecover := Js.min idealRecoveryDays (Js.Num remainingDays) in
    let extraMinutesPerDay :=
      Js.roundN (Js.div (Js.Num missedMinutes) daysToRecover) in
    let cappedExtra := Js.min extraMinutesPerDay maxExtraPerDay in
    {| extraMinutesPerDay := cappedExtra;
       daysToRecover := daysToRecover;
       recoveryMessage := AddingExtraMinutes cappedExtra daysToRecover |}.

(** *** [calculateNextRevision] *)

Definition baseIntervals : list Z := [1; 3; 7; 14; 30; 60]%Z.

(** [revisionCount] is an integer.  An index outside the array reads
    [undefined], and the product with it is NaN. *)
Definition calculateNextRevision (confidenceLevel : Q) (revisionCount : Z)
  : Js.number :=
  let confidenceMultiplier := confidenceLevel / 3 in
  let intervalIndex :=
    Z.min revisionCount (Z.of_nat (List.length baseIntervals) - 1) in
  let baseInterval :=
    if (intervalIndex <? 0)%Z then None
    else nth_error baseIntervals (Z.to_nat intervalIndex) in
  match baseInterval with
  | Some b => Js.ofZ (Js.round (inject_Z b * confidenceMultiplier))
  | None => Js.NaN
  end.

(** *** [calculatePostRevisionUpdates] *)

Record PostRevision : Type := {
  nextRevisionDays : Js.number;
  confidenceDelta : Q;
  newConfidence : Q
}.

Definition calculatePostRevisionUpdates (confidenceBefore : Q)
    (revisionCount : Z) (completed skipped : bool) : PostRevision :=
  let baseConfidence :=
    if completed then confidenceBefore + 1 else confidenceBefore - 1 in
  let adjustedConfidence :=
    if skipped then confidenceBefore - 1 else baseConfidence in
  let newConfidence := Qmin 5 (Qmax 1 adjustedConfidence) in
  let confidenceDelta := newConfidence - confidenceBefore in
  let nextRevisionDays :=
    if skipped then Js.Num 1
    else calculateNextRevision newConfidence (Z.max 0 (revisionCount + 1)) in
  {| nextRevisionDays := nextRevisionDays;
     confidenceDelta := confidenceDelta;
     newConfidence := newConfidence |}.

End StudyAlgorithm.

(** ** The revision-aware variant, [src/hooks/useYoutubeRecommendations.tsx]

    Its [calculateTopicPriority], [calculateExamReadiness] and
    [rebalanceAfterMissed] are the same text as in [src/lib/study-algorithm.ts]
    and are not repeated. *)

Module RevisionAware.

Module REVISION_WEIGHTS.
Definition DAYS_SINCE_REVISION : Q := 35.
Definition CONFIDENCE : Q := 30.
Definition EXAM_PROXIMITY : Q := 20.
Definition ORIGINAL_DIFFICULTY : Q := 15.
End REVISION_WEIGHTS.

Module REVISION_CONFIG.
Definition CONFIDENCE_THRESHOLD : Q := 3.
Definition DAYS_SINCE_REVISION_THRESHOLD : Z := 7.
Definition MAX_REVISION_PERCENTAGE : Q := 40.
Definition MIN_REVISION_PERCENTAGE : Q := 30.
End REVISION_CONFIG.

Record RevisionEligibility : Type := {
  isEligible : bool;
  eligibilityReasons : list Reason;
  urgencyScore : Q
}.

(** [daysSinceRevision] of [checkRevisionEligibility]: [None] is the
    initial [Infinity]. *)
Definition daysSinceRevisionOrInfinity (now : Z) (t : Topic) : option Z :=
  match last_revision_date t with
  | Some d => Some (daysSince now d)
  | None =>
      match last_studied_at t with
      | Some d => Some (daysSince now d)
      | None => None
      end
  end.

Definition checkRevisionEligibility (now : Z) (topic : Topic)
    (daysUntilExam : Q) : RevisionEligibility :=
  let hasBeenStudied :=
    match last_studied_at topic with Some _ => true | None => false end
    || Js.gtb (completed_hours topic) 0 in
  let lowConfidence :=
    Js.leb (confidence_level topic) REVISION_CONFIG.CONFIDENCE_THRESHOLD in
  let reasons1 :=
    if lowConfidence then [LowConfidenceOutOf5 (confidence_level topic)]
    else [] in
  let urgency1 :=
    if lowConfidence
    then 0 + (REVISION_CONFIG.CONFIDENCE_THRESHOLD - confidence_level topic + 1) * 20
    else 0 in
  let daysSinceRevision := daysSinceRevisionOrInfinity now topic in
  let needsRevisionByTime :=
    match daysSinceRevision with
    | Some d => (REVISION_CONFIG.DAYS_SINCE_REVISION_THRESHOLD <=? d)%Z
    | None => true
    end in
  let reasons2 :=
    if needsRevisionByTime && hasBeenStudied
    then [NotRevisedInDays daysSinceRevision] else [] in
  let urgency2 :=
    if needsRevisionByTime && hasBeenStudied
    then urgency1 + match daysSinceRevision with
                    | Some d => Qmin (inject_Z d * 5) 50
                    | None => 50
                    end
    else urgency1 in
  let urgency3 :=
    if Js.leb daysUntilExam 7 then urgency2 + 30
    else if Js.leb daysUntilExam 14 then urgency2 + 20
    else urgency2 in
  let reasons3 :=
    if Js.leb daysUntilExam 7
    then [Text "Exam approaching - final revision needed"] else [] in
  {| isEligible := hasBeenStudied && (lowConfidence || needsRevisionByTime);
     eligibilityReasons := reasons1 ++ reasons2 ++ reasons3;
     urgencyScore := Qmin urgency3 100 |}.

Definition calculateRevisionPriority (now : Z) (topic : Topic)
    (subjectStrength : Strength) (daysUntilExam : Q) : Priority :=
  (* 1. days since the last revision *)
  let daysSinceRevision : Z :=
    match last_revision_date topic with
    | Some d => daysSince now d
    | None =>
        match last_studied_at topic with
        | Some d => daysSince now d
        | None => 0%Z
        end
    end in
  let recencyScore := Qmin (inject_Z daysSinceRevision * 5) 100 in
  let total1 := 0 + (recencyScore / 100) * REVISION_WEIGHTS.DAYS_SINCE_REVISION in
  let reasons1 :=
    if (14 <=? daysSinceRevision)%Z then [Text "Overdue for revision"]
    else if (7 <=? daysSinceRevision)%Z then [Text "Due for scheduled revision"]
    else [] in
  (* 2. confidence *)
  let confidenceScore := ((5 - confidence_level topic) / 4) * 100 in
  let total2 := total1 + (confidenceScore / 100) * REVISION_WEIGHTS.CONFIDENCE in
  let reasons2 :=
    if Js.leb (confidence_level topic) 2
    then [Text "Low confidence - revision critical"]
    else if Js.leb (confidence_level topic) 3
    then [Text "Moderate confidence - revision recommended"]
    else [] in
  (* 3. exam proximity *)
  let proximityScore : Q :=
    if Js.leb daysUntilExam 7 then 100
    else if Js.leb daysUntilExam 14 then 80
    else if Js.leb daysUntilExam 30 then 60
    else 30 in
  let total3 := total2 + (proximityScore / 100) * REVISION_WEIGHTS.EXAM_PROXIMITY in
  (* 4. original difficulty *)
  let difficultyScore := STRENGTH_SCORES subjectStrength in
  let totalScore :=
    total3 + (difficultyScore / 100) * REVISION_WEIGHTS.ORIGINAL_DIFFICULTY in
  let reasons4 :=
    match subjectStrength with
    | weak => [Text "Weak subject - extra attention needed"]
    | _ => []
    end in
  {| score := Js.round (Qmin 100 (Qmax 0 totalScore));
     reasons := reasons1 ++ reasons2 ++ reasons4 |}.

Record RevisionEntry : Type := {
  rtopic : Topic;
  rsubject : Subject;
  revisionPriority : Priority;
  eligibility : RevisionEligibility
}.

Definition topicsOf (s : Subject) : list Topic :=
  match topics s with Some ts => ts | None => [] end.

(** The nested [forEach] loops: an uncompleted topic goes to
    [revisionTopics] when it is eligible and to [learningTopics] otherwise. *)
Definition revisionTopics (now : Z) (subjects : list Subject)
    (daysUntilExam : Q) : list RevisionEntry :=
  flat_map (fun subject =>
    flat_map (fun topic =>
      if is_completed topic then []
      else
        let eligibility := checkRevisionEligibility now topic daysUntilExam in
        if isEligible eligibility
        then [ {| rtopic := topic; rsubject := subject;
                  revisionPriority :=
                    calculateRevisionPriority now topic (strength subject)
                      daysUntilExam;
                  eligibility := eligibility |} ]
        else [])
      (topicsOf subject))
    subjects.

Definition learningTopics (now : Z) (subjects : list Subject)
    (daysUntilExam : Q) : list StudyAlgorithm.Entry :=
  flat_map (fun subject =>
    flat_map (fun topic =>
      if is_completed topic then []
      else if isEligible (checkRevisionEligibility now topic daysUntilExam)
      then []
      else [ {| StudyAlgorithm.topic := topic;
                StudyAlgorithm.subject := subject;
                StudyAlgorithm.priority :=
                  StudyAlgorithm.calculateTopicPriority now topic
                    (strength subject) daysUntilExam |} ])
      (topicsOf subject))
    subjects.

Section Allocation.
Variables availableMinutes pomodoroWorkMinutes pomodoroBreakMinutes : Q.

Definition sessionDuration : Q := pomodoroWorkMinutes + pomodoroBreakMinutes.

Definition revisionBudget : Z :=
  Js.floor ((availableMinutes * REVISION_CONFIG.MAX_REVISION_PERCENTAGE) / 100).

Definition isQuickRecall (t : Topic) : bool :=
  (3 <=? revision_count t)%Z && Js.geb (confidence_level t) 3.

Definition mkRevisionSession (e : RevisionEntry) (ty : SessionType)
    (duration : Q) : ScheduleSession :=
  {| topicId := topic_id (rtopic e);
     topicName := topic_name (rtopic e);
     subjectName := subject_name (rsubject e);
     subjectColor := color (rsubject e);
     type := ty;
     durationMinutes := duration;
     priorityScore := score (revisionPriority e);
     reason := hd (Text "Scheduled due to revision cycle")
                  (eligibilityReasons (eligibility e));
     isRevisionScheduled := Some true |}.

(** The first loop.  It returns the sessions it pushed and the value of
    [remainingMinutes] when it ends. *)
Fixpoint allocateRevisions (entries : list RevisionEntry)
    (remainingMinutes revisionAllocated : Q) : list ScheduleSession * Q :=
  match entries with
  | [] => ([], remainingMinutes)
  | e :: rest =>
      if Js.ltb remainingMinutes pomodoroWorkMinutes
      then ([], remainingMinutes)
      else if Js.geb revisionAllocated (inject_Z revisionBudget)
      then ([], remainingMinutes)
      else
        let duration :=
          if isQuickRecall (rtopic e)
          then Qmin pomodoroWorkMinutes remainingMinutes
          else Qmin sessionDuration remainingMinutes in
        let sessionType :=
          if isQuickRecall (rtopic e) then recall else revision in
        let revisionAllocated' :=
          match sessionType with
          | recall => revisionAllocated
          | _ => revisionAllocated + duration
          end in
        let '(sessions, remaining') :=
          allocateRevisions rest (remainingMinutes - duration)
            revisionAllocated' in
        (mkRevisionSession e sessionType duration :: sessions, remaining')
  end.

Definition mkLearningSession (e : StudyAlgorithm.Entry) (duration : Q)
  : ScheduleSession :=
  {| topicId := topic_id (StudyAlgorithm.topic e);
     topicName := topic_name (StudyAlgorithm.topic e);
     subjectName := subject_name (StudyAlgorithm.subject e);
     subjectColor := color (StudyAlgorithm.subject e);
     type := learning;
     durationMinutes := duration;
     priorityScore := score (StudyAlgorithm.priority e);
     reason := hd (Text "Scheduled for today")
                  (reasons (StudyAlgorithm.priority e));
     isRevisionScheduled := Some false |}.

(** The second loop. *)
Fixpoint allocateLearning (entries : list StudyAlgorithm.Entry)
    (remainingMinutes : Q) : list ScheduleSession :=
  match entries with
  | [] => []
  | e :: rest =>
      if Js.ltb remainingMinutes sessionDuration then []
      else
        let duration :=
          match last_studied_at (StudyAlgorithm.topic e) with
          | None => Qmin (sessionDuration * 2) remainingMinutes
          | Some _ => Qmin sessionDuration remainingMinutes
          end in
        mkLearningSession e duration
        :: allocateLearning rest (remainingMinutes - duration)
  end.

End Allocation.

(** [xs[i++]] guarded by [i < xs.length]: the suffix of the array from the
    index stands for the index. *)
Definition takeNext {A : Type} (l : list A) : list A * list A :=
  match l with
  | [] => ([], [])
  | x :: rest => ([x], rest)
  end.

(** The [while] loop of the interleaving; each unit of [fuel] is one
    iteration. *)
Fixpoint interleaveLoop (fuel : nat)
    (revisionSessions otherSessions : list ScheduleSession)
  : list ScheduleSession :=
  match fuel with
  | O => []
  | S fuel' =>
      match revisionSessions, otherSessions with
      | [], [] => []
      | _, _ =>
          let '(o1, others1) := takeNext otherSessions in
          let '(o2, others2) := takeNext others1 in
          let '(r, revisions1) := takeNext revisionSessions in
          o1 ++ o2 ++ r ++ interleaveLoop fuel' revisions1 others2
      end
  end.

(** Every iteration pushes at least one session, so the loop makes at most
    as many iterations as there are sessions. *)
Definition interleave (schedule : list ScheduleSession) : list ScheduleSession :=
  let revisionSessions := filter isRevisionType schedule in
  let otherSessions := filter (fun s => negb (isRevisionType s)) schedule in
  interleaveLoop (List.length schedule) revisionSessions otherSessions.

(** The schedule before the interleaving, in the order of allocation. *)
Definition allocatedSchedule (now : Z) (subjects : list Subject)
    (availableMinutes pomodoroWorkMinutes pomodoroBreakMinutes : Q)
    (daysUntilExam : Q) : list ScheduleSession :=
  let learningSorted :=
    sortByScoreDesc (fun e => score (StudyAlgorithm.priority e))
      (learningTopics now subjects daysUntilExam) in
  let revisionSorted :=
    sortByScoreDesc (fun e => score (revisionPriority e))
      (revisionTopics now subjects daysUntilExam) in
  let '(revisions, remainingMinutes) :=
    allocateRevisions availableMinutes pomodoroWorkMinutes
      pomodoroBreakMinutes revisionSorted availableMinutes 0 in
  revisions
  ++ allocateLearning pomodoroWorkMinutes pomodoroBreakMinutes
       learningSorted remainingMinutes.

Definition generateDailySchedule (now : Z) (subjects : list Subject)
    (availableMinutes pomodoroWorkMinutes pomodoroBreakMinutes : Q)
    (daysUntilExam : Q) : list ScheduleSession :=
  interleave
    (allocatedSchedule now subjects availableMinutes pomodoroWorkMinutes
       pomodoroBreakMinutes daysUntilExam).

(** *** [calculatePostRevisionUpdates] of the variant *)

Record PostRevision : Type := {
  newConfidence : Z;
  confidenceDelta : Q;
  nextRevisionDays : Js.number;
  urgencyMultiplier : Q
}.

Definition calculatePostRevisionUpdates (currentConfidence : Q)
    (revisionCount : Z) (completed skipped : bool) : PostRevision :=
  let '(newConfidence, confidenceDelta, urgencyMultiplier) :=
    if completed then
      let confidenceDelta := Qmin 1 (5 - currentConfidence) in
      (Qmin 5 (currentConfidence + confidenceDelta), confidenceDelta, 0.8)
    else if skipped then
      (Qmax 1 (currentConfidence - 0.5), - 0.5, 1.3)
    else (currentConfidence, 0, 1) in
  let nextRevisionDays :=
    StudyAlgorithm.calculateNextRevision newConfidence
      (revisionCount + (if completed then 1 else 0))%Z in
  {| newConfidence := Js.round newConfidence;
     confidenceDelta := confidenceDelta;
     nextRevisionDays := nextRevisionDays;
     urgencyMultiplier := urgencyMultiplier |}.

(** *** [getRevisionSummary] of the variant *)

(** The body of the [for ... of] loop; [now] is [new Date()]. *)
Definition visitTopic (now : Z) (acc : StudyAlgorithm.RevisionSummary)
    (t : Topic) : StudyAlgorithm.RevisionSummary :=
  let oneWeekAgo := (now - 7 * 24 * 60 * 60 * 1000)%Z in
  let oneWeekFromNow := (now + 7 * 24 * 60 * 60 * 1000)%Z in
  let revisedThisWeek :=
    match last_revision_date t with
    | Some lastRevision => (oneWeekAgo <=? lastRevision)%Z
    | None => false
    end in
  if revisedThisWeek then
    {| StudyAlgorithm.overdueTopics := StudyAlgorithm.overdueTopics acc;
       StudyAlgorithm.pendingRevisions := StudyAlgorithm.pendingRevisions acc;
       StudyAlgorithm.completedThisWeek :=
         StudyAlgorithm.completedThisWeek acc ++ [t];
       StudyAlgorithm.upcomingRevisions :=
         StudyAlgorithm.upcomingRevisions acc |}
  else
    match next_revision_at t with
    | Some nextRevision =>
        if (nextRevision <? now)%Z then
          {| StudyAlgorithm.overdueTopics :=
               StudyAlgorithm.overdueTopics acc ++ [t];
             StudyAlgorithm.pendingRevisions :=
               StudyAlgorithm.pendingRevisions acc;
             StudyAlgorithm.completedThisWeek :=
               StudyAlgorithm.completedThisWeek acc;
             StudyAlgorithm.upcomingRevisions :=
               StudyAlgorithm.upcomingRevisions acc |}
        else if (nextRevision <=? oneWeekFromNow)%Z then
          {| StudyAlgorithm.overdueTopics := StudyAlgorithm.overdueTopics acc;
             StudyAlgorithm.pendingRevisions :=
               StudyAlgorithm.pendingRevisions acc;
             StudyAlgorithm.completedThisWeek :=
               StudyAlgorithm.completedThisWeek acc;
             StudyAlgorithm.upcomingRevisions :=
               StudyAlgorithm.upcomingRevisions acc ++ [t] |}
        else acc
    | None =>
        if Js.leb (confidence_level t) 3
           && match last_studied_at t with Some _ => true | None => false end
        then
          {| StudyAlgorithm.overdueTopics := StudyAlgorithm.overdueTopics acc;
             StudyAlgorithm.pendingRevisions :=
               StudyAlgorithm.pendingRevisions acc ++ [t];
             StudyAlgorithm.completedThisWeek :=
               StudyAlgorithm.completedThisWeek acc;
             StudyAlgorithm.upcomingRevisions :=
               StudyAlgorithm.upcomingRevisions acc |}
        else acc
    end.

Definition getRevisionSummary (now : Z) (topics : list Topic)
  : StudyAlgorithm.RevisionSummary :=
  fold_left (visitTopic now) topics
    {| StudyAlgorithm.overdueTopics := [];
       StudyAlgorithm.pendingRevisions := [];
       StudyAlgorithm.completedThisWeek := [];
       StudyAlgorithm.upcomingRevisions := [] |}.

End RevisionAware.

(** ** Callers and display helpers *)

(** [x ?? d] *)
Definition orElse {A : Type} (x : option A) (d : A) : A :=
  match x with Some v => v | None => d end.

(** Rows of the tables [topics], [subjects] (with its topics joined) and
    [profiles]; a nullable column is an [option].  The columns [strength] and
    [preferred_study_slot] hold one of the values their CHECK constraints
    allow. *)
Record TopicRow : Type := {
  row_id : string;
  row_name : string;
  row_confidence_level : option Q;
  row_priority_score : option Q;
  row_estimated_hours : option Q;
  row_completed_hours : option Q;
  row_last_studied_at : option Z;
  row_next_revision_at : option Z;
  row_revision_count : option Z;
  row_is_completed : option bool
}.

Record SubjectRow : Type := {
  srow_id : string;
  srow_name : string;
  srow_strength : option Strength;
  srow_color : option string;
  srow_topics : list TopicRow
}.

Inductive StudySlot : Type := morning | afternoon | evening | night.

Record Profile : Type := {
  daily_study_hours : option Q;
  pomodoro_work_minutes : option Q;
  pomodoro_break_minutes : option Q;
  preferred_study_slot : option StudySlot;
  current_streak : option Q
}.

(** [profile?.field] *)
Definition profileField {A : Type} (profile : option Profile)
    (field : Profile -> option A) : option A :=
  match profile with Some p => field p | None => None end.

(** *** [useScheduleGenerator], [src/unnamed/part_003] *)

Module ScheduleGenerator.

Definition toAlgorithmTopic (topic : TopicRow) : Topic :=
  {| topic_id := row_id topic;
     topic_name := row_name topic;
     confidence_level := orElse (row_confidence_level topic) 1;
     priority_score := orElse (row_priority_score topic) 50;
     estimated_hours := orElse (row_estimated_hours topic) 1;
     completed_hours := orElse (row_completed_hours topic) 0;
     last_studied_at := row_last_studied_at topic;
     next_revision_at := row_next_revision_at topic;
     revision_count := orElse (row_revision_count topic) 0%Z;
     is_completed := orElse (row_is_completed topic) false;
     last_revision_date := None;
     revision_confidence_delta := None |}.

Definition toAlgorithmSubject (subject : SubjectRow) : Subject :=
  {| subject_id := srow_id subject;
     subject_name := srow_name subject;
     strength := orElse (srow_strength subject) average;
     color := orElse (srow_color subject) "#0d9488"%string;
     topics := Some (map toAlgorithmTopic (srow_topics subject)) |}.

Definition startHourOf (preferredSlot : StudySlot) : Q :=
  match preferredSlot with
  | morning => 9
  | afternoon => 14
  | evening => 18
  | night => 21
  end.

(** A row to insert in [study_sessions].  [scheduled_at] is the time value
    of [currentTime], in milliseconds since the epoch; its conversion to an
    ISO string is left out. *)
Record SessionInsert : Type := {
  session_topic_id : string;
  scheduled_at : Z;
  planned_duration_minutes : Q;
  session_type : SessionType;
  session_status : string
}.

Record DailyProgressUpdate : Type := {
  planned_minutes : Q;
  sessions_planned : nat
}.

Section DateFns.

(** The functions of the library date-fns that the hook calls, on the time
    values of the [Date] objects.  Their code is not part of the repository:
    [startOfDay], [setHours] and [setMinutes] work on the local wall clock of
    the runtime, [addMinutes] moves a date by a number of minutes. *)
Variable startOfDay : Z -> Z.
Variables setHours setMinutes addMinutes : Z -> Q -> Z.

(** The loop over [scheduleSessions]: the rows, and [totalPlannedMinutes]
    when it ends. *)
Fixpoint convertSessions (currentTime : Z) (totalPlannedMinutes : Q)
    (scheduleSessions : list ScheduleSession) : list SessionInsert * Q :=
  match scheduleSessions with
  | [] => ([], totalPlannedMinutes)
  | session :: rest =>
      let '(sessions, total) :=
        convertSessions (addMinutes currentTime (durationMinutes session + 15))
          (totalPlannedMinutes + durationMinutes session) rest in
      ({| session_topic_id := topicId session;
          scheduled_at := currentTime;
          planned_duration_minutes := durationMinutes session;
          session_type := type session;
          session_status := "scheduled" |} :: sessions, total)
  end.

(** [generateScheduleForDate]: the error that is thrown, or the rows that are
    created and the update of the daily progress.  [date] is the time value
    of the argument; [user] and [activeExam] tell whether the values are
    present; [now] is the clock that [generateDailySchedule] reads. *)
Definition generateScheduleForDate (now : Z) (date : Z) (user : bool)
    (subjectsWithTopics : option (list SubjectRow)) (activeExam : bool)
    (profile : option Profile) (daysUntilExam : option Q)
  : string + (list SessionInsert * DailyProgressUpdate) :=
  match user, subjectsWithTopics, activeExam with
  | true, Some rows, true =>
      let dailyStudyMinutes :=
        orElse (profileField profile daily_study_hours) 3 * 60 in
      let pomodoroWork := orElse (profileField profile pomodoro_work_minutes) 25 in
      let pomodoroBreak := orElse (profileField profile pomodoro_break_minutes) 5 in
      let preferredSlot :=
        orElse (profileField profile preferred_study_slot) morning in
      let subjects := map toAlgorithmSubject rows in
      let scheduleSessions :=
        StudyAlgorithm.generateDailySchedule now subjects dailyStudyMinutes
          pomodoroWork pomodoroBreak (orElse daysUntilExam 30) in
      match scheduleSessions with
      | [] =>
          inl "No topics available to schedule. Add subjects and topics first."%string
      | _ =>
          let startHour := startHourOf preferredSlot in
          let currentTime :=
            setMinutes (setHours (startOfDay date) startHour) 0 in
          let '(sessions, totalPlannedMinutes) :=
            convertSessions currentTime 0 scheduleSessions in
          inr (sessions,
               {| planned_minutes := totalPlannedMinutes;
                  sessions_planned := List.length sessions |})
      end
  | _, _, _ => inl "Missing required data"%string
  end.

End DateFns.

End ScheduleGenerator.

(** *** [useDashboardStats], [src/unnamed/part_000] *)

Module DashboardStats.

(** The fields computed from the topics, the profile and the exam. *)
Record Stats : Type := {
  topicsTotal : nat;
  topicsCompleted : nat;
  completionPercentage : Z;
  avgConfidence : Q;
  readiness : StudyAlgorithm.Readiness
}.

Definition averageConfidence (topics : option (list TopicRow)) : Q :=
  match topics with
  | Some ((_ :: _) as ts) =>
      fold_left (fun sum t => sum + orElse (row_confidence_level t) 1) ts 0
      / inject_Z (Z.of_nat (List.length ts))
  | _ => 0
  end.

Definition dashboardStats (topics : option (list TopicRow))
    (profile : option Profile) (daysUntilExam : option Q) : Stats :=
  let totalTopics :=
    match topics with Some ts => List.length ts | None => O end in
  let completedTopics :=
    match topics with
    | Some ts =>
        List.length (filter (fun t => orElse (row_is_completed t) false) ts)
    | None => O
    end in
  let avgConfidence := averageConfidence topics in
  let completionPercentage :=
    if (0 <? totalTopics)%nat
    then Js.round (inject_Z (Z.of_nat completedTopics)
                   / inject_Z (Z.of_nat totalTopics) * 100)
    else 0%Z in
  let readiness :=
    StudyAlgorithm.calculateExamReadiness (inject_Z completionPercentage)
      avgConfidence (orElse (profileField profile current_streak) 0)
      (orElse daysUntilExam 30) in
  {| topicsTotal := totalTopics;
     topicsCompleted := completedTopics;
     completionPercentage := completionPercentage;
     avgConfidence := inject_Z (Js.round (avgConfidence * 10)) / 10;
     readiness := readiness |}.

End DashboardStats.

(** *** [getPriorityLevel], [src/components/ui/PriorityIndicator.tsx] *)

Module PriorityIndicator.

Inductive Icon : Type := Flame | TrendingUp | Minus.

Record PriorityLevel : Type := {
  label : string;
  levelColor : string;
  bg : string;
  icon : Icon
}.

Definition getPriorityLevel (score : Q) : PriorityLevel :=
  if Js.geb score 70 then
    {| label := "High"; levelColor := "text-priority-high";
       bg := "bg-priority-high/10"; icon := Flame |}
  else if Js.geb score 40 then
    {| label := "Medium"; levelColor := "text-priority-medium";
       bg := "bg-priority-medium/10"; icon := TrendingUp |}
  else
    {| label := "Low"; levelColor := "text-priority-low";
       bg := "bg-priority-low/10"; icon := Minus |}.

End PriorityIndicator.

(** ** Vocabulary of the properties *)

(** Every session fits the budget that is left when it is scheduled: the
    budget starts at [budget] and each session takes its duration from it. *)
Fixpoint withinBudget (budget : Q) (l : list ScheduleSession) : Prop :=
  match l with
  | [] => True
  | s :: rest =>
      durationMinutes s <= budget
      /\ withinBudget (budget - durationMinutes s) rest
  end.

(** Highest [priorityScore] first. *)
Definition descendingPriority (l : list ScheduleSession) : Prop :=
  StronglySorted (fun a b => (priorityScore b <= priorityScore a)%Z) l.

(** The pattern O,O,R,O,O,R,... : two sessions that are not revisions, then
    one revision, repeated until both lists are exhausted. *)
Fixpoint weave (others revisions : list ScheduleSession) : list ScheduleSession :=
  match others with
  | o1 :: o2 :: others' =>
      match revisions with
      | r :: revisions' => o1 :: o2 :: r :: weave others' revisions'
      | [] => o1 :: o2 :: weave others' []
      end
  | _ => others ++ revisions
  end.

Definition Interleaved (l : list ScheduleSession) : Prop :=
  l = weave (filter (fun s => negb (isRevisionType s)) l)
            (filter isRevisionType l).

Definition hasRevisionAndOther (l : list ScheduleSession) : Prop :=
  (exists s, In s l /\ isRevisionType s = true)
  /\ (exists s, In s l /\ isRevisionType s = false).

(** The session is the one that the allocation loop of
    [src/lib/study-algorithm.ts] pushes for the entry, with some type and
    some duration. *)
Definition sessionOfEntry (s : ScheduleSession) (e : StudyAlgorithm.Entry)
  : Prop :=
  exists ty d, s = StudyAlgorithm.mkSession e ty d.

(** The sessions are those of the first entries of the list: the i-th
    session is the session of the i-th entry. *)
Definition sessionsOfFirst (sessions : list ScheduleSession)
    (entries : list StudyAlgorithm.Entry) : Prop :=
  Forall2 sessionOfEntry sessions (firstn (List.length sessions) entries).

(** ** Sample data *)

Definition exampleNow : Z := 1700000000000.

(** Studied twenty days before [exampleNow], never revised. *)
Definition studiedTopic : Topic :=
  {| topic_id := "t1"; topic_name := "Integrals";
     confidence_level := 1; priority_score := 50;
     estimated_hours := 10; completed_hours := 0;
     last_studied_at := Some (exampleNow - 20 * MS_PER_DAY)%Z;
     next_revision_at := None; revision_count := 0; is_completed := false;
     last_revision_date := None; revision_confidence_delta := None |}.

(** Never studied. *)
Definition newTopic : Topic :=
  {| topic_id := "t2"; topic_name := "Series";
     confidence_level := 5; priority_score := 50;
     estimated_hours := 10; completed_hours := 0;
     last_studied_at := None;
     next_revision_at := None; revision_count := 0; is_completed := false;
     last_revision_date := None; revision_confidence_delta := None |}.

Definition subjectOf (ts : list Topic) : Subject :=
  {| subject_id := "s1"; subject_name := "Mathematics"; strength := weak;
     color := "#0d9488"; topics := Some ts |}.
(** The guards of the [if / else if] chain of [getRevisionSummary] on
    [next_revision_at], each with the negation of the guards before it. *)
Section RevisionGuards.
Variable c : StudyAlgorithm.Clock.

Definition overdueGuard (t : Topic) : bool :=
  match next_revision_at t with
  | Some r => (r <? StudyAlgorithm.startOfToday c)%Z
  | None => false
  end.

Definition pendingGuard (t : Topic) : bool :=
  match next_revision_at t with
  | Some r =>
      negb (r <? StudyAlgorithm.startOfToday c)%Z
      && ((StudyAlgorithm.startOfToday c <=? r)%Z
          && (r <? StudyAlgorithm.endOfToday c)%Z)
  | None => false
  end.

Definition upcomingGuard (t : Topic) : bool :=
  match next_revision_at t with
  | Some r =>
      negb (r <? StudyAlgorithm.startOfToday c)%Z
      && negb ((StudyAlgorithm.startOfToday c <=? r)%Z
               && (r <? StudyAlgorithm.endOfToday c)%Z)
      && ((StudyAlgorithm.endOfToday c <=? r)%Z
          && (r <=? StudyAlgorithm.now c + 7 * 24 * 60 * 60 * 1000)%Z)
  | None => false
  end.

End RevisionGuards.

(** ** Vocabulary of the properties of the other functions *)

(** The order of the readiness bands. *)
Definition statusRank (s : ReadinessStatus) : Z :=
  match s with
  | not_ready => 0
  | improving => 1
  | almost_ready => 2
  | exam_ready => 3
  end.

(** A result that is a number (or minus infinity) not above [bound]. *)
Definition atMost (x : Js.number) (bound : Q) : Prop :=
  match x with
  | Js.Num q => q <= bound
  | Js.NegInf => True
  | Js.PosInf | Js.NaN => False
  end.

(** The same topic with another confidence, or another [last_studied_at]. *)
Definition setConfidence (t : Topic) (c : Q) : Topic :=
  {| topic_id := topic_id t; topic_name := topic_name t;
     confidence_level := c; priority_score := priority_score t;
     estimated_hours := estimated_hours t;
     completed_hours := completed_hours t;
     last_studied_at := last_studied_at t;
     next_revision_at := next_revision_at t;
     revision_count := revision_count t; is_completed := is_completed t;
     last_revision_date := last_revision_date t;
     revision_confidence_delta := revision_confidence_delta t |}.

Definition setLastStudied (t : Topic) (x : option Z) : Topic :=
  {| topic_id := topic_id t; topic_name := topic_name t;
     confidence_level := confidence_level t;
     priority_score := priority_score t;
     estimated_hours := estimated_hours t;
     completed_hours := completed_hours t;
     last_studied_at := x;
     next_revision_at := next_revision_at t;
     revision_count := revision_count t; is_completed := is_completed t;
     last_revision_date := last_revision_date t;
     revision_confidence_delta := revision_confidence_delta t |}.

(** The uncompleted topics of the subjects, each with its subject. *)
Definition uncompletedTopics (subjects : list Subject)
  : list (Subject * Topic) :=
  flat_map (fun s =>
    map (pair s)
      (filter (fun t => negb (is_completed t)) (RevisionAware.topicsOf s)))
    subjects.

(** The session names the topic and its subject. *)
Definition sessionOfTopic (s : ScheduleSession) (st : Subject * Topic)
  : Prop :=
  topicId s = topic_id (snd st) /\ topicName s = topic_name (snd st)
  /\ subjectName s = subject_name (fst st)
  /\ subjectColor s = color (fst st).

(** The sessions can be matched one to one, in their order, with distinct
    uncompleted topics of the subjects: [picked] lists the topic of each
    session and [rest] the uncompleted topics that got no session. *)
Definition onePerTopic (subjects : list Subject)
    (schedule : list ScheduleSession) : Prop :=
  exists picked rest,
    Forall2 sessionOfTopic schedule picked
    /\ Permutation (picked ++ rest) (uncompletedTopics subjects).

(** The two reasons that [checkRevisionEligibility] gives first. *)
Definition isEligibilityReason (r : Reason) : Prop :=
  match r with
  | LowConfidenceOutOf5 _ | NotRevisedInDays _ => True
  | Text _ => False
  end.

(** The guards of the variant of [getRevisionSummary], each with the negation
    of the guards before it. *)
Section VariantRevisionGuards.
Variable now : Z.

Definition vCompletedGuard (t : Topic) : bool :=
  match last_revision_date t with
  | Some d => (now - 7 * 24 * 60 * 60 * 1000 <=? d)%Z
  | None => false
  end.

Definition vOverdueGuard (t : Topic) : bool :=
  negb (vCompletedGuard t)
  && match next_revision_at t with
     | Some r => (r <? now)%Z
     | None => false
     end.

Definition vUpcomingGuard (t : Topic) : bool :=
  negb (vCompletedGuard t)
  && match next_revision_at t with
     | Some r =>
         negb (r <? now)%Z && (r <=? now + 7 * 24 * 60 * 60 * 1000)%Z
     | None => false
     end.

Definition vPendingGuard (t : Topic) : bool :=
  negb (vCompletedGuard t)
  && match next_revision_at t with
     | Some _ => false
     | None =>
         Js.leb (confidence_level t) 3
         && match last_studied_at t with Some _ => true | None => false end
     end.

End VariantRevisionGuards.

(** The guard of [completedThisWeek] in [src/lib/study-algorithm.ts]. *)
Definition completedGuard (c : StudyAlgorithm.Clock) (t : Topic) : bool :=
  match last_revision_date t with
  | Some d =>
      ((StudyAlgorithm.now c - 7 * 24 * 60 * 60 * 1000 <=? d)
       && (d <=? StudyAlgorithm.now c))%Z
  | None => false
  end.

(** Rows that follow one another: the first one is scheduled at [start] and
    each next one at the date that [addMinutes] gives for the date of the
    row before it and its duration plus fifteen minutes. *)
Fixpoint spacedFrom (addMinutes : Z -> Q -> Z) (start : Z)
    (l : list ScheduleGenerator.SessionInsert) : Prop :=
  match l with
  | [] => True
  | s :: rest =>
      ScheduleGenerator.scheduled_at s = start
      /\ spacedFrom addMinutes
           (addMinutes start (ScheduleGenerator.planned_duration_minutes s + 15))
           rest
  end.

Definition plannedTotal (l : list ScheduleGenerator.SessionInsert) : Q :=
  fold_right
    (fun s acc => ScheduleGenerator.planned_duration_minutes s + acc) 0 l.

(** A row whose nullable columns respect the CHECK constraint on
    [confidence_level]. *)
Definition validConfidence (t : TopicRow) : Prop :=
  match row_confidence_level t with
  | Some c => 1 <= c <= 5
  | None => True
  end.

(** The base interval that [calculateNextRevision] reads for a revision
    count that is not negative. *)
Definition intervalAt (revisionCount : Z) : Z :=
  nth (Z.to_nat (Z.min revisionCount 5)) StudyAlgorithm.baseIntervals 0%Z.

(** Sample rows: one subject with a new topic and a completed one. *)
Definition exampleRows : list SubjectRow :=
  [ {| srow_id := "s1"; srow_name := "Mathematics";
       srow_strength := Some weak; srow_color := None;
       srow_topics :=
         [ {| row_id := "t1"; row_name := "Integrals";
              row_confidence_level := Some 2; row_priority_score := None;
              row_estimated_hours := Some 4; row_completed_hours := None;
              row_last_studied_at := None; row_next_revision_at := None;
              row_revision_count := None; row_is_completed := None |};
           {| row_id := "t2"; row_name := "Series";
              row_confidence_level := Some 5; row_priority_score := Some 20;
              row_estimated_hours := Some 2; row_completed_hours := Some 2;
              row_last_studied_at := Some exampleNow;
              row_next_revision_at := None;
              row_revision_count := Some 1%Z;
              row_is_completed := Some true |} ] |} ].

(** Sample rows with two topics to schedule: a new one and one that was
    studied and revised before. *)
Definition exampleRowsTwoTopics : list SubjectRow :=
  [ {| srow_id := "s1"; srow_name := "Mathematics";
       srow_strength := Some weak; srow_color := Some "#ff0000"%string;
       srow_topics :=
         [ {| row_id := "t1"; row_name := "Integrals";
              row_confidence_level := Some 2; row_priority_score := None;
              row_estimated_hours := Some 4; row_completed_hours := None;
              row_last_studied_at := None; row_next_revision_at := None;
              row_revision_count := None; row_is_completed := None |};
           {| row_id := "t2"; row_name := "Series";
              row_confidence_level := Some 3; row_priority_score := Some 20;
              row_estimated_hours := Some 2; row_completed_hours := Some 1;
              row_last_studied_at := Some (exampleNow - 3 * MS_PER_DAY)%Z;
              row_next_revision_at := None;
              row_revision_count := Some 1%Z;
              row_is_completed := Some false |} ] |} ].

(** A profile that sets every preference: two hours a day, a pomodoro of
    30 + 10 minutes, in the afternoon. *)
Definition exampleProfile : Profile :=
  {| daily_study_hours := Some 2;
     pomodoro_work_minutes := Some 30;
     pomodoro_break_minutes := Some 10;
     preferred_study_slot := Some afternoon;
     current_streak := Some 4 |}.

(** A sample runtime for the date functions: the local time is UTC, so a
    day starts at a multiple of [MS_PER_DAY], and minutes are added as
    elapsed time. *)
Definition utcStartOfDay (t : Z) : Z := (t / MS_PER_DAY * MS_PER_DAY)%Z.

Definition utcSetHours (t : Z) (hours : Q) : Z :=
  (t - (t mod MS_PER_DAY) / 3600000 * 3600000 + Js.floor hours * 3600000)%Z.

Definition utcSetMinutes (t : Z) (minutes : Q) : Z :=
  (t - (t mod 3600000) / 60000 * 60000 + Js.floor minutes * 60000)%Z.

Definition elapsedAddMinutes (t : Z) (minutes : Q) : Z :=
  (t + Js.floor (minutes * 60000))%Z.

(** * Properties *)

(** ** Arithmetic of the JavaScript helpers *)

Lemma leb_true (x y : Q) : Js.leb x y = true <-> x <= y.
Proof. apply Qle_bool_iff. Qed.

Lemma leb_false (x y : Q) : Js.leb x y = false <-> y < x.
Proof.
  unfold Js.leb. split; intro H.
  - apply Qnot_le_lt. intro Hle. apply Qle_bool_iff in Hle. congruence.
  - destruct (Qle_bool x y) eqn:E; [|reflexivity].
    apply Qle_bool_iff in E. lra.
Qed.

Lemma gtb_true (x y : Q) : Js.gtb x y = true <-> y < x.
Proof.
  unfold Js.gtb. rewrite negb_true_iff. apply leb_false.
Qed.

Lemma gtb_false (x y : Q) : Js.gtb x y = false <-> x <= y.
Proof.
  unfold Js.gtb. rewrite negb_false_iff. apply leb_true.
Qed.

Lemma ltb_true (x y : Q) : Js.ltb x y = true <-> x < y.
Proof. apply (gtb_true y x). Qed.

Lemma geb_false (x y : Q) : Js.geb x y = false <-> x < y.
Proof. apply (leb_false y x). Qed.

Lemma round_monotone (x y : Q) : x <= y -> (Js.round x <= Js.round y)%Z.
Proof.
  intro H. unfold Js.round. apply Qfloor_resp_le. lra.
Qed.

Lemma round_clamped (x : Q) :
  (0 <= Js.round (Qmin 100 (Qmax 0 x)) <= 100)%Z.
Proof.
  split.
  - change 0%Z with (Js.round 0). apply round_monotone.
    apply Q.min_glb; [lra | apply Q.le_max_l].
  - change 100%Z with (Js.round 100). apply round_monotone.
    apply Q.le_min_l.
Qed.

(** Division by a literal becomes a multiplication, which [lra] handles. *)
Ltac literal_div :=
  unfold Qdiv in *;
  change (/ 100) with (1 # 100) in *;
  change (/ 5) with (1 # 5) in *;
  change (/ 14) with (1 # 14) in *;
  change (/ 30) with (1 # 30) in *;
  change (/ 4) with (1 # 4) in *.

Lemma normalizedTime_monotone (d1 d2 : Q) :
  d1 <= d2 ->
  (if Js.gtb d1 0 then Qmin (d1 / 30) 1 else 0)
  <= (if Js.gtb d2 0 then Qmin (d2 / 30) 1 else 0).
Proof.
  intro H.
  destruct (Js.gtb d1 0) eqn:E1, (Js.gtb d2 0) eqn:E2;
    rewrite ?gtb_true, ?gtb_false in *; literal_div.
  - apply Q.min_le_compat_r. lra.
  - lra.
  - apply Q.min_glb; lra.
  - lra.
Qed.

Lemma readinessScore_monotone (c1 c2 a1 a2 s1 s2 d1 d2 : Q) :
  c1 <= c2 -> a1 <= a2 -> s1 <= s2 -> d1 <= d2 ->
  StudyAlgorithm.readinessScore c1 a1 s1 d1
  <= StudyAlgorithm.readinessScore c2 a2 s2 d2.
Proof.
  intros Hc Ha Hs Hd. unfold StudyAlgorithm.readinessScore.
  pose proof (normalizedTime_monotone d1 d2 Hd) as Ht.
  assert (Hk : Qmin (s1 / 14) 1 <= Qmin (s2 / 14) 1).
  { apply Q.min_le_compat_r. literal_div. lra. }
  literal_div. lra.
Qed.

Lemma percentage_eq (c a s d : Q) :
  StudyAlgorithm.percentage (StudyAlgorithm.calculateExamReadiness c a s d)
  = Js.round (StudyAlgorithm.readinessScore c a s d * 100).
Proof.
  unfold StudyAlgorithm.calculateExamReadiness.
  repeat match goal with |- context [if ?b then _ else _] => destruct b end;
    reflexivity.
Qed.

Lemma percentage_monotone (c1 c2 a1 a2 s1 s2 d1 d2 : Q) :
  c1 <= c2 -> a1 <= a2 -> s1 <= s2 -> d1 <= d2 ->
  (StudyAlgorithm.percentage (StudyAlgorithm.calculateExamReadiness c1 a1 s1 d1)
   <= StudyAlgorithm.percentage
        (StudyAlgorithm.calculateExamReadiness c2 a2 s2 d2))%Z.
Proof.
  intros. rewrite !percentage_eq. apply round_monotone.
  pose proof (readinessScore_monotone c1 c2 a1 a2 s1 s2 d1 d2). lra.
Qed.

(** [Math.min] returns one of its arguments. *)
Lemma Qmin_cases (x y : Q) :
  (x <= y /\ Qmin x y = x) \/ (y < x /\ Qmin x y = y).
Proof.
  unfold Qmin, GenericMinMax.gmin.
  destruct (x ?= y) eqn:E.
  - left. split; [|reflexivity]. apply Qeq_alt in E. lra.
  - left. split; [|reflexivity]. apply Qlt_alt in E. lra.
  - right. split; [|reflexivity]. apply Qgt_alt in E. lra.
Qed.

(** ** Readiness estimator *)

(** C6: the percentage of [calculateExamReadiness] is monotonically
    non-decreasing in each of its four inputs (completion percentage, average
    confidence, consistency streak, days until the exam) when the other three
    are held fixed. *)
Theorem C6_readiness_monotone_in_each_input (c a s d x y : Q) :
  x <= y ->
  let pct c a s d :=
    StudyAlgorithm.percentage (StudyAlgorithm.calculateExamReadiness c a s d) in
  (pct x a s d <= pct y a s d)%Z
  /\ (pct c x s d <= pct c y s d)%Z
  /\ (pct c a x d <= pct c a y d)%Z
  /\ (pct c a s x <= pct c a s y)%Z.
Proof.
  intros Hxy pct. unfold pct.
  repeat split; apply percentage_monotone; solve [assumption | apply Qle_refl].
Qed.

Lemma C6_readiness_monotone_witness :
  10 <= 20 /\
  (StudyAlgorithm.percentage (StudyAlgorithm.calculateExamReadiness 50 3 7 10)
   <= StudyAlgorithm.percentage
        (StudyAlgorithm.calculateExamReadiness 50 3 7 20))%Z.
Proof.
  split.
  - unfold Qle; simpl; lia.
  - apply (C6_readiness_monotone_in_each_input 50 3 7 10 10 20).
    unfold Qle; simpl; lia.
Defined.

(** C5, as stated, fails: [calculateExamReadiness] does not clamp.  With a
    completion percentage of 200 the returned percentage is 140. *)
Lemma C5_readiness_not_clamped :
  StudyAlgorithm.percentage (StudyAlgorithm.calculateExamReadiness 200 5 14 30)
  = 140%Z
  /\ ~ (0 <= StudyAlgorithm.percentage
              (StudyAlgorithm.calculateExamReadiness 200 5 14 30) <= 100)%Z.
Proof.
  split; [reflexivity | vm_compute; intros [_ H]; apply H; reflexivity].
Qed.

(** C5, amended: when the completion percentage is within 0..100, the average
    confidence within 0..5 and the streak is not negative, the percentage
    returned by [calculateExamReadiness] lies in 0..100, whatever the number
    of days until the exam. *)
Theorem C5_readiness_in_range_on_documented_inputs (c a s d : Q) :
  0 <= c <= 100 -> 0 <= a <= 5 -> 0 <= s ->
  (0 <= StudyAlgorithm.percentage (StudyAlgorithm.calculateExamReadiness c a s d)
   <= 100)%Z.
Proof.
  intros [Hc0 Hc1] [Ha0 Ha1] Hs.
  rewrite percentage_eq.
  assert (H : 0 <= StudyAlgorithm.readinessScore c a s d <= 1).
  { unfold StudyAlgorithm.readinessScore.
    assert (Hk : 0 <= Qmin (s / 14) 1 <= 1).
    { split; [apply Q.min_glb; literal_div; lra | apply Q.le_min_r]. }
    assert (Ht : 0 <= (if Js.gtb d 0 then Qmin (d / 30) 1 else 0) <= 1).
    { destruct (Js.gtb d 0) eqn:E; [|lra].
      apply gtb_true in E.
      split; [apply Q.min_glb; literal_div; lra | apply Q.le_min_r]. }
    literal_div. lra. }
  split.
  - apply (round_monotone 0). lra.
  - apply (round_monotone _ 100). lra.
Qed.

Lemma C5_readiness_in_range_witness :
  (0 <= StudyAlgorithm.percentage
          (StudyAlgorithm.calculateExamReadiness 100 5 14 30) <= 100)%Z.
Proof.
  apply (C5_readiness_in_range_on_documented_inputs 100 5 14 30);
    unfold Qle; simpl; lia.
Defined.

(** C7, as stated, fails: the percentage of [calculateExamReadiness(0,1,0,30)]
    is not 10. *)
Lemma C7_percentage_is_not_10 :
  StudyAlgorithm.percentage (StudyAlgorithm.calculateExamReadiness 0 1 0 30)
  <> 10%Z.
Proof. vm_compute. discriminate. Qed.

(** C7, amended: [calculateExamReadiness(0, 1, 0, 30)] returns the status
    [not_ready] with the percentage 17: the time factor contributes
    0.10 * min(30/30, 1) = 0.10 and the confidence factor
    (1/5) * 0.35 = 0.07; completion and streak contribute nothing. *)
Theorem C7_readiness_of_0_1_0_30 :
  StudyAlgorithm.calculateExamReadiness 0 1 0 30
  = {| StudyAlgorithm.status := not_ready;
       StudyAlgorithm.percentage := 17;
       StudyAlgorithm.message :=
         "Let's build your study momentum. Start with high-priority topics." |}
  /\ StudyAlgorithm.readinessScore 0 1 0 30 == 0.10 + 0.07.
Proof. split; reflexivity. Qed.

(** ** Recovery rebalancer *)

(** C8: [rebalanceAfterMissed] divides by [daysToRecover], which is 0 when no
    minutes were missed: [rebalanceAfterMissed(0, 5, 180, 25)] returns
    [extraMinutesPerDay = NaN] (and [daysToRecover = 0]). *)
Theorem C8_rebalance_nothing_missed_gives_NaN :
  StudyAlgorithm.rebalanceAfterMissed 0 5 180 25
  = {| StudyAlgorithm.extraMinutesPerDay := Js.NaN;
       StudyAlgorithm.daysToRecover := Js.Num 0;
       StudyAlgorithm.recoveryMessage :=
         StudyAlgorithm.AddingExtraMinutes Js.NaN (Js.Num 0) |}
  /\ Js.isFinite
       (StudyAlgorithm.extraMinutesPerDay
          (StudyAlgorithm.rebalanceAfterMissed 0 5 180 25)) = false.
Proof. split; reflexivity. Qed.

(** With a daily study time of 0 as well, both results are NaN. *)
Lemma rebalance_zero_daily_minutes_gives_NaN :
  StudyAlgorithm.rebalanceAfterMissed 0 5 0 25
  = {| StudyAlgorithm.extraMinutesPerDay := Js.NaN;
       StudyAlgorithm.daysToRecover := Js.NaN;
       StudyAlgorithm.recoveryMessage :=
         StudyAlgorithm.AddingExtraMinutes Js.NaN Js.NaN |}.
Proof. reflexivity. Qed.

(** Whenever days remain and nothing was missed, the extra minutes are NaN. *)
Lemma rebalance_nothing_missed_always_NaN (remainingDays daily pct : Q) :
  0 < remainingDays ->
  StudyAlgorithm.extraMinutesPerDay
    (StudyAlgorithm.rebalanceAfterMissed 0 remainingDays daily pct) = Js.NaN.
Proof.
  intro Hpos. unfold StudyAlgorithm.rebalanceAfterMissed.
  destruct (Js.leb remainingDays 0) eqn:E.
  { apply leb_true in E. lra. }
  cbn [StudyAlgorithm.extraMinutesPerDay].
  set (m := Js.round (daily * (pct / 100))).
  unfold Js.ofZ, Js.div at 2.
  destruct (Qeq_bool (inject_Z m) 0) eqn:Em.
  - reflexivity.
  - cbn [Js.ceilN Js.ofZ].
    assert (Hc : Js.ceil (0 / inject_Z m) = 0%Z).
    { unfold Js.ceil.
      assert (H0 : 0 / inject_Z m == 0) by (unfold Qdiv; lra).
      rewrite H0. reflexivity. }
    rewrite Hc.
    destruct (Qmin_cases (inject_Z 0) remainingDays) as [[_ Hmin] | [Hlt _]].
    + unfold Js.ofZ. cbn [Js.min]. rewrite Hmin. reflexivity.
    + change (inject_Z 0) with 0 in Hlt. lra.
Qed.

(** The guarded branch and a regular recovery are finite. *)
Lemma rebalance_regular_case :
  StudyAlgorithm.rebalanceAfterMissed 300 2 180 25
  = {| StudyAlgorithm.extraMinutesPerDay := Js.Num 45;
       StudyAlgorithm.daysToRecover := Js.Num 2;
       StudyAlgorithm.recoveryMessage :=
         StudyAlgorithm.AddingExtraMinutes (Js.Num 45) (Js.Num 2) |}.
Proof. reflexivity. Qed.

(** ** Priority engine *)

(** C9: for every topic, subject strength, number of days until the exam and
    clock value, the learning-priority score ([calculateTopicPriority]) and
    the revision-priority score ([calculateRevisionPriority]) are integers
    (values of [Math.round]) between 0 and 100. *)
Theorem C9_priority_scores_between_0_and_100
    (now : Z) (topic : Topic) (subjectStrength : Strength) (daysUntilExam : Q) :
  (0 <= score (StudyAlgorithm.calculateTopicPriority now topic subjectStrength
                 daysUntilExam) <= 100)%Z
  /\ (0 <= score (RevisionAware.calculateRevisionPriority now topic
                    subjectStrength daysUntilExam) <= 100)%Z.
Proof.
  split.
  - unfold StudyAlgorithm.calculateTopicPriority. cbn [score].
    apply round_clamped.
  - unfold RevisionAware.calculateRevisionPriority. cbn [score].
    apply round_clamped.
Qed.

(** The score really is the clamped weighted sum: two sample values. *)
Example priority_of_studiedTopic :
  score (StudyAlgorithm.calculateTopicPriority exampleNow studiedTopic weak 30)
  = 95%Z
  /\ score (RevisionAware.calculateRevisionPriority exampleNow studiedTopic
              weak 30) = 92%Z.
Proof. split; reflexivity. Qed.

(** C4, as stated, fails: [calculateTopicPriority] reads [Date.now()] itself.
    The same topic, strength and days until the exam score 95 when the call
    is made twenty days after the topic was studied and 84 when it is made
    one day after. *)
Lemma C4_same_arguments_different_scores :
  score (StudyAlgorithm.calculateTopicPriority exampleNow studiedTopic weak 30)
  = 95%Z
  /\ score (StudyAlgorithm.calculateTopicPriority
              (exampleNow - 19 * MS_PER_DAY) studiedTopic weak 30) = 84%Z
  /\ StudyAlgorithm.calculateTopicPriority exampleNow studiedTopic weak 30
     <> StudyAlgorithm.calculateTopicPriority
          (exampleNow - 19 * MS_PER_DAY) studiedTopic weak 30.
Proof.
  split; [reflexivity|]. split; [reflexivity|].
  intro H. apply (f_equal score) in H. vm_compute in H. discriminate.
Qed.

(** C4, amended: the result of [calculateTopicPriority] is determined by its
    arguments together with the clock it reads, and depends on the clock only
    through the whole number of days since [last_studied_at]: two calls with
    the same arguments return the same score and reasons when the topic was
    never studied, or when both calls see the same number of days. *)
Theorem C4_priority_determined_by_arguments_and_day_count
    (now1 now2 : Z) (topic : Topic) (subjectStrength : Strength)
    (daysUntilExam : Q) :
  (forall t, last_studied_at topic = Some t ->
             daysSince now1 t = daysSince now2 t) ->
  StudyAlgorithm.calculateTopicPriority now1 topic subjectStrength daysUntilExam
  = StudyAlgorithm.calculateTopicPriority now2 topic subjectStrength
      daysUntilExam.
Proof.
  intro Hdays. unfold StudyAlgorithm.calculateTopicPriority.
  destruct (last_studied_at topic) as [t|].
  - rewrite (Hdays t eq_refl). reflexivity.
  - reflexivity.
Qed.

Lemma C4_priority_determined_witness :
  StudyAlgorithm.calculateTopicPriority exampleNow studiedTopic weak 30
  = StudyAlgorithm.calculateTopicPriority (exampleNow + 1000) studiedTopic
      weak 30.
Proof.
  apply (C4_priority_determined_by_arguments_and_day_count
           exampleNow (exampleNow + 1000) studiedTopic weak 30).
  intros t Ht. injection Ht as <-. vm_compute. reflexivity.
Defined.

(** ** Revision summary *)

Section RevisionBuckets.
Variable c : StudyAlgorithm.Clock.

Lemma visitTopic_buckets (acc : StudyAlgorithm.RevisionSummary) (t : Topic) :
  let acc' := StudyAlgorithm.visitTopic c acc t in
  StudyAlgorithm.overdueTopics acc'
  = StudyAlgorithm.overdueTopics acc ++ filter (overdueGuard c) [t]
  /\ StudyAlgorithm.pendingRevisions acc'
     = StudyAlgorithm.pendingRevisions acc ++ filter (pendingGuard c) [t]
  /\ StudyAlgorithm.upcomingRevisions acc'
     = StudyAlgorithm.upcomingRevisions acc ++ filter (upcomingGuard c) [t].
Proof.
  unfold StudyAlgorithm.visitTopic, overdueGuard, pendingGuard, upcomingGuard.
  cbn [filter].
  destruct (last_revision_date t) as [d|];
    [destruct (_ && _)%bool|];
    (destruct (next_revision_at t) as [r|];
     [ destruct (r <? _)%Z; [|destruct (_ && _)%bool; [|destruct (_ && _)%bool]]
     | ]);
    cbn; rewrite ?app_nil_r; auto.
Qed.

Lemma fold_visitTopic_buckets (ts : list Topic)
    (acc : StudyAlgorithm.RevisionSummary) :
  let acc' := fold_left (StudyAlgorithm.visitTopic c) ts acc in
  StudyAlgorithm.overdueTopics acc'
  = StudyAlgorithm.overdueTopics acc ++ filter (overdueGuard c) ts
  /\ StudyAlgorithm.pendingRevisions acc'
     = StudyAlgorithm.pendingRevisions acc ++ filter (pendingGuard c) ts
  /\ StudyAlgorithm.upcomingRevisions acc'
     = StudyAlgorithm.upcomingRevisions acc ++ filter (upcomingGuard c) ts.
Proof.
  revert acc. induction ts as [|t ts IH]; intro acc; cbn zeta.
  - cbn. rewrite !app_nil_r. auto.
  - cbn [fold_left].
    destruct (IH (StudyAlgorithm.visitTopic c acc t)) as (Ho & Hp & Hu).
    destruct (visitTopic_buckets acc t) as (Ho1 & Hp1 & Hu1).
    rewrite Ho, Hp, Hu, Ho1, Hp1, Hu1, <- !app_assoc, <- !filter_app.
    auto.
Qed.

(** Each bucket holds, in the order of the input, the topics that satisfy
    its guard. *)
Lemma getRevisionSummary_buckets (ts : list Topic) :
  let r := StudyAlgorithm.getRevisionSummary c ts in
  StudyAlgorithm.overdueTopics r = filter (overdueGuard c) ts
  /\ StudyAlgorithm.pendingRevisions r = filter (pendingGuard c) ts
  /\ StudyAlgorithm.upcomingRevisions r = filter (upcomingGuard c) ts.
Proof.
  apply (fold_visitTopic_buckets ts).
Qed.

Lemma guards_exclusive (t : Topic) :
  (overdueGuard c t && pendingGuard c t = false)
  /\ (overdueGuard c t && upcomingGuard c t = false)
  /\ (pendingGuard c t && upcomingGuard c t = false).
Proof.
  unfold overdueGuard, pendingGuard, upcomingGuard.
  destruct (next_revision_at t) as [r|]; [|auto].
  destruct (r <? _)%Z, (_ <=? r)%Z, (r <? _)%Z; cbn; auto.
Qed.

End RevisionBuckets.

(** C10: for every list of topics (and every clock value), no topic is in two
    of the three buckets [overdueTopics], [pendingRevisions] and
    [upcomingRevisions] of [getRevisionSummary]: they are pairwise
    disjoint. *)
Theorem C10_revision_buckets_pairwise_disjoint
    (c : StudyAlgorithm.Clock) (ts : list Topic) (t : Topic) :
  let r := StudyAlgorithm.getRevisionSummary c ts in
  ~ (In t (StudyAlgorithm.overdueTopics r)
     /\ In t (StudyAlgorithm.pendingRevisions r))
  /\ ~ (In t (StudyAlgorithm.overdueTopics r)
        /\ In t (StudyAlgorithm.upcomingRevisions r))
  /\ ~ (In t (StudyAlgorithm.pendingRevisions r)
        /\ In t (StudyAlgorithm.upcomingRevisions r)).
Proof.
  intro r. subst r.
  destruct (getRevisionSummary_buckets c ts) as (Ho & Hp & Hu).
  rewrite Ho, Hp, Hu.
  destruct (guards_exclusive c t) as (E1 & E2 & E3).
  repeat split; intros [H1 H2];
    apply filter_In in H1; apply filter_In in H2;
    destruct H1 as [_ H1]; destruct H2 as [_ H2];
    rewrite H1, H2 in *; discriminate.
Qed.

(** A topic is classified by where its [next_revision_at] falls: before
    today, within today, or after today and within the next seven days. *)
Lemma revision_bucket_membership
    (c : StudyAlgorithm.Clock) (ts : list Topic) (t : Topic) (r : Z) :
  In t ts -> next_revision_at t = Some r ->
  let s := StudyAlgorithm.getRevisionSummary c ts in
  (In t (StudyAlgorithm.overdueTopics s)
   <-> (r < StudyAlgorithm.startOfToday c)%Z)
  /\ (In t (StudyAlgorithm.pendingRevisions s)
      <-> (StudyAlgorithm.startOfToday c <= r < StudyAlgorithm.endOfToday c)%Z)
  /\ (In t (StudyAlgorithm.upcomingRevisions s)
      <-> (StudyAlgorithm.startOfToday c <= r
           /\ StudyAlgorithm.endOfToday c <= r
              <= StudyAlgorithm.now c + 7 * 24 * 60 * 60 * 1000)%Z).
Proof.
  intros Hin Hr s. subst s.
  destruct (getRevisionSummary_buckets c ts) as (Ho & Hp & Hu).
  rewrite Ho, Hp, Hu, !filter_In.
  unfold overdueGuard, pendingGuard, upcomingGuard. rewrite Hr.
  rewrite ?andb_true_iff, ?negb_true_iff, ?andb_false_iff,
    ?Z.ltb_lt, ?Z.leb_le, ?Z.ltb_ge, ?Z.leb_gt.
  repeat split; intros; try tauto; try lia.
Qed.

(** ** Schedule generator of [src/lib/study-algorithm.ts] *)

Lemma totalDuration_cons (s : ScheduleSession) (l : list ScheduleSession) :
  totalDuration (s :: l) = durationMinutes s + totalDuration l.
Proof. reflexivity. Qed.

Lemma revisionTime_cons (s : ScheduleSession) (l : list ScheduleSession) :
  revisionTime (s :: l)
  = if isRevisionType s then durationMinutes s + revisionTime l
    else revisionTime l.
Proof.
  unfold revisionTime. cbn [filter]. destruct (isRevisionType s); reflexivity.
Qed.

Lemma withinBudget_total (l : list ScheduleSession) (budget : Q) :
  withinBudget budget l -> 0 <= budget -> totalDuration l <= budget.
Proof.
  revert budget. induction l as [|s l IH]; intros budget Hw Hb.
  - exact Hb.
  - destruct Hw as [Hs Hl]. rewrite totalDuration_cons.
    specialize (IH (budget - durationMinutes s) Hl). lra.
Qed.

Section LibAllocation.
Variables availableMinutes pomodoroWorkMinutes pomodoroBreakMinutes : Q.

Local Abbreviation sessionDuration :=
  (StudyAlgorithm.sessionDuration pomodoroWorkMinutes pomodoroBreakMinutes).
Local Abbreviation chooseSession :=
  (StudyAlgorithm.chooseSession availableMinutes pomodoroWorkMinutes pomodoroBreakMinutes).
Local Abbreviation allocate :=
  (StudyAlgorithm.allocate availableMinutes pomodoroWorkMinutes pomodoroBreakMinutes).

(** What one pass through the [if / else if] chain does. *)
Lemma chooseSession_spec (t : Topic) (st : StudyAlgorithm.Alloc) :
  forall ty d st1, chooseSession t st = (ty, d, st1) ->
  d <= StudyAlgorithm.remainingMinutes st
  /\ (ty = revision ->
      StudyAlgorithm.revisionAllocated st
      < StudyAlgorithm.targetRevision availableMinutes
      /\ d <= sessionDuration
      /\ StudyAlgorithm.revisionAllocated st1
         = StudyAlgorithm.revisionAllocated st + d)
  /\ (ty <> revision ->
      StudyAlgorithm.revisionAllocated st1
      = StudyAlgorithm.revisionAllocated st).
Proof.
  intros ty d st1. unfold StudyAlgorithm.chooseSession.
  destruct (_ && _)%bool;
    [|destruct (_ && _)%bool;
      [|destruct (Js.ltb (StudyAlgorithm.revisionAllocated st) _) eqn:E]];
    intro H; injection H as <- <- <-; cbn;
    (split; [apply Q.le_min_r|]);
    (split; [intro Hty; try discriminate | intro Hty; try congruence]).
  apply ltb_true in E.
  split; [exact E|]. split; [apply Q.le_min_l | reflexivity].
Qed.

Lemma allocate_cons (e : StudyAlgorithm.Entry) (rest : list StudyAlgorithm.Entry)
    (st : StudyAlgorithm.Alloc) :
  allocate (e :: rest) st
  = if Js.ltb (StudyAlgorithm.remainingMinutes st) sessionDuration then []
    else
      let '(ty, d, st1) := chooseSession (StudyAlgorithm.topic e) st in
      StudyAlgorithm.mkSession e ty d
      :: allocate rest
           {| StudyAlgorithm.remainingMinutes :=
                StudyAlgorithm.remainingMinutes st - d;
              StudyAlgorithm.learningAllocated :=
                StudyAlgorithm.learningAllocated st1;
              StudyAlgorithm.revisionAllocated :=
                StudyAlgorithm.revisionAllocated st1;
              StudyAlgorithm.recallAllocated :=
                StudyAlgorithm.recallAllocated st1 |}.
Proof. reflexivity. Qed.

Lemma allocate_withinBudget (entries : list StudyAlgorithm.Entry) :
  forall st,
    withinBudget (StudyAlgorithm.remainingMinutes st) (allocate entries st).
Proof.
  induction entries as [|e rest IH]; intro st.
  - exact I.
  - rewrite allocate_cons.
    destruct (Js.ltb _ _); [exact I|].
    destruct (chooseSession (StudyAlgorithm.topic e) st) as [[ty d] st1] eqn:E.
    destruct (chooseSession_spec _ _ _ _ _ E) as (Hd & _).
    split; [exact Hd|].
    match goal with |- context [allocate rest ?s] => exact (IH s) end.
Qed.

Lemma allocate_revisionTime (entries : list StudyAlgorithm.Entry) :
  forall st,
    revisionTime (allocate entries st) == 0
    \/ StudyAlgorithm.revisionAllocated st + revisionTime (allocate entries st)
       < StudyAlgorithm.targetRevision availableMinutes + sessionDuration.
Proof.
  induction entries as [|e rest IH]; intro st.
  - left. reflexivity.
  - rewrite allocate_cons.
    destruct (Js.ltb _ _); [left; reflexivity|].
    destruct (chooseSession (StudyAlgorithm.topic e) st) as [[ty d] st1] eqn:E.
    destruct (chooseSession_spec _ _ _ _ _ E) as (_ & Hrev & Hother).
    rewrite revisionTime_cons.
    match goal with |- context [allocate rest ?s] =>
      specialize (IH s); set (rest' := allocate rest s) in * end.
    cbn [StudyAlgorithm.revisionAllocated] in IH.
    unfold isRevisionType. cbn [type StudyAlgorithm.mkSession durationMinutes].
    destruct ty.
    + rewrite Hother in IH by discriminate. exact IH.
    + destruct (Hrev eq_refl) as (Hlt & Hle & Hst1). rewrite Hst1 in IH.
      right. destruct IH as [IH | IH]; lra.
    + rewrite Hother in IH by discriminate. exact IH.
Qed.

Lemma allocate_scores (entries : list StudyAlgorithm.Entry) :
  forall st s, In s (allocate entries st) ->
  exists e, In e entries /\ priorityScore s = score (StudyAlgorithm.priority e).
Proof.
  induction entries as [|e rest IH]; intros st s Hin.
  - destruct Hin.
  - rewrite allocate_cons in Hin.
    destruct (Js.ltb _ _); [destruct Hin|].
    destruct (chooseSession (StudyAlgorithm.topic e) st) as [[ty d] st1].
    destruct Hin as [<- | Hin].
    + exists e. split; [left; reflexivity | reflexivity].
    + destruct (IH _ _ Hin) as (e' & He' & Hs).
      exists e'. split; [right; exact He' | exact Hs].
Qed.

Lemma allocate_descending (entries : list StudyAlgorithm.Entry) :
  StronglySorted
    (fun a b => (score (StudyAlgorithm.priority b)
                 <= score (StudyAlgorithm.priority a))%Z) entries ->
  forall st, descendingPriority (allocate entries st).
Proof.
  induction 1 as [|e rest Hsorted IH Hall]; intro st.
  - constructor.
  - rewrite allocate_cons.
    destruct (Js.ltb _ _); [constructor|].
    destruct (chooseSession (StudyAlgorithm.topic e) st) as [[ty d] st1].
    constructor; [apply IH|].
    apply Forall_forall. intros s Hs.
    destruct (allocate_scores _ _ _ Hs) as (e' & He' & ->).
    rewrite Forall_forall in Hall. exact (Hall e' He').
Qed.

End LibAllocation.

(** The sort puts the highest score first. *)
Lemma insertByScore_In {A : Type} (key : A -> Z) (x y : A) (l : list A) :
  In y (insertByScore key x l) <-> y = x \/ In y l.
Proof.
  induction l as [|z l IH]; cbn.
  - intuition.
  - destruct (key z <=? key x)%Z; cbn; [intuition | rewrite IH; intuition].
Qed.

Lemma insertByScore_sorted {A : Type} (key : A -> Z) (x : A) (l : list A) :
  StronglySorted (fun a b => (key b <= key a)%Z) l ->
  StronglySorted (fun a b => (key b <= key a)%Z) (insertByScore key x l).
Proof.
  induction 1 as [|z l Hsorted IH Hall]; cbn.
  - repeat constructor.
  - destruct (key z <=? key x)%Z eqn:E.
    + apply Z.leb_le in E. constructor; [constructor; assumption|].
      constructor; [exact E|].
      apply Forall_forall. intros y Hy.
      rewrite Forall_forall in Hall. specialize (Hall y Hy). lia.
    + apply Z.leb_gt in E. constructor; [exact IH|].
      apply Forall_forall. intros y Hy.
      apply insertByScore_In in Hy. destruct Hy as [-> | Hy]; [lia|].
      rewrite Forall_forall in Hall. exact (Hall y Hy).
Qed.

Lemma sortByScoreDesc_sorted {A : Type} (key : A -> Z) (l : list A) :
  StronglySorted (fun a b => (key b <= key a)%Z) (sortByScoreDesc key l).
Proof.
  induction l as [|x l IH]; cbn.
  - constructor.
  - apply insertByScore_sorted. exact IH.
Qed.

(** ** Schedule generator of the revision-aware variant *)

Lemma revisionTime_app (l1 l2 : list ScheduleSession) :
  revisionTime (l1 ++ l2) == revisionTime l1 + revisionTime l2.
Proof.
  induction l1 as [|s l1 IH]; cbn [app].
  - unfold revisionTime at 2. cbn. lra.
  - rewrite !revisionTime_cons. destruct (isRevisionType s); lra.
Qed.

Section VariantAllocation.
Variables availableMinutes pomodoroWorkMinutes pomodoroBreakMinutes : Q.

Local Abbreviation sessionDuration :=
  (RevisionAware.sessionDuration pomodoroWorkMinutes pomodoroBreakMinutes).
Local Abbreviation revisionBudget :=
  (inject_Z (RevisionAware.revisionBudget availableMinutes)).
Local Abbreviation allocateRevisions :=
  (RevisionAware.allocateRevisions availableMinutes pomodoroWorkMinutes pomodoroBreakMinutes).
Local Abbreviation allocateLearning :=
  (RevisionAware.allocateLearning pomodoroWorkMinutes pomodoroBreakMinutes).

Lemma allocateLearning_withinBudget (entries : list StudyAlgorithm.Entry) :
  forall remaining, withinBudget remaining (allocateLearning entries remaining).
Proof.
  induction entries as [|e rest IH]; intro remaining; cbn.
  - exact I.
  - destruct (Js.ltb _ _); [exact I|].
    split; [|apply IH].
    cbn. destruct (last_studied_at _); apply Q.le_min_r.
Qed.

Lemma allocateLearning_no_revision (entries : list StudyAlgorithm.Entry) :
  forall remaining,
    filter isRevisionType (allocateLearning entries remaining) = [].
Proof.
  induction entries as [|e rest IH]; intro remaining; cbn.
  - reflexivity.
  - destruct (Js.ltb _ _); [reflexivity|]. cbn. apply IH.
Qed.

(** The first loop: its sessions fit the budget, whatever is scheduled
    afterwards within what it leaves; and a revision session is only
    started while the revision time is below the budget. *)
Lemma allocateRevisions_spec (entries : list RevisionAware.RevisionEntry) :
  forall remaining allocated sessions remaining',
    allocateRevisions entries remaining allocated = (sessions, remaining') ->
    (forall later, withinBudget remaining' later ->
                   withinBudget remaining (sessions ++ later))
    /\ (revisionTime sessions == 0
        \/ allocated + revisionTime sessions < revisionBudget + sessionDuration).
Proof.
  induction entries as [|e rest IH]; intros remaining allocated sessions remaining'.
  - cbn. intro H. injection H as <- <-. split; [auto | left; reflexivity].
  - cbn [RevisionAware.allocateRevisions].
    destruct (Js.ltb remaining pomodoroWorkMinutes).
    { intro H. injection H as <- <-. split; [auto | left; reflexivity]. }
    destruct (Js.geb allocated _) eqn:Ebudget.
    { intro H. injection H as <- <-. split; [auto | left; reflexivity]. }
    apply geb_false in Ebudget.
    match goal with |- context [RevisionAware.allocateRevisions _ _ _ rest ?r ?a] =>
      specialize (IH r a);
      destruct (RevisionAware.allocateRevisions availableMinutes
                  pomodoroWorkMinutes pomodoroBreakMinutes rest r a)
        as [ss rem1] eqn:E
    end.
    specialize (IH ss rem1 eq_refl). destruct IH as [IHw IHr].
    intro H. injection H as <- <-. split.
    + intros later Hlater. cbn [app withinBudget].
      split; [|apply IHw; exact Hlater].
      cbn. destruct (RevisionAware.isQuickRecall _); apply Q.le_min_r.
    + rewrite revisionTime_cons. unfold isRevisionType.
      cbn [type RevisionAware.mkRevisionSession durationMinutes].
      destruct (RevisionAware.isQuickRecall (RevisionAware.rtopic e)).
      * exact IHr.
      * right.
        assert (Hd : Qmin (RevisionAware.sessionDuration pomodoroWorkMinutes
                             pomodoroBreakMinutes) remaining
                     <= sessionDuration) by apply Q.le_min_l.
        fold revisionBudget in Ebudget.
        destruct IHr as [IHr | IHr]; lra.
Qed.

End VariantAllocation.

(** *** The interleaving *)

Lemma interleaveLoop_weave (fuel : nat) :
  forall revisions others,
    (List.length revisions + List.length others <= fuel)%nat ->
    RevisionAware.interleaveLoop fuel revisions others = weave others revisions.
Proof.
  induction fuel as [|fuel IH]; intros revisions others Hfuel.
  - destruct revisions, others; cbn in Hfuel; try lia. reflexivity.
  - destruct others as [|o1 [|o2 others]], revisions as [|r revisions];
      cbn in Hfuel |- *; try reflexivity.
    all: rewrite IH by (cbn; lia); reflexivity.
Qed.

Lemma filter_length_split {A : Type} (f : A -> bool) (l : list A) :
  (List.length (filter f l) + List.length (filter (fun x => negb (f x)) l)
   = List.length l)%nat.
Proof.
  induction l as [|x l IH]; cbn; [reflexivity|].
  destruct (f x); cbn; lia.
Qed.

Lemma interleave_weave (schedule : list ScheduleSession) :
  RevisionAware.interleave schedule
  = weave (filter (fun s => negb (isRevisionType s)) schedule)
          (filter isRevisionType schedule).
Proof.
  unfold RevisionAware.interleave. apply interleaveLoop_weave.
  rewrite filter_length_split. lia.
Qed.


Lemma list_pair_ind {A : Type} (P : list A -> Prop) :
  P [] -> (forall x, P [x]) -> (forall x y l, P l -> P (x :: y :: l)) ->
  forall l, P l.
Proof.
  intros Hnil Hone Hstep. fix IH 1.
  intros [|x [|y l]]; [exact Hnil | apply Hone | apply Hstep, IH].
Qed.

Lemma filter_keeps_all {A : Type} (f : A -> bool) (l : list A) :
  Forall (fun x => f x = true) l -> filter f l = l.
Proof.
  induction 1 as [|x l Hx _ IH]; cbn; [reflexivity|].
  rewrite Hx, IH. reflexivity.
Qed.

Lemma filter_drops_all {A : Type} (f : A -> bool) (l : list A) :
  Forall (fun x => f x = false) l -> filter f l = [].
Proof.
  induction 1 as [|x l Hx _ IH]; cbn; [reflexivity|].
  rewrite Hx, IH. reflexivity.
Qed.

(** Weaving keeps both lists, each in its order. *)
Lemma weave_filters (others : list ScheduleSession) :
  forall revisions,
    Forall (fun s => isRevisionType s = false) others ->
    Forall (fun s => isRevisionType s = true) revisions ->
    filter (fun s => negb (isRevisionType s)) (weave others revisions) = others
    /\ filter isRevisionType (weave others revisions) = revisions.
Proof.
  induction others as [|o|o1 o2 others IH] using list_pair_ind;
    intros revisions Ho Hr.
  - cbn [weave app]. split.
    + apply filter_drops_all. revert Hr. apply Forall_impl.
      intros s ->. reflexivity.
    + apply filter_keeps_all, Hr.
  - cbn [weave app filter]. inversion_clear Ho as [|? ? Ho1 _].
    rewrite Ho1. cbn [negb]. split.
    + f_equal. apply filter_drops_all. revert Hr. apply Forall_impl.
      intros s ->. reflexivity.
    + apply filter_keeps_all, Hr.
  - inversion_clear Ho as [|? ? Ho1 Ho']. inversion_clear Ho' as [|? ? Ho2 Ho''].
    destruct revisions as [|r revisions]; cbn [weave filter].
    + rewrite Ho1, Ho2. cbn [negb].
      destruct (IH [] Ho'' (Forall_nil _)) as [IH1 IH2].
      rewrite IH1, IH2. split; reflexivity.
    + inversion_clear Hr as [|? ? Hr1 Hr'].
      rewrite Ho1, Ho2, Hr1. cbn [negb].
      destruct (IH revisions Ho'' Hr') as [IH1 IH2].
      rewrite IH1, IH2. split; reflexivity.
Qed.

Lemma totalDuration_app (l1 l2 : list ScheduleSession) :
  totalDuration (l1 ++ l2) == totalDuration l1 + totalDuration l2.
Proof.
  induction l1 as [|s l1 IH]; cbn [app].
  - change (totalDuration []) with 0. lra.
  - rewrite !totalDuration_cons. lra.
Qed.

Lemma totalDuration_weave (others : list ScheduleSession) :
  forall revisions,
    totalDuration (weave others revisions)
    == totalDuration others + totalDuration revisions.
Proof.
  induction others as [|o|o1 o2 others IH] using list_pair_ind; intro revisions.
  - cbn [weave app]. change (totalDuration []) with 0. lra.
  - cbn [weave]. apply totalDuration_app.
  - destruct revisions as [|r revisions]; cbn [weave];
      rewrite !totalDuration_cons, IH; try change (totalDuration []) with 0; lra.
Qed.

Lemma totalDuration_filter_split (f : ScheduleSession -> bool)
    (l : list ScheduleSession) :
  totalDuration l
  == totalDuration (filter (fun s => negb (f s)) l) + totalDuration (filter f l).
Proof.
  induction l as [|s l IH]; cbn [filter].
  - change (totalDuration []) with 0. lra.
  - destruct (f s); cbn [negb]; rewrite !totalDuration_cons; lra.
Qed.

Lemma filter_Forall_false (l : list ScheduleSession) :
  Forall (fun s => isRevisionType s = false)
         (filter (fun s => negb (isRevisionType s)) l).
Proof.
  apply Forall_forall. intros s Hs. apply filter_In in Hs.
  destruct Hs as [_ Hs]. now apply negb_true_iff in Hs.
Qed.

Lemma filter_Forall_true (l : list ScheduleSession) :
  Forall (fun s => isRevisionType s = true) (filter isRevisionType l).
Proof.
  apply Forall_forall. intros s Hs. apply filter_In in Hs. tauto.
Qed.

(** The interleaving is the pattern O,O,R of its own sessions; it keeps the
    revision sessions and the total duration. *)
Lemma interleave_Interleaved (schedule : list ScheduleSession) :
  Interleaved (RevisionAware.interleave schedule).
Proof.
  unfold Interleaved. rewrite interleave_weave.
  destruct (weave_filters _ _ (filter_Forall_false schedule)
              (filter_Forall_true schedule)) as [-> ->].
  reflexivity.
Qed.

Lemma interleave_revisionTime (schedule : list ScheduleSession) :
  revisionTime (RevisionAware.interleave schedule) = revisionTime schedule.
Proof.
  unfold revisionTime. rewrite interleave_weave.
  destruct (weave_filters _ _ (filter_Forall_false schedule)
              (filter_Forall_true schedule)) as [_ ->].
  reflexivity.
Qed.

Lemma interleave_totalDuration (schedule : list ScheduleSession) :
  totalDuration (RevisionAware.interleave schedule) == totalDuration schedule.
Proof.
  rewrite interleave_weave, totalDuration_weave.
  symmetry. apply totalDuration_filter_split.
Qed.

Example weave_three_and_two (o1 o2 o3 r1 r2 : ScheduleSession) :
  weave [o1; o2; o3] [r1; r2] = [o1; o2; r1; o3; r2].
Proof. reflexivity. Qed.

Lemma revisionBudget_floor (availableMinutes : Q) :
  RevisionAware.revisionBudget availableMinutes
  = Js.floor (availableMinutes * 0.40).
Proof.
  unfold RevisionAware.revisionBudget, Js.floor,
    RevisionAware.REVISION_CONFIG.MAX_REVISION_PERCENTAGE.
  apply Qfloor_comp. literal_div. lra.
Qed.

Lemma allocatedSchedule_spec (now : Z) (subjects : list Subject)
    (availableMinutes work brk daysUntilExam : Q) :
  let s := RevisionAware.allocatedSchedule now subjects availableMinutes
             work brk daysUntilExam in
  withinBudget availableMinutes s
  /\ (revisionTime s == 0
      \/ revisionTime s
         < inject_Z (RevisionAware.revisionBudget availableMinutes)
           + (work + brk)).
Proof.
  unfold RevisionAware.allocatedSchedule.
  match goal with |- context [RevisionAware.allocateRevisions ?a ?w ?b ?l ?r ?z] =>
    destruct (RevisionAware.allocateRevisions a w b l r z) as [revs rem] eqn:E
  end.
  destruct (allocateRevisions_spec _ _ _ _ _ _ _ _ E) as [Hw Hr].
  cbn zeta. split.
  - apply Hw, allocateLearning_withinBudget.
  - assert (Ht : revisionTime
                   (revs ++ RevisionAware.allocateLearning work brk
                      (sortByScoreDesc
                         (fun e => score (StudyAlgorithm.priority e))
                         (RevisionAware.learningTopics now subjects daysUntilExam))
                      rem)
                 == revisionTime revs).
    { rewrite revisionTime_app. unfold revisionTime at 2.
      rewrite allocateLearning_no_revision.
      change (totalDuration []) with 0. lra. }
    unfold RevisionAware.sessionDuration in Hr.
    destruct Hr as [Hr | Hr]; [left | right]; lra.
Qed.

(** ** The claims on [generateDailySchedule] *)

(** C1, as stated, fails for [src/lib/study-algorithm.ts].  One topic that
    was studied before, 60 available minutes and the default pomodoro
    (25 + 5): the schedule is one revision session of 30 minutes, and
    [floor(60 * 0.40)] is 24. *)
Lemma C1_revision_time_exceeds_40_percent :
  let lib :=
    StudyAlgorithm.generateDailySchedule exampleNow [subjectOf [studiedTopic]]
      60 25 5 30 in
  Js.floor (60 * 0.40) = 24%Z
  /\ map (fun s => (type s, durationMinutes s)) lib = [(revision, 30)]
  /\ ~ revisionTime lib <= inject_Z (Js.floor (60 * 0.40)).
Proof.
  cbv zeta. repeat split; try reflexivity.
  vm_compute. intro H. apply H. reflexivity.
Qed.

(** The revision-aware variant documents a cap
    ([MAX_REVISION_PERCENTAGE: 40], "Max 40% of daily study time for
    revisions") and tests it before a session is added, not after: on the
    same input its revision time is 30 minutes, above its own budget of 24. *)
Example variant_revision_time_above_its_budget :
  let variant :=
    RevisionAware.generateDailySchedule exampleNow [subjectOf [studiedTopic]]
      60 25 5 30 in
  RevisionAware.revisionBudget 60 = 24%Z
  /\ map (fun s => (type s, durationMinutes s)) variant = [(revision, 30)]
  /\ ~ revisionTime variant <= inject_Z (RevisionAware.revisionBudget 60).
Proof.
  cbv zeta. repeat split; try reflexivity.
  vm_compute. intro H. apply H. reflexivity.
Qed.

(** C1, amended: [generateDailySchedule] of [src/lib/study-algorithm.ts] has
    no 40% cap; its revision target is [availableMinutes * 0.3], tested
    before a session is added.  The total time of its "revision" sessions is
    0 or is at most [availableMinutes * 0.3] plus one [sessionDuration]
    ([pomodoroWorkMinutes + pomodoroBreakMinutes]). *)
Theorem C1_revision_time_below_target_plus_one_session
    (now : Z) (subjects : list Subject)
    (availableMinutes work brk daysUntilExam : Q) :
  let lib :=
    StudyAlgorithm.generateDailySchedule now subjects availableMinutes
      work brk daysUntilExam in
  revisionTime lib == 0
  \/ revisionTime lib <= availableMinutes * 0.3 + (work + brk).
Proof.
  cbv zeta. unfold StudyAlgorithm.generateDailySchedule.
  match goal with |- context [StudyAlgorithm.allocate _ _ _ ?l ?st] =>
    destruct (allocate_revisionTime availableMinutes work brk l st) as [H | H]
  end.
  - left. exact H.
  - right. unfold StudyAlgorithm.targetRevision,
      StudyAlgorithm.sessionDuration in H.
    cbn [StudyAlgorithm.revisionAllocated StudyAlgorithm.initialAlloc] in H.
    lra.
Qed.

(** C2, as stated, fails for [src/lib/study-algorithm.ts]: with a topic that
    needs revision (score 95) and a new topic (score 70) the schedule is a
    revision session followed by a learning session, in score order; the
    pattern O,O,R would put the learning session first. *)
Lemma C2_lib_schedule_not_interleaved :
  let lib :=
    StudyAlgorithm.generateDailySchedule exampleNow
      [subjectOf [newTopic; studiedTopic]] 180 25 5 30 in
  map (fun s => (type s, priorityScore s)) lib
  = [(revision, 95%Z); (learning, 70%Z)]
  /\ hasRevisionAndOther lib
  /\ ~ Interleaved lib.
Proof.
  cbv zeta.
  remember (StudyAlgorithm.generateDailySchedule exampleNow
              [subjectOf [newTopic; studiedTopic]] 180 25 5 30) as lib eqn:E.
  vm_compute in E. subst lib.
  split; [reflexivity|]. split; [split|].
  - eexists. split; [left; reflexivity | reflexivity].
  - eexists. split; [right; left; reflexivity | reflexivity].
  - intro H. apply (f_equal (map type)) in H. vm_compute in H. discriminate.
Qed.

(** The stable sort rearranges the list. *)
Lemma insertByScore_Permutation {A : Type} (key : A -> Z) (x : A) (l : list A) :
  Permutation (insertByScore key x l) (x :: l).
Proof.
  induction l as [|y l IH]; cbn; [reflexivity|].
  destruct (key y <=? key x)%Z; [reflexivity|].
  rewrite IH. apply perm_swap.
Qed.

Lemma sortByScoreDesc_Permutation {A : Type} (key : A -> Z) (l : list A) :
  Permutation (sortByScoreDesc key l) l.
Proof.
  induction l as [|x l IH]; cbn; [reflexivity|].
  fold (sortByScoreDesc key l).
  rewrite insertByScore_Permutation. apply perm_skip, IH.
Qed.

(** The loop of [src/lib/study-algorithm.ts] pushes one session for each
    entry it visits and visits the entries in order until it breaks: the
    sessions are those of the first entries. *)
Lemma allocate_prefix (availableMinutes work brk : Q)
    (entries : list StudyAlgorithm.Entry) :
  forall st,
    sessionsOfFirst (StudyAlgorithm.allocate availableMinutes work brk entries st)
      entries.
Proof.
  unfold sessionsOfFirst.
  induction entries as [|e rest IH]; intro st.
  - constructor.
  - rewrite allocate_cons.
    destruct (Js.ltb _ _); [constructor|].
    destruct (StudyAlgorithm.chooseSession _ _ _ (StudyAlgorithm.topic e) st)
      as [[ty d] st1].
    cbn [List.length firstn]. constructor.
    + exists ty, d. reflexivity.
    + apply IH.
Qed.

(** C2, amended: the [generateDailySchedule] of [src/lib/study-algorithm.ts]
    sorts the uncompleted topics by descending score (the list [sorted]: a
    rearrangement of [topicsWithPriority], highest score first) and returns
    one session per topic for the first topics of that list, in that order:
    its i-th session is the session of the i-th topic of [sorted].  So its
    sessions are in descending [priorityScore] order; there is no
    interleaving step.  The revision-aware [generateDailySchedule] returns its
    sessions in the pattern O,O,R: two sessions that are not revisions, then
    one revision, until both lists are exhausted. *)
Theorem C2_lib_in_priority_order_variant_interleaved
    (now : Z) (subjects : list Subject)
    (availableMinutes work brk daysUntilExam : Q) :
  let lib :=
    StudyAlgorithm.generateDailySchedule now subjects availableMinutes
      work brk daysUntilExam in
  let sorted :=
    sortByScoreDesc (fun e => score (StudyAlgorithm.priority e))
      (StudyAlgorithm.topicsWithPriority now subjects daysUntilExam) in
  (Permutation sorted
     (StudyAlgorithm.topicsWithPriority now subjects daysUntilExam)
   /\ StronglySorted
        (fun a b => (score (StudyAlgorithm.priority b)
                     <= score (StudyAlgorithm.priority a))%Z) sorted
   /\ sessionsOfFirst lib sorted
   /\ descendingPriority lib)
  /\ Interleaved
       (RevisionAware.generateDailySchedule now subjects availableMinutes
          work brk daysUntilExam).
Proof.
  cbv zeta. split; [repeat split|].
  - apply sortByScoreDesc_Permutation.
  - apply (sortByScoreDesc_sorted (fun e => score (StudyAlgorithm.priority e))).
  - unfold StudyAlgorithm.generateDailySchedule. apply allocate_prefix.
  - unfold StudyAlgorithm.generateDailySchedule.
    apply allocate_descending.
    apply (sortByScoreDesc_sorted (fun e => score (StudyAlgorithm.priority e))).
  - apply interleave_Interleaved.
Qed.

(** The same input in the variant: the learning session comes first. *)
Example variant_schedule_interleaved_example :
  map (fun s => (type s, priorityScore s))
    (RevisionAware.generateDailySchedule exampleNow
       [subjectOf [newTopic; studiedTopic]] 180 25 5 30)
  = [(learning, 70%Z); (revision, 92%Z)].
Proof. reflexivity. Qed.

(** A schedule within a budget that has a session sums to at most the
    budget, also when the budget is negative. *)
Lemma withinBudget_total_nonempty (l : list ScheduleSession) (budget : Q) :
  withinBudget budget l -> l <> [] -> totalDuration l <= budget.
Proof.
  destruct l as [|s l]; intros Hw Hne; [contradiction Hne; reflexivity|].
  destruct Hw as [Hs Hl]. rewrite totalDuration_cons.
  destruct (Qlt_le_dec (budget - durationMinutes s) 0) as [Hneg | Hpos];
    [lra|].
  pose proof (withinBudget_total l _ Hl Hpos). lra.
Qed.

(** C3, as stated, fails: with a negative budget both implementations return
    the empty schedule, and the sum of its durations, 0, is above the
    budget. *)
Lemma C3_empty_schedule_above_negative_budget :
  let lib :=
    StudyAlgorithm.generateDailySchedule exampleNow
      [subjectOf [newTopic; studiedTopic]] (-10) 25 5 30 in
  let variant :=
    RevisionAware.generateDailySchedule exampleNow
      [subjectOf [newTopic; studiedTopic]] (-10) 25 5 30 in
  lib = [] /\ ~ totalDuration lib <= -10
  /\ variant = [] /\ ~ totalDuration variant <= -10.
Proof.
  cbv zeta. repeat split; try reflexivity.
  - vm_compute. intro H. apply H. reflexivity.
  - vm_compute. intro H. apply H. reflexivity.
Qed.

(** C3, amended: for every input, every session of [generateDailySchedule]
    lasts at most the time that remains when it is scheduled (the budget
    less the sessions scheduled before it); and the durations of the
    returned sessions sum to at most [availableMinutes] when
    [availableMinutes] is not negative or the schedule is not empty.  This
    holds for [src/lib/study-algorithm.ts] and for the revision-aware
    variant (whose sessions are allocated in the order of
    [allocatedSchedule]). *)
Theorem C3_sessions_fit_the_remaining_budget
    (now : Z) (subjects : list Subject)
    (availableMinutes work brk daysUntilExam : Q) :
  let lib :=
    StudyAlgorithm.generateDailySchedule now subjects availableMinutes
      work brk daysUntilExam in
  let allocated :=
    RevisionAware.allocatedSchedule now subjects availableMinutes
      work brk daysUntilExam in
  let variant :=
    RevisionAware.generateDailySchedule now subjects availableMinutes
      work brk daysUntilExam in
  (withinBudget availableMinutes lib
   /\ (0 <= availableMinutes \/ lib <> [] ->
       totalDuration lib <= availableMinutes))
  /\ (withinBudget availableMinutes allocated
      /\ (0 <= availableMinutes \/ variant <> [] ->
          totalDuration variant <= availableMinutes)).
Proof.
  cbv zeta.
  assert (Hlib : withinBudget availableMinutes
                   (StudyAlgorithm.generateDailySchedule now subjects
                      availableMinutes work brk daysUntilExam)).
  { unfold StudyAlgorithm.generateDailySchedule.
    match goal with |- context [StudyAlgorithm.allocate _ _ _ ?l ?st] =>
      exact (allocate_withinBudget availableMinutes work brk l st)
    end. }
  destruct (allocatedSchedule_spec now subjects availableMinutes work brk
              daysUntilExam) as [Hvar _].
  repeat split.
  - exact Hlib.
  - intros [Hbudget | Hne].
    + apply withinBudget_total; assumption.
    + apply withinBudget_total_nonempty; assumption.
  - exact Hvar.
  - unfold RevisionAware.generateDailySchedule.
    rewrite interleave_totalDuration.
    intros [Hbudget | Hne].
    + apply withinBudget_total; assumption.
    + apply withinBudget_total_nonempty; [exact Hvar|].
      intro Hnil. apply Hne. rewrite Hnil. reflexivity.
Qed.

Lemma C3_sessions_fit_witness :
  totalDuration
    (StudyAlgorithm.generateDailySchedule exampleNow
       [subjectOf [newTopic; studiedTopic]] 180 25 5 30) <= 180
  /\ totalDuration
       (RevisionAware.generateDailySchedule exampleNow
          [subjectOf [newTopic; studiedTopic]] 180 25 5 30) <= 180.
Proof.
  split.
  - apply (C3_sessions_fit_the_remaining_budget exampleNow
             [subjectOf [newTopic; studiedTopic]] 180 25 5 30).
    left. unfold Qle; simpl; lia.
  - apply (C3_sessions_fit_the_remaining_budget exampleNow
             [subjectOf [newTopic; studiedTopic]] 180 25 5 30).
    left. unfold Qle; simpl; lia.
Defined.

(** ** The clock and the schedule *)

Lemma flat_map_ext_in {A B : Type} (f g : A -> list B) (l : list A) :
  (forall a, In a l -> f a = g a) -> flat_map f l = flat_map g l.
Proof.
  induction l as [|a l IH]; intro H; cbn; [reflexivity|].
  rewrite (H a (or_introl eq_refl)), IH; [reflexivity|].
  intros a' Ha'. apply H. right. exact Ha'.
Qed.

(** The schedule of [src/lib/study-algorithm.ts] depends on the clock only
    through the day counts of the topics that were studied before. *)
Lemma schedule_determined_by_arguments_and_day_counts
    (now1 now2 : Z) (subjects : list Subject)
    (availableMinutes work brk daysUntilExam : Q) :
  (forall s ts t x,
     In s subjects -> topics s = Some ts -> In t ts ->
     last_studied_at t = Some x -> daysSince now1 x = daysSince now2 x) ->
  StudyAlgorithm.generateDailySchedule now1 subjects availableMinutes work brk
    daysUntilExam
  = StudyAlgorithm.generateDailySchedule now2 subjects availableMinutes work
      brk daysUntilExam.
Proof.
  intro Hdays. unfold StudyAlgorithm.generateDailySchedule. f_equal. f_equal.
  unfold StudyAlgorithm.topicsWithPriority.
  apply flat_map_ext_in. intros s Hs.
  destruct (topics s) as [ts|] eqn:Ets; [|reflexivity].
  apply flat_map_ext_in. intros t Ht.
  destruct (is_completed t); [reflexivity|]. cbn [negb].
  do 2 f_equal.
  unfold StudyAlgorithm.calculateTopicPriority.
  destruct (last_studied_at t) as [x|] eqn:Ex; [|reflexivity].
  rewrite (Hdays s ts t x Hs Ets Ht Ex). reflexivity.
Qed.

(** A schedule, too, changes with the time of the call: scored one day after
    the study instead of twenty, [studiedTopic] falls from 95 to 84. *)
Example schedule_changes_with_the_clock :
  map priorityScore
    (StudyAlgorithm.generateDailySchedule exampleNow
       [subjectOf [studiedTopic]] 60 25 5 30) = [95%Z]
  /\ map priorityScore
       (StudyAlgorithm.generateDailySchedule (exampleNow - 19 * MS_PER_DAY)
          [subjectOf [studiedTopic]] 60 25 5 30) = [84%Z].
Proof. split; reflexivity. Qed.

(** * Further properties of the code *)

(** ** Spaced repetition *)

Lemma round_between (x lo hi : Q) (l h : Z) :
  Js.round lo = l -> Js.round hi = h -> lo <= x <= hi ->
  (l <= Js.round x <= h)%Z.
Proof.
  intros <- <- [H1 H2]. split; apply round_monotone; assumption.
Qed.

Lemma intervalAt_cases (n : Z) :
  (0 <= n)%Z ->
  (n = 0 /\ intervalAt n = 1)%Z \/ (n = 1 /\ intervalAt n = 3)%Z
  \/ (n = 2 /\ intervalAt n = 7)%Z \/ (n = 3 /\ intervalAt n = 14)%Z
  \/ (n = 4 /\ intervalAt n = 30)%Z \/ (5 <= n /\ intervalAt n = 60)%Z.
Proof.
  intro Hn. unfold intervalAt.
  destruct (Z.eq_dec n 0) as [->|]; [left; split; reflexivity|].
  destruct (Z.eq_dec n 1) as [->|]; [right; left; split; reflexivity|].
  destruct (Z.eq_dec n 2) as [->|]; [do 2 right; left; split; reflexivity|].
  destruct (Z.eq_dec n 3) as [->|]; [do 3 right; left; split; reflexivity|].
  destruct (Z.eq_dec n 4) as [->|]; [do 4 right; left; split; reflexivity|].
  do 5 right. split; [lia|].
  replace (Z.min n 5) with 5%Z by lia. reflexivity.
Qed.

Lemma calculateNextRevision_in_range (confidence : Q) (revisionCount : Z) :
  (0 <= revisionCount)%Z ->
  StudyAlgorithm.calculateNextRevision confidence revisionCount
  = Js.ofZ (Js.round (inject_Z (intervalAt revisionCount) * (confidence / 3))).
Proof.
  intro Hn. unfold StudyAlgorithm.calculateNextRevision.
  change (Z.of_nat (List.length StudyAlgorithm.baseIntervals) - 1)%Z with 5%Z.
  destruct (Z.min revisionCount 5 <? 0)%Z eqn:E; [apply Z.ltb_lt in E; lia|].
  destruct (intervalAt_cases revisionCount Hn)
    as [[-> H]|[[-> H]|[[-> H]|[[-> H]|[[-> H]|[H5 H]]]]]];
    rewrite H; try reflexivity.
  replace (Z.min revisionCount 5) with 5%Z by lia. reflexivity.
Qed.

Lemma calculateNextRevision_bounds (confidence : Q) (revisionCount : Z) :
  (0 <= revisionCount)%Z -> 1 <= confidence <= 5 ->
  exists days : Z,
    StudyAlgorithm.calculateNextRevision confidence revisionCount = Js.ofZ days
    /\ (0 <= days <= 100)%Z.
Proof.
  intros Hn [Hc1 Hc5]. rewrite calculateNextRevision_in_range by exact Hn.
  eexists. split; [reflexivity|].
  apply (round_between _ 0 100); [reflexivity | reflexivity |].
  unfold Qdiv. change (/ 3) with (1 # 3).
  destruct (intervalAt_cases revisionCount Hn)
    as [[_ H]|[[_ H]|[[_ H]|[[_ H]|[[_ H]|[_ H]]]]]];
    rewrite H; unfold inject_Z; split; lra.
Qed.

(** X1: for a revision count that is not negative and a confidence between 1
    and 5, [calculateNextRevision] returns a whole number of days between 0
    and 100. *)
Theorem X1_next_revision_between_0_and_100_days
    (confidence : Q) (revisionCount : Z) :
  (0 <= revisionCount)%Z -> 1 <= confidence <= 5 ->
  exists days : Z,
    StudyAlgorithm.calculateNextRevision confidence revisionCount = Js.ofZ days
    /\ (0 <= days <= 100)%Z.
Proof. apply calculateNextRevision_bounds. Qed.

Lemma X1_next_revision_witness :
  exists days : Z,
    StudyAlgorithm.calculateNextRevision 3 2 = Js.ofZ days
    /\ (0 <= days <= 100)%Z.
Proof.
  apply (X1_next_revision_between_0_and_100_days 3 2).
  - lia.
  - split; unfold Qle; simpl; lia.
Defined.

(** X2: a negative revision count reads outside [baseIntervals], and
    [calculateNextRevision] returns NaN, whatever the confidence. *)
Theorem X2_next_revision_of_negative_count_is_NaN
    (confidence : Q) (revisionCount : Z) :
  (revisionCount < 0)%Z ->
  StudyAlgorithm.calculateNextRevision confidence revisionCount = Js.NaN.
Proof.
  intro Hn. unfold StudyAlgorithm.calculateNextRevision.
  change (Z.of_nat (List.length StudyAlgorithm.baseIntervals) - 1)%Z with 5%Z.
  destruct (Z.min revisionCount 5 <? 0)%Z eqn:E; [reflexivity|].
  apply Z.ltb_ge in E. lia.
Qed.

Lemma X2_next_revision_negative_witness :
  StudyAlgorithm.calculateNextRevision 3 (-1) = Js.NaN.
Proof.
  apply (X2_next_revision_of_negative_count_is_NaN 3 (-1)). lia.
Defined.

Lemma intervalAt_monotone (n1 n2 : Z) :
  (0 <= n1 <= n2)%Z -> (1 <= intervalAt n1 <= intervalAt n2)%Z.
Proof.
  intros [H0 H12].
  destruct (intervalAt_cases n1 H0)
    as [[E1 H1]|[[E1 H1]|[[E1 H1]|[[E1 H1]|[[E1 H1]|[E1 H1]]]]]];
  destruct (intervalAt_cases n2 ltac:(lia))
    as [[E2 H2]|[[E2 H2]|[[E2 H2]|[[E2 H2]|[[E2 H2]|[E2 H2]]]]]];
  rewrite H1, H2; lia.
Qed.

(** X3: the interval grows with the revision count and with the confidence:
    for counts 0 <= r1 <= r2 and confidences 0 <= c1 <= c2 the number of days
    for (c1, r1) is at most the number for (c2, r2); from the fifth revision
    on the count makes no difference. *)
Theorem X3_next_revision_monotone (c1 c2 : Q) (r1 r2 : Z) :
  (0 <= r1 <= r2)%Z -> 0 <= c1 <= c2 ->
  (exists d1 d2 : Z,
     StudyAlgorithm.calculateNextRevision c1 r1 = Js.ofZ d1
     /\ StudyAlgorithm.calculateNextRevision c2 r2 = Js.ofZ d2
     /\ (d1 <= d2)%Z)
  /\ ((5 <= r1)%Z ->
      StudyAlgorithm.calculateNextRevision c1 r1
      = StudyAlgorithm.calculateNextRevision c1 5).
Proof.
  intros Hr [Hc0 Hc]. split.
  - rewrite !calculateNextRevision_in_range by lia.
    do 2 eexists. split; [reflexivity|]. split; [reflexivity|].
    apply round_monotone.
    pose proof (intervalAt_monotone r1 r2 Hr) as [H1 H2].
    rewrite Zle_Qle in H1, H2. change (inject_Z 1) with 1 in H1.
    unfold Qdiv. change (/ 3) with (1 # 3).
    set (i1 := inject_Z (intervalAt r1)) in *.
    set (i2 := inject_Z (intervalAt r2)) in *.
    nra.
  - intro H5. rewrite !calculateNextRevision_in_range by lia.
    unfold intervalAt. replace (Z.min r1 5) with 5%Z by lia. reflexivity.
Qed.

Lemma X3_next_revision_monotone_witness :
  exists d1 d2 : Z,
    StudyAlgorithm.calculateNextRevision 2 1 = Js.ofZ d1
    /\ StudyAlgorithm.calculateNextRevision 4 3 = Js.ofZ d2
    /\ (d1 <= d2)%Z.
Proof.
  apply (X3_next_revision_monotone 2 4 1 3).
  - lia.
  - split; unfold Qle; simpl; lia.
Defined.

Lemma clamp_1_5 (x : Q) : 1 <= Qmin 5 (Qmax 1 x) <= 5.
Proof.
  split.
  - apply Q.min_glb; [lra | apply Q.le_max_l].
  - apply Q.le_min_l.
Qed.

(** X4: whatever its arguments, [calculatePostRevisionUpdates] returns a new
    confidence between 1 and 5 and a whole number of days between 0 and 100;
    [Math.max(0, revisionCount + 1)] keeps the lookup of the interval inside
    the array even for a negative revision count. *)
Theorem X4_post_revision_confidence_and_days_in_range
    (confidenceBefore : Q) (revisionCount : Z) (completed skipped : bool) :
  let r := StudyAlgorithm.calculatePostRevisionUpdates confidenceBefore
             revisionCount completed skipped in
  1 <= StudyAlgorithm.newConfidence r <= 5
  /\ exists days : Z,
       StudyAlgorithm.nextRevisionDays r = Js.ofZ days /\ (0 <= days <= 100)%Z.
Proof.
  cbv zeta. unfold StudyAlgorithm.calculatePostRevisionUpdates.
  cbn [StudyAlgorithm.newConfidence StudyAlgorithm.nextRevisionDays].
  split; [apply clamp_1_5|].
  destruct skipped.
  - exists 1%Z. split; [reflexivity | lia].
  - apply calculateNextRevision_bounds; [lia | apply clamp_1_5].
Qed.

(** X5: a skipped revision is handled as skipped even when [completed] is
    also true: the result is that of [completed = false], the next revision
    is due in 1 day, and for a confidence of at least 1 the confidence does
    not rise. *)
Theorem X5_skipped_overrides_completed
    (confidenceBefore : Q) (revisionCount : Z) (completed : bool) :
  1 <= confidenceBefore ->
  let r := StudyAlgorithm.calculatePostRevisionUpdates confidenceBefore
             revisionCount completed true in
  r = StudyAlgorithm.calculatePostRevisionUpdates confidenceBefore
        revisionCount false true
  /\ StudyAlgorithm.nextRevisionDays r = Js.Num 1
  /\ StudyAlgorithm.confidenceDelta r <= 0.
Proof.
  intro H1. cbv zeta. unfold StudyAlgorithm.calculatePostRevisionUpdates.
  cbn [StudyAlgorithm.nextRevisionDays StudyAlgorithm.confidenceDelta].
  split; [reflexivity|]. split; [reflexivity|].
  destruct (Q.min_spec 5 (Qmax 1 (confidenceBefore - 1))) as [[L E]|[L E]];
    destruct (Q.max_spec 1 (confidenceBefore - 1)) as [[L' E']|[L' E']];
    rewrite E; rewrite ?E' in *; lra.
Qed.

Lemma X5_skipped_overrides_witness :
  StudyAlgorithm.nextRevisionDays
    (StudyAlgorithm.calculatePostRevisionUpdates 3 2 true true) = Js.Num 1.
Proof.
  apply (X5_skipped_overrides_completed 3 2 true).
  unfold Qle; simpl; lia.
Defined.

(** X6: for a confidence between 1 and 5 and a revision that is not skipped,
    a completed revision changes the confidence by between 0 and +1 (exactly
    +1 up to confidence 4), and one that is not completed by between -1 and
    0 (exactly -1 from confidence 2). *)
Theorem X6_post_revision_confidence_delta
    (confidenceBefore : Q) (revisionCount : Z) (completed : bool) :
  1 <= confidenceBefore <= 5 ->
  let delta :=
    StudyAlgorithm.confidenceDelta
      (StudyAlgorithm.calculatePostRevisionUpdates confidenceBefore
         revisionCount completed false) in
  if completed
  then 0 <= delta <= 1 /\ (confidenceBefore <= 4 -> delta == 1)
  else -1 <= delta <= 0 /\ (2 <= confidenceBefore -> delta == -1).
Proof.
  intros [H1 H5]. cbv zeta.
  unfold StudyAlgorithm.calculatePostRevisionUpdates.
  cbn [StudyAlgorithm.confidenceDelta].
  destruct completed.
  - destruct (Q.min_spec 5 (Qmax 1 (confidenceBefore + 1))) as [[L E]|[L E]];
      destruct (Q.max_spec 1 (confidenceBefore + 1)) as [[L' E']|[L' E']];
      rewrite E; rewrite ?E' in *; repeat split; intros; lra.
  - destruct (Q.min_spec 5 (Qmax 1 (confidenceBefore - 1))) as [[L E]|[L E]];
      destruct (Q.max_spec 1 (confidenceBefore - 1)) as [[L' E']|[L' E']];
      rewrite E; rewrite ?E' in *; repeat split; intros; lra.
Qed.

Lemma X6_post_revision_delta_witness :
  StudyAlgorithm.confidenceDelta
    (StudyAlgorithm.calculatePostRevisionUpdates 3 0 true false) == 1.
Proof.
  apply (X6_post_revision_confidence_delta 3 0 true).
  - split; unfold Qle; simpl; lia.
  - unfold Qle; simpl; lia.
Defined.

(** X7: in the variant of [calculatePostRevisionUpdates], skipping a revision
    of a topic with a whole confidence of at least 1 reports a confidence
    delta of -0.5 but returns the confidence unchanged:
    [Math.round(confidence - 0.5)] rounds the half back up. *)
Theorem X7_variant_skip_keeps_whole_confidence
    (confidence revisionCount : Z) :
  (1 <= confidence)%Z ->
  let r := RevisionAware.calculatePostRevisionUpdates (inject_Z confidence)
             revisionCount false true in
  RevisionAware.newConfidence r = confidence
  /\ RevisionAware.confidenceDelta r == - (1 # 2).
Proof.
  intro H1. cbv zeta. unfold RevisionAware.calculatePostRevisionUpdates.
  cbn [RevisionAware.newConfidence RevisionAware.confidenceDelta].
  split; [|reflexivity].
  unfold Js.round.
  destruct (Z.eq_dec confidence 1) as [->|Hne].
  - reflexivity.
  - assert (H2 : 2 <= inject_Z confidence).
    { change 2 with (inject_Z 2). rewrite <- Zle_Qle. lia. }
    assert (E : Qmax 1 (inject_Z confidence - 0.5) + (1 # 2)
                == inject_Z confidence).
    { rewrite Q.max_r by lra. lra. }
    rewrite (Qfloor_comp _ _ E). apply Qfloor_Z.
Qed.

Lemma X7_variant_skip_witness :
  RevisionAware.newConfidence
    (RevisionAware.calculatePostRevisionUpdates (inject_Z 3) 0 false true)
  = 3%Z.
Proof.
  apply (X7_variant_skip_keeps_whole_confidence 3 0). lia.
Defined.

(** ** Priority engine: what raises a score *)

Lemma clamp_monotone (x y : Q) :
  x <= y -> Qmin 100 (Qmax 0 x) <= Qmin 100 (Qmax 0 y).
Proof.
  intro H. apply Q.min_le_compat_l, Q.max_le_compat_l, H.
Qed.

Ltac priority_goal :=
  unfold StudyAlgorithm.calculateTopicPriority; cbn [score];
  apply round_monotone, clamp_monotone;
  unfold WEIGHTS.STRENGTH, WEIGHTS.URGENCY, WEIGHTS.CONFIDENCE,
    WEIGHTS.RECENCY, WEIGHTS.COMPLETION, STRENGTH_SCORES.

(** X8: with the same topic, days until the exam and clock, a weak subject
    scores at least as high as an average one, and an average one at least
    as high as a strong one. *)
Theorem X8_priority_weaker_subject_scores_higher
    (now : Z) (topic : Topic) (daysUntilExam : Q) :
  (score (StudyAlgorithm.calculateTopicPriority now topic strong daysUntilExam)
   <= score (StudyAlgorithm.calculateTopicPriority now topic average
               daysUntilExam))%Z
  /\ (score (StudyAlgorithm.calculateTopicPriority now topic average
               daysUntilExam)
      <= score (StudyAlgorithm.calculateTopicPriority now topic weak
                  daysUntilExam))%Z.
Proof.
  split; priority_goal; literal_div; lra.
Qed.

(** X9: lowering the confidence of a topic never lowers its priority score:
    for confidences c1 <= c2 the topic with confidence c1 scores at least as
    high as with c2. *)
Theorem X9_priority_lower_confidence_scores_higher
    (now : Z) (topic : Topic) (subjectStrength : Strength)
    (daysUntilExam c1 c2 : Q) :
  c1 <= c2 ->
  (score (StudyAlgorithm.calculateTopicPriority now (setConfidence topic c2)
            subjectStrength daysUntilExam)
   <= score (StudyAlgorithm.calculateTopicPriority now
               (setConfidence topic c1) subjectStrength daysUntilExam))%Z.
Proof.
  intro Hc. priority_goal.
  cbn [setConfidence confidence_level last_studied_at estimated_hours
       completed_hours].
  literal_div. lra.
Qed.

Lemma X9_priority_confidence_witness :
  (score (StudyAlgorithm.calculateTopicPriority exampleNow
            (setConfidence studiedTopic 4) weak 30)
   <= score (StudyAlgorithm.calculateTopicPriority exampleNow
               (setConfidence studiedTopic 2) weak 30))%Z.
Proof.
  apply (X9_priority_lower_confidence_scores_higher exampleNow studiedTopic
           weak 30 2 4).
  unfold Qle; simpl; lia.
Defined.

Lemma urgencyScore_antitone (d1 d2 : Q) :
  d1 <= d2 ->
  (if Js.leb d2 7 then 100 else if Js.leb d2 30 then 80
   else if Js.leb d2 60 then 50 else 30)
  <= (if Js.leb d1 7 then 100 else if Js.leb d1 30 then 80
      else if Js.leb d1 60 then 50 else 30).
Proof.
  intro H.
  destruct (Js.leb d2 7) eqn:A2, (Js.leb d2 30) eqn:B2, (Js.leb d2 60) eqn:C2,
           (Js.leb d1 7) eqn:A1, (Js.leb d1 30) eqn:B1, (Js.leb d1 60) eqn:C1;
    rewrite ?leb_true, ?leb_false in *; lra.
Qed.

(** X10: a closer exam never lowers the priority score: for d1 <= d2 days
    until the exam the score with d1 is at least the score with d2. *)
Theorem X10_priority_closer_exam_scores_higher
    (now : Z) (topic : Topic) (subjectStrength : Strength) (d1 d2 : Q) :
  d1 <= d2 ->
  (score (StudyAlgorithm.calculateTopicPriority now topic subjectStrength d2)
   <= score (StudyAlgorithm.calculateTopicPriority now topic subjectStrength
               d1))%Z.
Proof.
  intro Hd. priority_goal.
  pose proof (urgencyScore_antitone d1 d2 Hd) as Hu.
  literal_div. lra.
Qed.

Lemma X10_priority_closer_exam_witness :
  (score (StudyAlgorithm.calculateTopicPriority exampleNow studiedTopic weak 45)
   <= score (StudyAlgorithm.calculateTopicPriority exampleNow studiedTopic
               weak 5))%Z.
Proof.
  apply (X10_priority_closer_exam_scores_higher exampleNow studiedTopic weak
           5 45).
  unfold Qle; simpl; lia.
Defined.

Lemma recencyScore_monotone (k1 k2 : Z) :
  (k1 <= k2)%Z ->
  (if (14 <=? k1)%Z then 100 else if (7 <=? k1)%Z then 75
   else if (3 <=? k1)%Z then 50 else 25)
  <= (if (14 <=? k2)%Z then 100 else if (7 <=? k2)%Z then 75
      else if (3 <=? k2)%Z then 50 else 25)
  /\ (if (14 <=? k2)%Z then 100 else if (7 <=? k2)%Z then 75
      else if (3 <=? k2)%Z then 50 else 25) <= 100.
Proof.
  intro H.
  destruct (14 <=? k1)%Z eqn:A1, (7 <=? k1)%Z eqn:B1, (3 <=? k1)%Z eqn:C1,
           (14 <=? k2)%Z eqn:A2, (7 <=? k2)%Z eqn:B2, (3 <=? k2)%Z eqn:C2;
    rewrite ?Z.leb_le, ?Z.leb_gt in *; try lia; split; lra.
Qed.

(** X11: the longer ago a topic was studied, the higher it scores: a later
    call (a later clock) never gives the same topic a lower score, and a
    topic that was never studied scores at least as high as the same topic
    studied at any time. *)
Theorem X11_priority_grows_with_time_since_study
    (now1 now2 : Z) (topic : Topic) (subjectStrength : Strength)
    (daysUntilExam : Q) :
  (now1 <= now2)%Z ->
  (score (StudyAlgorithm.calculateTopicPriority now1 topic subjectStrength
            daysUntilExam)
   <= score (StudyAlgorithm.calculateTopicPriority now2 topic subjectStrength
               daysUntilExam))%Z
  /\ (score (StudyAlgorithm.calculateTopicPriority now2 topic subjectStrength
               daysUntilExam)
      <= score (StudyAlgorithm.calculateTopicPriority now2
                  (setLastStudied topic None) subjectStrength daysUntilExam))%Z.
Proof.
  intro Hnow. split; priority_goal;
    cbn [setLastStudied confidence_level last_studied_at estimated_hours
         completed_hours];
    destruct (last_studied_at topic) as [x|]; cbn [fst]; try (literal_div; lra).
  - assert (Hd : (daysSince now1 x <= daysSince now2 x)%Z).
    { unfold daysSince. apply Z.div_le_mono; [reflexivity | lia]. }
    destruct (recencyScore_monotone _ _ Hd) as [Hr _].
    literal_div. lra.
  - destruct (recencyScore_monotone _ _ (Z.le_refl (daysSince now2 x)))
      as [_ Hr].
    literal_div. lra.
Qed.

Lemma X11_priority_time_witness :
  (score (StudyAlgorithm.calculateTopicPriority (exampleNow - 19 * MS_PER_DAY)
            studiedTopic weak 30)
   <= score (StudyAlgorithm.calculateTopicPriority exampleNow studiedTopic
               weak 30))%Z.
Proof.
  apply (X11_priority_grows_with_time_since_study
           (exampleNow - 19 * MS_PER_DAY) exampleNow studiedTopic weak 30).
  vm_compute. discriminate.
Defined.

(** X12: a topic of a weak subject is never shown with the level "Low": when
    its confidence is at most 5 and its completed hours do not exceed its
    estimated hours, its score is at least 41, so [getPriorityLevel] returns
    "High" or "Medium". *)
Theorem X12_weak_subject_is_never_low_priority
    (now : Z) (topic : Topic) (daysUntilExam : Q) :
  confidence_level topic <= 5 ->
  completed_hours topic <= estimated_hours topic ->
  let s := score (StudyAlgorithm.calculateTopicPriority now topic weak
                    daysUntilExam) in
  (41 <= s)%Z
  /\ PriorityIndicator.label (PriorityIndicator.getPriorityLevel (inject_Z s))
     <> "Low"%string.
Proof.
  intros Hc Hh. cbv zeta.
  assert (Hs : (41 <= score (StudyAlgorithm.calculateTopicPriority now topic
                               weak daysUntilExam))%Z).
  { change 41%Z with (Js.round (Qmin 100 (Qmax 0 (4125 # 100)))).
    priority_goal.
    assert (Hu : 30 <= (if Js.leb daysUntilExam 7 then 100
                        else if Js.leb daysUntilExam 30 then 80
                        else if Js.leb daysUntilExam 60 then 50 else 30)).
    { repeat match goal with |- context [if ?b then _ else _] =>
               destruct b end; lra. }
    assert (Hr : 25 <= fst (match last_studied_at topic with
                            | Some t =>
                                ((if (14 <=? daysSince now t)%Z then 100
                                  else if (7 <=? daysSince now t)%Z then 75
                                  else if (3 <=? daysSince now t)%Z then 50
                                  else 25),
                                 (if (7 <=? daysSince now t)%Z
                                  then [Text "Due for revision"] else []))
                            | None => (100, [Text "Never studied before"])
                            end)).
    { destruct (last_studied_at topic); cbn [fst]; [|lra].
      repeat match goal with |- context [if ?b then _ else _] =>
               destruct b end; lra. }
    assert (Hk : (if Js.gtb (estimated_hours topic) 0
                  then completed_hours topic / estimated_hours topic
                  else 0) <= 1).
    { destruct (Js.gtb (estimated_hours topic) 0) eqn:E; [|lra].
      apply gtb_true in E. apply Qle_shift_div_r; [exact E | lra]. }
    literal_div. lra. }
  split; [exact Hs|].
  unfold PriorityIndicator.getPriorityLevel.
  assert (H40 : 40 <= inject_Z (score (StudyAlgorithm.calculateTopicPriority
                                         now topic weak daysUntilExam))).
  { change 40 with (inject_Z 40). rewrite <- Zle_Qle. lia. }
  destruct (Js.geb _ 70); [discriminate|].
  destruct (Js.geb _ 40) eqn:E; [discriminate|].
  apply geb_false in E. lra.
Qed.

Lemma X12_weak_subject_witness :
  (41 <= score (StudyAlgorithm.calculateTopicPriority exampleNow studiedTopic
                  weak 90))%Z.
Proof.
  apply (X12_weak_subject_is_never_low_priority exampleNow studiedTopic 90);
    unfold Qle; simpl; lia.
Defined.

(** ** Readiness estimator: bands and saturation *)

Lemma status_rank_by_percentage (c a s d : Q) :
  let r := StudyAlgorithm.calculateExamReadiness c a s d in
  statusRank (StudyAlgorithm.status r)
  = (if (80 <=? StudyAlgorithm.percentage r)%Z then 3
     else if (60 <=? StudyAlgorithm.percentage r)%Z then 2
     else if (35 <=? StudyAlgorithm.percentage r)%Z then 1 else 0)%Z.
Proof.
  cbv zeta. unfold StudyAlgorithm.calculateExamReadiness.
  set (p := Js.round _).
  destruct (80 <=? p)%Z eqn:E80;
    [|destruct (60 <=? p)%Z eqn:E60; [|destruct (35 <=? p)%Z eqn:E35]];
    cbv beta iota delta [StudyAlgorithm.status StudyAlgorithm.percentage
                         statusRank];
    rewrite ?E80, ?E60, ?E35; reflexivity.
Qed.

(** X13: more progress never lowers the readiness band: when each of the
    four inputs of [calculateExamReadiness] is at least as large, the status
    is at least as high in the order not_ready, improving, almost_ready,
    exam_ready. *)
Theorem X13_readiness_status_monotone (c1 c2 a1 a2 s1 s2 d1 d2 : Q) :
  c1 <= c2 -> a1 <= a2 -> s1 <= s2 -> d1 <= d2 ->
  (statusRank (StudyAlgorithm.status
                 (StudyAlgorithm.calculateExamReadiness c1 a1 s1 d1))
   <= statusRank (StudyAlgorithm.status
                    (StudyAlgorithm.calculateExamReadiness c2 a2 s2 d2)))%Z.
Proof.
  intros Hc Ha Hs Hd.
  pose proof (percentage_monotone c1 c2 a1 a2 s1 s2 d1 d2 Hc Ha Hs Hd) as Hp.
  rewrite !status_rank_by_percentage.
  repeat match goal with |- context [(?n <=? ?p)%Z] =>
           let E := fresh "E" in destruct (n <=? p)%Z eqn:E end;
    rewrite ?Z.leb_le, ?Z.leb_gt in *; lia.
Qed.

Lemma X13_readiness_status_witness :
  (statusRank (StudyAlgorithm.status
                 (StudyAlgorithm.calculateExamReadiness 20 2 3 10))
   <= statusRank (StudyAlgorithm.status
                    (StudyAlgorithm.calculateExamReadiness 90 4 10 20)))%Z.
Proof.
  apply (X13_readiness_status_monotone 20 90 2 4 3 10 10 20);
    unfold Qle; simpl; lia.
Defined.

Lemma readiness_determined_by_score (c1 a1 s1 d1 c2 a2 s2 d2 : Q) :
  StudyAlgorithm.readinessScore c1 a1 s1 d1
  == StudyAlgorithm.readinessScore c2 a2 s2 d2 ->
  StudyAlgorithm.calculateExamReadiness c1 a1 s1 d1
  = StudyAlgorithm.calculateExamReadiness c2 a2 s2 d2.
Proof.
  intro H. unfold StudyAlgorithm.calculateExamReadiness.
  assert (E : Js.round (StudyAlgorithm.readinessScore c1 a1 s1 d1 * 100)
              = Js.round (StudyAlgorithm.readinessScore c2 a2 s2 d2 * 100)).
  { unfold Js.round. apply Qfloor_comp. rewrite H. reflexivity. }
  rewrite E. reflexivity.
Qed.

(** X14: the streak counts up to 14 days and the time until the exam up to
    30 days: a longer streak gives the result of a streak of 14, and more
    days until the exam give the result of 30 days. *)
Theorem X14_readiness_saturates (c a s d : Q) :
  (14 <= s ->
   StudyAlgorithm.calculateExamReadiness c a s d
   = StudyAlgorithm.calculateExamReadiness c a 14 d)
  /\ (30 <= d ->
      StudyAlgorithm.calculateExamReadiness c a s d
      = StudyAlgorithm.calculateExamReadiness c a s 30).
Proof.
  split; intro H; apply readiness_determined_by_score;
    unfold StudyAlgorithm.readinessScore.
  - assert (E : Qmin (s / 14) 1 == Qmin (14 / 14) 1).
    { rewrite !Q.min_r; [reflexivity | literal_div; lra | literal_div; lra]. }
    rewrite E. reflexivity.
  - assert (Hd : Js.gtb d 0 = true) by (apply gtb_true; lra).
    rewrite Hd. change (Js.gtb 30 0) with true. cbv iota.
    assert (E : Qmin (d / 30) 1 == Qmin (30 / 30) 1).
    { rewrite !Q.min_r; [reflexivity | literal_div; lra | literal_div; lra]. }
    rewrite E. reflexivity.
Qed.

Lemma X14_readiness_saturates_witness :
  StudyAlgorithm.calculateExamReadiness 50 3 20 10
  = StudyAlgorithm.calculateExamReadiness 50 3 14 10.
Proof.
  apply (X14_readiness_saturates 50 3 20 10).
  unfold Qle; simpl; lia.
Defined.

(** X15: once the exam day has come ([daysUntilExam <= 0]) the time factor
    contributes nothing: for a completion within 0..100, a confidence within
    0..5 and any streak, the percentage is at most 90. *)
Theorem X15_readiness_after_exam_day_at_most_90 (c a s d : Q) :
  c <= 100 -> a <= 5 -> d <= 0 ->
  (StudyAlgorithm.percentage (StudyAlgorithm.calculateExamReadiness c a s d)
   <= 90)%Z.
Proof.
  intros Hc Ha Hd. rewrite percentage_eq.
  apply (round_monotone _ 90).
  unfold StudyAlgorithm.readinessScore.
  assert (E : Js.gtb d 0 = false) by (apply gtb_false; exact Hd).
  rewrite E.
  pose proof (Q.le_min_r (s / 14) 1) as Hk.
  literal_div. lra.
Qed.

Lemma X15_readiness_after_exam_witness :
  (StudyAlgorithm.percentage
     (StudyAlgorithm.calculateExamReadiness 100 5 14 0) <= 90)%Z.
Proof.
  apply (X15_readiness_after_exam_day_at_most_90 100 5 14 0);
    unfold Qle; simpl; lia.
Defined.

(** ** Recovery rebalancer: the cap and the regular case *)

Lemma min_with_number (x : Js.number) (b : Q) :
  Js.min x (Js.Num b) = Js.NaN \/ atMost (Js.min x (Js.Num b)) b.
Proof.
  destruct x as [q| | |]; cbn.
  - right. apply Q.le_min_r.
  - right. apply Qle_refl.
  - right. exact I.
  - left. reflexivity.
Qed.

(** X16: the extra minutes per day never exceed the cap
    [round(dailyStudyMinutes * maxOverloadPercentage / 100)]: the result is
    NaN or a number not above the cap. *)
Theorem X16_rebalance_extra_minutes_capped
    (missedMinutes remainingDays dailyStudyMinutes maxOverloadPercentage : Q) :
  0 < remainingDays ->
  let extra :=
    StudyAlgorithm.extraMinutesPerDay
      (StudyAlgorithm.rebalanceAfterMissed missedMinutes remainingDays
         dailyStudyMinutes maxOverloadPercentage) in
  extra = Js.NaN
  \/ atMost extra
       (inject_Z (Js.round (dailyStudyMinutes * (maxOverloadPercentage / 100)))).
Proof.
  intro Hr. cbv zeta. unfold StudyAlgorithm.rebalanceAfterMissed.
  destruct (Js.leb remainingDays 0) eqn:E; [apply leb_true in E; lra|].
  cbn [StudyAlgorithm.extraMinutesPerDay]. apply min_with_number.
Qed.

Lemma X16_rebalance_capped_witness :
  atMost
    (StudyAlgorithm.extraMinutesPerDay
       (StudyAlgorithm.rebalanceAfterMissed 300 2 180 25))
    (inject_Z (Js.round (180 * (25 / 100)))).
Proof.
  destruct (X16_rebalance_extra_minutes_capped 300 2 180 25) as [H | H].
  - unfold Qlt; simpl; lia.
  - discriminate H.
  - exact H.
Defined.

(** X17: when minutes were missed, days remain and the cap is positive, both
    results are numbers: the days to recover are positive and at most the
    remaining days, and the extra minutes lie between 0 and the cap. *)
Theorem X17_rebalance_regular_case_is_finite
    (missedMinutes remainingDays dailyStudyMinutes maxOverloadPercentage : Q) :
  0 < missedMinutes -> 0 < remainingDays ->
  (0 < Js.round (dailyStudyMinutes * (maxOverloadPercentage / 100)))%Z ->
  let r := StudyAlgorithm.rebalanceAfterMissed missedMinutes remainingDays
             dailyStudyMinutes maxOverloadPercentage in
  exists days extra : Q,
    StudyAlgorithm.daysToRecover r = Js.Num days
    /\ StudyAlgorithm.extraMinutesPerDay r = Js.Num extra
    /\ 0 < days <= remainingDays
    /\ 0 <= extra
       <= inject_Z (Js.round (dailyStudyMinutes
                              * (maxOverloadPercentage / 100))).
Proof.
  intros Hm Hr Hcap. cbv zeta. unfold StudyAlgorithm.rebalanceAfterMissed.
  destruct (Js.leb remainingDays 0) eqn:E; [apply leb_true in E; lra|].
  cbn [StudyAlgorithm.extraMinutesPerDay StudyAlgorithm.daysToRecover].
  set (m := Js.round (dailyStudyMinutes * (maxOverloadPercentage / 100))) in *.
  assert (Hm0 : 0 < inject_Z m).
  { change 0 with (inject_Z 0). rewrite <- Zlt_Qlt. exact Hcap. }
  assert (Hideal : Js.ceilN (Js.div (Js.Num missedMinutes) (Js.ofZ m))
                   = Js.Num (inject_Z (Js.ceil (missedMinutes / inject_Z m)))).
  { unfold Js.div, Js.ofZ.
    destruct (Qeq_bool (inject_Z m) 0) eqn:Em; [|reflexivity].
    apply Qeq_bool_iff in Em. lra. }
  rewrite !Hideal. cbn [Js.min].
  assert (Hq : 0 < missedMinutes / inject_Z m).
  { apply Qlt_shift_div_l; [exact Hm0 | lra]. }
  assert (Hceil : 1 <= inject_Z (Js.ceil (missedMinutes / inject_Z m))).
  { change 1 with (inject_Z 1). rewrite <- Zle_Qle.
    pose proof (Qle_ceiling (missedMinutes / inject_Z m)) as Hc.
    unfold Js.ceil.
    assert (H0 : 0 < inject_Z (Qceiling (missedMinutes / inject_Z m))) by lra.
    change 0 with (inject_Z 0) in H0. rewrite <- Zlt_Qlt in H0. lia. }
  set (days := Qmin (inject_Z (Js.ceil (missedMinutes / inject_Z m)))
                 remainingDays).
  assert (Hdays : 0 < days <= remainingDays).
  { split; [|apply Q.le_min_r].
    unfold days. destruct (Q.min_spec (inject_Z (Js.ceil (missedMinutes
      / inject_Z m))) remainingDays) as [[_ ->]|[_ ->]]; lra. }
  assert (Hdiv : Js.div (Js.Num missedMinutes) (Js.Num days)
                 = Js.Num (missedMinutes / days)).
  { unfold Js.div.
    destruct (Qeq_bool days 0) eqn:Ed; [|reflexivity].
    apply Qeq_bool_iff in Ed. lra. }
  rewrite Hdiv. cbn [Js.roundN Js.ofZ Js.min].
  exists days. eexists. split; [reflexivity|]. split; [reflexivity|].
  split; [exact Hdays|]. split; [|apply Q.le_min_r].
  apply Q.min_glb; [|lra].
  change 0 with (inject_Z 0). rewrite <- Zle_Qle.
  apply (round_monotone 0).
  apply Qlt_le_weak, Qlt_shift_div_l; lra.
Qed.

Lemma X17_rebalance_regular_witness :
  exists days extra : Q,
    StudyAlgorithm.daysToRecover
      (StudyAlgorithm.rebalanceAfterMissed 300 2 180 25) = Js.Num days
    /\ StudyAlgorithm.extraMinutesPerDay
         (StudyAlgorithm.rebalanceAfterMissed 300 2 180 25) = Js.Num extra
    /\ 0 < days <= 2
    /\ 0 <= extra <= inject_Z (Js.round (180 * (25 / 100))).
Proof.
  apply (X17_rebalance_regular_case_is_finite 300 2 180 25).
  - unfold Qlt; simpl; lia.
  - unfold Qlt; simpl; lia.
  - vm_compute. reflexivity.
Defined.

(** ** Revision summary: coverage, [completedThisWeek], the variant *)

(** X18: with a clock whose local midnights satisfy
    [startOfToday <= endOfToday <= now + 7 days], a topic of the list whose
    [next_revision_at] is set is in one of the buckets [overdueTopics],
    [pendingRevisions], [upcomingRevisions] exactly when its revision is due
    within the next seven days; no due topic falls between the buckets. *)
Theorem X18_revision_buckets_cover_the_window
    (c : StudyAlgorithm.Clock) (ts : list Topic) (t : Topic) (r : Z) :
  (StudyAlgorithm.startOfToday c <= StudyAlgorithm.endOfToday c
   <= StudyAlgorithm.now c + 7 * 24 * 60 * 60 * 1000)%Z ->
  In t ts -> next_revision_at t = Some r ->
  let s := StudyAlgorithm.getRevisionSummary c ts in
  (In t (StudyAlgorithm.overdueTopics s)
   \/ In t (StudyAlgorithm.pendingRevisions s)
   \/ In t (StudyAlgorithm.upcomingRevisions s))
  <-> (r <= StudyAlgorithm.now c + 7 * 24 * 60 * 60 * 1000)%Z.
Proof.
  intros Hclock Hin Hr s.
  destruct (revision_bucket_membership c ts t r Hin Hr) as (Ho & Hp & Hu).
  fold s in Ho, Hp, Hu. rewrite Ho, Hp, Hu. lia.
Qed.

Lemma X18_revision_buckets_cover_witness :
  let c := {| StudyAlgorithm.now := exampleNow;
              StudyAlgorithm.startOfToday := exampleNow - 1000;
              StudyAlgorithm.endOfToday := exampleNow - 1000 + MS_PER_DAY |} in
  let t := {| topic_id := "t3"; topic_name := "Limits";
              confidence_level := 3; priority_score := 50;
              estimated_hours := 2; completed_hours := 1;
              last_studied_at := None;
              next_revision_at := Some (exampleNow + 2 * MS_PER_DAY)%Z;
              revision_count := 1; is_completed := false;
              last_revision_date := None;
              revision_confidence_delta := None |} in
  In t (StudyAlgorithm.overdueTopics (StudyAlgorithm.getRevisionSummary c [t]))
  \/ In t (StudyAlgorithm.pendingRevisions
             (StudyAlgorithm.getRevisionSummary c [t]))
  \/ In t (StudyAlgorithm.upcomingRevisions
             (StudyAlgorithm.getRevisionSummary c [t])).
Proof.
  intros c t.
  apply (X18_revision_buckets_cover_the_window c [t] t
           (exampleNow + 2 * MS_PER_DAY)%Z).
  - vm_compute. split; discriminate.
  - left. reflexivity.
  - reflexivity.
  - vm_compute. discriminate.
Defined.

Lemma fold_visitTopic_completed (c : StudyAlgorithm.Clock) (ts : list Topic) :
  forall acc,
    StudyAlgorithm.completedThisWeek
      (fold_left (StudyAlgorithm.visitTopic c) ts acc)
    = StudyAlgorithm.completedThisWeek acc ++ filter (completedGuard c) ts.
Proof.
  induction ts as [|t ts IH]; intro acc; cbn [fold_left filter].
  - rewrite app_nil_r. reflexivity.
  - rewrite IH. unfold StudyAlgorithm.visitTopic, completedGuard.
    destruct (last_revision_date t) as [d|];
      [destruct (_ && _)%bool|];
      (destruct (next_revision_at t) as [r|];
       [ destruct (r <? _)%Z; [|destruct (_ && _)%bool; [|destruct (_ && _)%bool]]
       | ]);
      cbn; rewrite <- ?app_assoc; reflexivity.
Qed.

(** [completedThisWeek] holds, in the order of the input, exactly the
    topics whose [last_revision_date] lies within the seven days up to now;
    it does not depend on [next_revision_at], so such a topic is listed
    there as well as in its revision bucket. *)
Lemma completed_this_week_membership
    (c : StudyAlgorithm.Clock) (ts : list Topic) (t : Topic) :
  StudyAlgorithm.completedThisWeek (StudyAlgorithm.getRevisionSummary c ts)
  = filter (completedGuard c) ts
  /\ (In t (StudyAlgorithm.completedThisWeek
              (StudyAlgorithm.getRevisionSummary c ts))
      <-> In t ts
          /\ exists d, last_revision_date t = Some d
                       /\ (StudyAlgorithm.now c - 7 * 24 * 60 * 60 * 1000 <= d
                           <= StudyAlgorithm.now c)%Z).
Proof.
  assert (E : StudyAlgorithm.completedThisWeek
                (StudyAlgorithm.getRevisionSummary c ts)
              = filter (completedGuard c) ts).
  { unfold StudyAlgorithm.getRevisionSummary.
    rewrite fold_visitTopic_completed. reflexivity. }
  split; [exact E|]. rewrite E, filter_In. unfold completedGuard.
  split.
  - intros [Hin Hg]. split; [exact Hin|].
    destruct (last_revision_date t) as [d|]; [|discriminate].
    exists d. split; [reflexivity|].
    apply andb_true_iff in Hg. rewrite !Z.leb_le in Hg. exact Hg.
  - intros [Hin (d & Hd & Hrange)]. split; [exact Hin|].
    rewrite Hd. apply andb_true_iff. rewrite !Z.leb_le. exact Hrange.
Qed.

Section VariantBuckets.
Variable now : Z.

Lemma variant_visitTopic_buckets (acc : StudyAlgorithm.RevisionSummary)
    (t : Topic) :
  let acc' := RevisionAware.visitTopic now acc t in
  StudyAlgorithm.completedThisWeek acc'
  = StudyAlgorithm.completedThisWeek acc ++ filter (vCompletedGuard now) [t]
  /\ StudyAlgorithm.overdueTopics acc'
     = StudyAlgorithm.overdueTopics acc ++ filter (vOverdueGuard now) [t]
  /\ StudyAlgorithm.upcomingRevisions acc'
     = StudyAlgorithm.upcomingRevisions acc ++ filter (vUpcomingGuard now) [t]
  /\ StudyAlgorithm.pendingRevisions acc'
     = StudyAlgorithm.pendingRevisions acc ++ filter (vPendingGuard now) [t].
Proof.
  unfold RevisionAware.visitTopic, vOverdueGuard, vUpcomingGuard,
    vPendingGuard, vCompletedGuard.
  cbn [filter].
  destruct (last_revision_date t) as [d|];
    [destruct (_ <=? d)%Z|];
    cbn [negb andb];
    try (destruct (next_revision_at t) as [r|];
         [ destruct (r <? now)%Z; [|destruct (r <=? _)%Z]
         | destruct (_ && _)%bool ]);
    cbn; rewrite ?app_nil_r; auto.
Qed.

Lemma variant_summary_buckets (ts : list Topic) :
  forall acc,
    let acc' := fold_left (RevisionAware.visitTopic now) ts acc in
    StudyAlgorithm.completedThisWeek acc'
    = StudyAlgorithm.completedThisWeek acc ++ filter (vCompletedGuard now) ts
    /\ StudyAlgorithm.overdueTopics acc'
       = StudyAlgorithm.overdueTopics acc ++ filter (vOverdueGuard now) ts
    /\ StudyAlgorithm.upcomingRevisions acc'
       = StudyAlgorithm.upcomingRevisions acc ++ filter (vUpcomingGuard now) ts
    /\ StudyAlgorithm.pendingRevisions acc'
       = StudyAlgorithm.pendingRevisions acc ++ filter (vPendingGuard now) ts.
Proof.
  induction ts as [|t ts IH]; intro acc; cbn zeta.
  - cbn. rewrite !app_nil_r. auto.
  - cbn [fold_left].
    destruct (IH (RevisionAware.visitTopic now acc t)) as (Hc & Ho & Hu & Hp).
    destruct (variant_visitTopic_buckets acc t) as (Hc1 & Ho1 & Hu1 & Hp1).
    rewrite Hc, Ho, Hu, Hp, Hc1, Ho1, Hu1, Hp1, <- !app_assoc, <- !filter_app.
    auto.
Qed.

Lemma variant_guards_exclusive (t : Topic) :
  (vCompletedGuard now t && vOverdueGuard now t = false)
  /\ (vCompletedGuard now t && vUpcomingGuard now t = false)
  /\ (vCompletedGuard now t && vPendingGuard now t = false)
  /\ (vOverdueGuard now t && vUpcomingGuard now t = false)
  /\ (vOverdueGuard now t && vPendingGuard now t = false)
  /\ (vUpcomingGuard now t && vPendingGuard now t = false).
Proof.
  unfold vOverdueGuard, vUpcomingGuard, vPendingGuard.
  destruct (vCompletedGuard now t); cbn [negb andb];
    [repeat split; reflexivity|].
  destruct (next_revision_at t) as [r|];
    [destruct (r <? now)%Z, (r <=? _)%Z | ];
    cbn [negb andb]; repeat split; reflexivity.
Qed.

End VariantBuckets.

(** X20: in the variant of [getRevisionSummary] the four buckets
    [completedThisWeek], [overdueTopics], [upcomingRevisions] and
    [pendingRevisions] are pairwise disjoint: a topic revised within the last
    week is listed as completed only, and the pending bucket holds only
    topics without a [next_revision_at]. *)
Theorem X20_variant_summary_buckets_disjoint
    (now : Z) (ts : list Topic) (t : Topic) :
  let s := RevisionAware.getRevisionSummary now ts in
  let inCompleted := In t (StudyAlgorithm.completedThisWeek s) in
  let inOverdue := In t (StudyAlgorithm.overdueTopics s) in
  let inUpcoming := In t (StudyAlgorithm.upcomingRevisions s) in
  let inPending := In t (StudyAlgorithm.pendingRevisions s) in
  ~ (inCompleted /\ inOverdue) /\ ~ (inCompleted /\ inUpcoming)
  /\ ~ (inCompleted /\ inPending) /\ ~ (inOverdue /\ inUpcoming)
  /\ ~ (inOverdue /\ inPending) /\ ~ (inUpcoming /\ inPending)
  /\ (inPending -> next_revision_at t = None).
Proof.
  cbv zeta. unfold RevisionAware.getRevisionSummary.
  destruct (variant_summary_buckets now ts
              {| StudyAlgorithm.overdueTopics := [];
                 StudyAlgorithm.pendingRevisions := [];
                 StudyAlgorithm.completedThisWeek := [];
                 StudyAlgorithm.upcomingRevisions := [] |})
    as (Hc & Ho & Hu & Hp).
  cbn [StudyAlgorithm.completedThisWeek StudyAlgorithm.overdueTopics
       StudyAlgorithm.upcomingRevisions StudyAlgorithm.pendingRevisions app]
    in Hc, Ho, Hu, Hp.
  rewrite Hc, Ho, Hu, Hp.
  destruct (variant_guards_exclusive now t) as (E1 & E2 & E3 & E4 & E5 & E6).
  repeat split;
    try (intros [H1 H2]; apply filter_In in H1; apply filter_In in H2;
         destruct H1 as [_ H1]; destruct H2 as [_ H2];
         rewrite H1, H2 in *; discriminate).
  intro H. apply filter_In in H. destruct H as [_ H].
  unfold vPendingGuard in H.
  destruct (next_revision_at t); [|reflexivity].
  rewrite andb_false_r in H. discriminate.
Qed.

(** ** Revision eligibility *)

(** X21: a topic that was never studied and has no completed hours is not
    eligible for revision, whatever its confidence, its dates and the days
    until the exam. *)
Theorem X21_unstudied_topic_is_not_eligible
    (now : Z) (topic : Topic) (daysUntilExam : Q) :
  last_studied_at topic = None -> completed_hours topic <= 0 ->
  RevisionAware.isEligible
    (RevisionAware.checkRevisionEligibility now topic daysUntilExam) = false.
Proof.
  intros Hs Hh. unfold RevisionAware.checkRevisionEligibility.
  cbn [RevisionAware.isEligible]. rewrite Hs.
  assert (E : Js.gtb (completed_hours topic) 0 = false)
    by (apply gtb_false; exact Hh).
  rewrite E. reflexivity.
Qed.

Lemma X21_unstudied_topic_witness :
  RevisionAware.isEligible
    (RevisionAware.checkRevisionEligibility exampleNow newTopic 30) = false.
Proof.
  apply (X21_unstudied_topic_is_not_eligible exampleNow newTopic 30).
  - reflexivity.
  - unfold Qle; simpl; lia.
Defined.

(** X22: the urgency score of [checkRevisionEligibility] lies between 0 and
    100 for every topic: each contribution is positive and the sum is capped
    at 100. *)
Theorem X22_eligibility_urgency_between_0_and_100
    (now : Z) (topic : Topic) (daysUntilExam : Q) :
  0 <= RevisionAware.urgencyScore
         (RevisionAware.checkRevisionEligibility now topic daysUntilExam)
  <= 100.
Proof.
  unfold RevisionAware.checkRevisionEligibility.
  cbn [RevisionAware.urgencyScore].
  split; [|apply Q.le_min_r].
  apply Q.min_glb; [|lra].
  unfold RevisionAware.REVISION_CONFIG.CONFIDENCE_THRESHOLD,
    RevisionAware.REVISION_CONFIG.DAYS_SINCE_REVISION_THRESHOLD.
  set (u1 := if Js.leb (confidence_level topic) 3 then _ else _).
  assert (H1 : 0 <= u1).
  { unfold u1. destruct (Js.leb (confidence_level topic) 3) eqn:E; [|lra].
    apply leb_true in E. lra. }
  set (u2 := if (_ && _)%bool then _ else u1).
  assert (H2 : 0 <= u2).
  { unfold u2.
    destruct (RevisionAware.daysSinceRevisionOrInfinity now topic) as [d|].
    - destruct (7 <=? d)%Z eqn:E; cbn [andb]; [|exact H1].
      destruct (_ || _)%bool; [|exact H1].
      apply Z.leb_le in E.
      assert (Hd : 7 <= inject_Z d).
      { change 7 with (inject_Z 7). rewrite <- Zle_Qle. exact E. }
      destruct (Q.min_spec (inject_Z d * 5) 50) as [[_ ->]|[_ ->]]; lra.
    - cbn [andb]. destruct (_ || _)%bool; lra. }
  destruct (Js.leb daysUntilExam 7); [lra|].
  destruct (Js.leb daysUntilExam 14); lra.
Qed.

(** An eligible topic has a first reason, one of the two templates. *)
Lemma eligible_has_eligibility_reason
    (now : Z) (topic : Topic) (daysUntilExam : Q) (fallback : Reason) :
  let e := RevisionAware.checkRevisionEligibility now topic daysUntilExam in
  RevisionAware.isEligible e = true ->
  isEligibilityReason (hd fallback (RevisionAware.eligibilityReasons e)).
Proof.
  cbv zeta. unfold RevisionAware.checkRevisionEligibility.
  cbn [RevisionAware.isEligible RevisionAware.eligibilityReasons].
  destruct (Js.leb (confidence_level topic) _); [intros _; exact I|].
  cbn [app orb].
  destruct (_ || _)%bool; [|discriminate]. cbn [andb].
  destruct (match RevisionAware.daysSinceRevisionOrInfinity now topic with
            | Some d => _ | None => true end); [|discriminate].
  intros _. exact I.
Qed.

(** ** Schedules: where the sessions come from *)

Lemma ltb_false (x y : Q) : Js.ltb x y = false <-> y <= x.
Proof. apply (gtb_false y x). Qed.

Lemma sortByScoreDesc_In {A : Type} (key : A -> Z) (x : A) (l : list A) :
  In x (sortByScoreDesc key l) <-> In x l.
Proof.
  induction l as [|y l IH]; cbn; [tauto|].
  rewrite insertByScore_In, IH. intuition.
Qed.

Lemma insertByScore_length {A : Type} (key : A -> Z) (x : A) (l : list A) :
  List.length (insertByScore key x l) = S (List.length l).
Proof.
  induction l as [|y l IH]; cbn; [reflexivity|].
  destruct (key y <=? key x)%Z; cbn; [reflexivity | rewrite IH; reflexivity].
Qed.

Lemma sortByScoreDesc_length {A : Type} (key : A -> Z) (l : list A) :
  List.length (sortByScoreDesc key l) = List.length l.
Proof.
  unfold sortByScoreDesc.
  induction l as [|y l IH]; cbn [fold_right]; [reflexivity|].
  rewrite insertByScore_length, IH. reflexivity.
Qed.

Lemma weave_In (s : ScheduleSession) (others : list ScheduleSession) :
  forall revisions,
    In s (weave others revisions) <-> In s others \/ In s revisions.
Proof.
  induction others as [|o|o1 o2 others IH] using list_pair_ind;
    intro revisions.
  - cbn. tauto.
  - cbn [weave]. rewrite in_app_iff. tauto.
  - destruct revisions as [|r revisions]; cbn [weave In]; rewrite IH;
      cbn [In]; tauto.
Qed.

Lemma interleave_In (s : ScheduleSession) (schedule : list ScheduleSession) :
  In s (RevisionAware.interleave schedule) <-> In s schedule.
Proof.
  rewrite interleave_weave, weave_In, !filter_In.
  destruct (isRevisionType s); cbn; tauto.
Qed.

Lemma weave_length (others : list ScheduleSession) :
  forall revisions,
    List.length (weave others revisions)
    = (List.length others + List.length revisions)%nat.
Proof.
  induction others as [|o|o1 o2 others IH] using list_pair_ind;
    intro revisions.
  - reflexivity.
  - cbn [weave]. apply length_app.
  - destruct revisions as [|r revisions]; cbn [weave List.length];
      rewrite IH; cbn [List.length]; lia.
Qed.

Lemma interleave_length (schedule : list ScheduleSession) :
  List.length (RevisionAware.interleave schedule) = List.length schedule.
Proof.
  rewrite interleave_weave, weave_length.
  rewrite <- (filter_length_split isRevisionType schedule). lia.
Qed.

Section VariantSessions.
Variables availableMinutes pomodoroWorkMinutes pomodoroBreakMinutes : Q.

(** The sessions of the first loop are revision or recall sessions of its
    entries, and last a positive time when the pomodoro is positive. *)
Lemma allocateRevisions_sessions (entries : list RevisionAware.RevisionEntry) :
  forall remaining allocated sessions remaining',
    RevisionAware.allocateRevisions availableMinutes pomodoroWorkMinutes
      pomodoroBreakMinutes entries remaining allocated
    = (sessions, remaining') ->
    (List.length sessions <= List.length entries)%nat
    /\ forall s, In s sessions ->
       exists e ty d,
         In e entries /\ ty <> learning
         /\ s = RevisionAware.mkRevisionSession e ty d
         /\ (0 < pomodoroWorkMinutes -> 0 <= pomodoroBreakMinutes -> 0 < d).
Proof.
  induction entries as [|e rest IH]; intros remaining allocated sessions remaining'.
  - cbn. intro H. injection H as <- <-. split; [cbn; lia | intros s []].
  - cbn [RevisionAware.allocateRevisions].
    destruct (Js.ltb remaining pomodoroWorkMinutes) eqn:Erem.
    { intro H. injection H as <- <-. split; [cbn; lia | intros s []]. }
    destruct (Js.geb allocated _).
    { intro H. injection H as <- <-. split; [cbn; lia | intros s []]. }
    apply ltb_false in Erem.
    match goal with |- context [RevisionAware.allocateRevisions _ _ _ rest ?r ?a] =>
      specialize (IH r a);
      destruct (RevisionAware.allocateRevisions availableMinutes
                  pomodoroWorkMinutes pomodoroBreakMinutes rest r a)
        as [ss rem1]
    end.
    destruct (IH ss rem1 eq_refl) as [IHlen IHin].
    intro H. injection H as <- <-. split; [cbn; lia|].
    intros s [<- | Hs].
    + do 3 eexists. split; [left; reflexivity|]. split; [|split; [reflexivity|]].
      * destruct (RevisionAware.isQuickRecall _); discriminate.
      * intros Hw Hb. unfold RevisionAware.sessionDuration.
        destruct (RevisionAware.isQuickRecall _);
          apply Q.min_glb_lt; lra.
    + destruct (IHin s Hs) as (e' & ty & d & He' & Hty & Hse & Hd).
      exists e', ty, d. split; [right; exact He'|]. auto.
Qed.

Lemma allocateLearning_sessions (entries : list StudyAlgorithm.Entry) :
  forall remaining,
    (List.length (RevisionAware.allocateLearning pomodoroWorkMinutes
                    pomodoroBreakMinutes entries remaining)
     <= List.length entries)%nat
    /\ forall s,
       In s (RevisionAware.allocateLearning pomodoroWorkMinutes
               pomodoroBreakMinutes entries remaining) ->
       exists e d,
         In e entries /\ s = RevisionAware.mkLearningSession e d
         /\ (0 < pomodoroWorkMinutes -> 0 <= pomodoroBreakMinutes -> 0 < d).
Proof.
  induction entries as [|e rest IH]; intro remaining;
    cbn [RevisionAware.allocateLearning].
  - split; [cbn; lia | intros s []].
  - destruct (Js.ltb remaining _) eqn:Erem; [split; [cbn; lia | intros s []]|].
    apply ltb_false in Erem. unfold RevisionAware.sessionDuration in Erem.
    match goal with |- context [RevisionAware.allocateLearning _ _ rest ?r] =>
      destruct (IH r) as [IHlen IHin] end.
    split; [cbn [List.length]; lia|].
    intros s [<- | Hs].
    + do 2 eexists. split; [left; reflexivity|]. split; [reflexivity|].
      intros Hw Hb. unfold RevisionAware.sessionDuration.
      destruct (last_studied_at _); apply Q.min_glb_lt; lra.
    + destruct (IHin s Hs) as (e' & d & He' & Hse & Hd).
      exists e', d. split; [right; exact He'|]. auto.
Qed.

End VariantSessions.

Lemma revisionTopics_eligible (now : Z) (subjects : list Subject)
    (daysUntilExam : Q) (e : RevisionAware.RevisionEntry) :
  In e (RevisionAware.revisionTopics now subjects daysUntilExam) ->
  RevisionAware.eligibility e
  = RevisionAware.checkRevisionEligibility now (RevisionAware.rtopic e)
      daysUntilExam
  /\ RevisionAware.isEligible (RevisionAware.eligibility e) = true.
Proof.
  unfold RevisionAware.revisionTopics. rewrite in_flat_map.
  intros (subject & _ & H). rewrite in_flat_map in H.
  destruct H as (topic & _ & H).
  destruct (is_completed topic); [destruct H|].
  destruct (RevisionAware.isEligible _) eqn:E; [|destruct H].
  destruct H as [<- | []]. cbn. split; [reflexivity | exact E].
Qed.

(** What every session of the variant is. *)
Lemma variant_session_cases (now : Z) (subjects : list Subject)
    (availableMinutes work brk daysUntilExam : Q) (s : ScheduleSession) :
  In s (RevisionAware.generateDailySchedule now subjects availableMinutes
          work brk daysUntilExam) ->
  (0 < work -> 0 <= brk -> 0 < durationMinutes s)
  /\ ((type s = learning /\ isRevisionScheduled s = Some false)
      \/ (type s <> learning /\ isRevisionScheduled s = Some true
          /\ isEligibilityReason (reason s))).
Proof.
  unfold RevisionAware.generateDailySchedule. rewrite interleave_In.
  unfold RevisionAware.allocatedSchedule.
  match goal with |- context [RevisionAware.allocateRevisions ?a ?w ?b ?l ?r ?z] =>
    destruct (RevisionAware.allocateRevisions a w b l r z) as [revs rem] eqn:E
  end.
  rewrite in_app_iff. intros [Hs | Hs].
  - destruct (allocateRevisions_sessions _ _ _ _ _ _ _ _ E) as [_ Hin].
    destruct (Hin s Hs) as (e & ty & d & He & Hty & -> & Hd).
    split; [exact Hd|]. right.
    split; [exact Hty|]. split; [reflexivity|].
    apply sortByScoreDesc_In in He.
    destruct (revisionTopics_eligible _ _ _ _ He) as [Eq El].
    cbn [reason RevisionAware.mkRevisionSession]. rewrite Eq in El |- *.
    apply eligible_has_eligibility_reason. exact El.
  - match type of Hs with In _ (RevisionAware.allocateLearning _ _ ?l _) =>
      destruct (allocateLearning_sessions work brk l rem) as [_ Hin] end.
    destruct (Hin s Hs) as (e & d & He & -> & Hd).
    split; [exact Hd|]. left. split; reflexivity.
Qed.

(** X23: in the schedule of the revision-aware variant the flag
    [isRevisionScheduled] agrees with the type: it is true on the revision
    and recall sessions and false on the learning sessions, which is how the
    layout recomputes it from the session type. *)
Theorem X23_variant_revision_flag_matches_type
    (now : Z) (subjects : list Subject)
    (availableMinutes work brk daysUntilExam : Q) (s : ScheduleSession) :
  In s (RevisionAware.generateDailySchedule now subjects availableMinutes
          work brk daysUntilExam) ->
  isRevisionScheduled s
  = Some (match type s with learning => false | _ => true end).
Proof.
  intro Hs.
  destruct (variant_session_cases _ _ _ _ _ _ _ Hs) as [_ [[Hty Hf] | (Hty & Hf & _)]].
  - rewrite Hty. exact Hf.
  - destruct (type s); [congruence | exact Hf | exact Hf].
Qed.

Lemma X23_variant_revision_flag_witness :
  exists s,
    In s (RevisionAware.generateDailySchedule exampleNow
            [subjectOf [newTopic; studiedTopic]] 180 25 5 30)
    /\ isRevisionScheduled s
       = Some (match type s with learning => false | _ => true end).
Proof.
  destruct (RevisionAware.generateDailySchedule exampleNow
              [subjectOf [newTopic; studiedTopic]] 180 25 5 30)
    as [|s rest] eqn:E.
  - vm_compute in E. discriminate E.
  - exists s. split; [left; reflexivity|].
    apply (X23_variant_revision_flag_matches_type exampleNow
             [subjectOf [newTopic; studiedTopic]] 180 25 5 30 s).
    rewrite E. left. reflexivity.
Defined.

(** X24: a revision or recall session of the variant always carries one of
    the two reasons of [checkRevisionEligibility] ("Low confidence (c/5)" or
    "Not revised in d days"): an eligible topic has a first reason, so the
    fallback "Scheduled due to revision cycle" is never used. *)
Theorem X24_variant_revision_reason_is_never_the_fallback
    (now : Z) (subjects : list Subject)
    (availableMinutes work brk daysUntilExam : Q) (s : ScheduleSession) :
  In s (RevisionAware.generateDailySchedule now subjects availableMinutes
          work brk daysUntilExam) ->
  type s <> learning ->
  isEligibilityReason (reason s)
  /\ reason s <> Text "Scheduled due to revision cycle".
Proof.
  intros Hs Hty.
  destruct (variant_session_cases _ _ _ _ _ _ _ Hs) as [_ [[Hl _] | (_ & _ & Hr)]].
  - contradiction.
  - split; [exact Hr|]. intro E. rewrite E in Hr. exact Hr.
Qed.

Lemma X24_variant_revision_reason_witness :
  exists s,
    In s (RevisionAware.generateDailySchedule exampleNow
            [subjectOf [studiedTopic]] 180 25 5 30)
    /\ type s <> learning
    /\ reason s <> Text "Scheduled due to revision cycle".
Proof.
  destruct (RevisionAware.generateDailySchedule exampleNow
              [subjectOf [studiedTopic]] 180 25 5 30)
    as [|s rest] eqn:E.
  - vm_compute in E. discriminate E.
  - assert (Hty : type s <> learning).
    { vm_compute in E. injection E as <- _. discriminate. }
    exists s. split; [left; reflexivity|]. split; [exact Hty|].
    apply (X24_variant_revision_reason_is_never_the_fallback exampleNow
             [subjectOf [studiedTopic]] 180 25 5 30 s).
    + rewrite E. left. reflexivity.
    + exact Hty.
Defined.

(** X25: with a positive work time and a break that is not negative, every
    session of the variant lasts a positive time: a session can be cut to
    the time that remains, but the loops stop before a session would be
    empty. *)
Theorem X25_variant_sessions_last_a_positive_time
    (now : Z) (subjects : list Subject)
    (availableMinutes work brk daysUntilExam : Q) (s : ScheduleSession) :
  0 < work -> 0 <= brk ->
  In s (RevisionAware.generateDailySchedule now subjects availableMinutes
          work brk daysUntilExam) ->
  0 < durationMinutes s.
Proof.
  intros Hw Hb Hs.
  destruct (variant_session_cases _ _ _ _ _ _ _ Hs) as [Hd _].
  exact (Hd Hw Hb).
Qed.

Lemma X25_variant_sessions_positive_witness :
  exists s,
    In s (RevisionAware.generateDailySchedule exampleNow
            [subjectOf [newTopic; studiedTopic]] 180 25 5 30)
    /\ 0 < durationMinutes s.
Proof.
  destruct (RevisionAware.generateDailySchedule exampleNow
              [subjectOf [newTopic; studiedTopic]] 180 25 5 30)
    as [|s rest] eqn:E.
  - vm_compute in E. discriminate E.
  - exists s. split; [left; reflexivity|].
    apply (X25_variant_sessions_last_a_positive_time exampleNow
             [subjectOf [newTopic; studiedTopic]] 180 25 5 30 s).
    + unfold Qlt; simpl; lia.
    + unfold Qle; simpl; lia.
    + rewrite E. left. reflexivity.
Defined.

(** ** The schedule of [src/lib/study-algorithm.ts]: topics and durations *)

Section LibSessions.
Variables availableMinutes pomodoroWorkMinutes pomodoroBreakMinutes : Q.

Local Abbreviation sd :=
  (StudyAlgorithm.sessionDuration pomodoroWorkMinutes pomodoroBreakMinutes).

(** The duration chosen for each type when at least one session fits. *)
Lemma chooseSession_duration (t : Topic) (st : StudyAlgorithm.Alloc) :
  forall ty d st1,
    StudyAlgorithm.chooseSession availableMinutes pomodoroWorkMinutes
      pomodoroBreakMinutes t st = (ty, d, st1) ->
    sd <= StudyAlgorithm.remainingMinutes st ->
    0 <= pomodoroWorkMinutes -> 0 <= pomodoroBreakMinutes ->
    match ty with
    | revision => d == sd
    | recall => d == pomodoroWorkMinutes
    | learning => sd <= d <= sd * 2
    end.
Proof.
  intros ty d st1. unfold StudyAlgorithm.chooseSession.
  destruct (_ && _)%bool;
    [|destruct (_ && _)%bool; [|destruct (Js.ltb _ _)]];
    intro H; injection H as <- <- <-; intros Hrem Hw Hb;
    unfold StudyAlgorithm.sessionDuration in *.
  - split; [apply Q.min_glb; lra | apply Q.le_min_l].
  - apply Q.min_l. lra.
  - apply Q.min_l. lra.
  - rewrite Q.min_l by lra. lra.
Qed.

Lemma allocate_sessions (entries : list StudyAlgorithm.Entry) :
  forall st,
    (List.length (StudyAlgorithm.allocate availableMinutes pomodoroWorkMinutes
                    pomodoroBreakMinutes entries st)
     <= List.length entries)%nat
    /\ forall s,
       In s (StudyAlgorithm.allocate availableMinutes pomodoroWorkMinutes
               pomodoroBreakMinutes entries st) ->
       exists e ty d,
         In e entries /\ s = StudyAlgorithm.mkSession e ty d
         /\ (0 <= pomodoroWorkMinutes -> 0 <= pomodoroBreakMinutes ->
             match ty with
             | revision => d == sd
             | recall => d == pomodoroWorkMinutes
             | learning => sd <= d <= sd * 2
             end).
Proof.
  induction entries as [|e rest IH]; intro st.
  - split; [cbn; lia | intros s []].
  - rewrite allocate_cons.
    destruct (Js.ltb _ _) eqn:Erem; [split; [cbn; lia | intros s []]|].
    apply ltb_false in Erem.
    destruct (StudyAlgorithm.chooseSession _ _ _ (StudyAlgorithm.topic e) st)
      as [[ty d] st1] eqn:E.
    match goal with |- context [StudyAlgorithm.allocate _ _ _ rest ?s] =>
      destruct (IH s) as [IHlen IHin] end.
    split; [cbn [List.length]; lia|].
    intros s [<- | Hs].
    + exists e, ty, d. split; [left; reflexivity|]. split; [reflexivity|].
      intros Hw Hb.
      exact (chooseSession_duration _ _ _ _ _ E Erem Hw Hb).
    + destruct (IHin s Hs) as (e' & ty' & d' & He' & Hse & Hd).
      exists e', ty', d'. split; [right; exact He'|]. auto.
Qed.

End LibSessions.

Lemma topicsWithPriority_In (now : Z) (subjects : list Subject)
    (daysUntilExam : Q) (e : StudyAlgorithm.Entry) :
  In e (StudyAlgorithm.topicsWithPriority now subjects daysUntilExam) ->
  In (StudyAlgorithm.subject e) subjects
  /\ topics (StudyAlgorithm.subject e) <> None
  /\ In (StudyAlgorithm.topic e)
        (RevisionAware.topicsOf (StudyAlgorithm.subject e))
  /\ is_completed (StudyAlgorithm.topic e) = false
  /\ StudyAlgorithm.priority e
     = StudyAlgorithm.calculateTopicPriority now (StudyAlgorithm.topic e)
         (strength (StudyAlgorithm.subject e)) daysUntilExam.
Proof.
  unfold StudyAlgorithm.topicsWithPriority. rewrite in_flat_map.
  intros (subject & Hsub & H). rewrite in_flat_map in H.
  destruct H as (topic & Htop & H).
  destruct (is_completed topic) eqn:Ec; [destruct H|].
  destruct H as [<- | []]. cbn.
  unfold RevisionAware.topicsOf.
  destruct (topics subject); [|destruct Htop].
  repeat split; try assumption. discriminate.
Qed.

(** X26: every session of the schedule belongs to a topic of the input that
    is not completed: it carries the id and name of that topic, the name and
    colour of its subject, and the priority score of that topic.  A completed
    topic is never scheduled. *)
Theorem X26_sessions_come_from_uncompleted_topics
    (now : Z) (subjects : list Subject)
    (availableMinutes work brk daysUntilExam : Q) (s : ScheduleSession) :
  In s (StudyAlgorithm.generateDailySchedule now subjects availableMinutes
          work brk daysUntilExam) ->
  exists subject topic,
    In subject subjects
    /\ In topic (RevisionAware.topicsOf subject)
    /\ is_completed topic = false
    /\ topicId s = topic_id topic /\ topicName s = topic_name topic
    /\ subjectName s = subject_name subject /\ subjectColor s = color subject
    /\ priorityScore s
       = score (StudyAlgorithm.calculateTopicPriority now topic
                  (strength subject) daysUntilExam).
Proof.
  unfold StudyAlgorithm.generateDailySchedule. intro Hs.
  match type of Hs with In _ (StudyAlgorithm.allocate ?a ?w ?b ?l ?st) =>
    destruct (allocate_sessions a w b l st) as [_ Hin] end.
  destruct (Hin s Hs) as (e & ty & d & He & -> & _).
  apply sortByScoreDesc_In in He.
  destruct (topicsWithPriority_In _ _ _ _ He) as (H1 & _ & H3 & H4 & H5).
  exists (StudyAlgorithm.subject e), (StudyAlgorithm.topic e).
  cbn [topicId topicName subjectName subjectColor priorityScore
       StudyAlgorithm.mkSession].
  rewrite H5. repeat split; assumption.
Qed.

Lemma X26_sessions_from_topics_witness :
  exists s subject topic,
    In s (StudyAlgorithm.generateDailySchedule exampleNow
            [subjectOf [newTopic; studiedTopic]] 180 25 5 30)
    /\ In subject [subjectOf [newTopic; studiedTopic]]
    /\ is_completed topic = false
    /\ topicId s = topic_id topic.
Proof.
  destruct (StudyAlgorithm.generateDailySchedule exampleNow
              [subjectOf [newTopic; studiedTopic]] 180 25 5 30)
    as [|s rest] eqn:E.
  - vm_compute in E. discriminate E.
  - destruct (X26_sessions_come_from_uncompleted_topics exampleNow
                [subjectOf [newTopic; studiedTopic]] 180 25 5 30 s)
      as (subject & topic & H1 & _ & H3 & H4 & _).
    + rewrite E. left. reflexivity.
    + exists s, subject, topic. split; [left; reflexivity|]. auto.
Defined.

Lemma topicsWithPriority_length (now : Z) (subjects : list Subject)
    (daysUntilExam : Q) :
  List.length (StudyAlgorithm.topicsWithPriority now subjects daysUntilExam)
  = List.length (uncompletedTopics subjects).
Proof.
  unfold StudyAlgorithm.topicsWithPriority, uncompletedTopics.
  induction subjects as [|subject subjects IH]; [reflexivity|].
  cbn [flat_map]. rewrite !length_app, IH. f_equal.
  rewrite length_map. unfold RevisionAware.topicsOf.
  destruct (topics subject) as [ts|]; [|reflexivity].
  induction ts as [|t ts IHt]; [reflexivity|].
  cbn [flat_map filter]. destruct (is_completed t); cbn; [exact IHt|].
  rewrite IHt. reflexivity.
Qed.

Lemma variantTopics_length (now : Z) (subjects : list Subject)
    (daysUntilExam : Q) :
  (List.length (RevisionAware.revisionTopics now subjects daysUntilExam)
   + List.length (RevisionAware.learningTopics now subjects daysUntilExam)
   = List.length (uncompletedTopics subjects))%nat.
Proof.
  unfold RevisionAware.revisionTopics, RevisionAware.learningTopics,
    uncompletedTopics.
  induction subjects as [|subject subjects IH]; [reflexivity|].
  cbn [flat_map]. rewrite !length_app, length_map.
  match goal with
  | |- (List.length (flat_map ?f ?l) + _
        + (List.length (flat_map ?g ?l) + _) = _)%nat =>
      assert (E : forall ts,
                (List.length (flat_map f ts) + List.length (flat_map g ts)
                 = List.length (filter (fun t => negb (is_completed t)) ts))%nat)
  end.
  { induction ts as [|t ts IHt]; [reflexivity|].
    cbn [flat_map filter]. destruct (is_completed t); cbn [negb app];
      [exact IHt|].
    cbv zeta. destruct (RevisionAware.isEligible _);
      cbn [app List.length]; lia. }
  specialize (E (RevisionAware.topicsOf subject)). lia.
Qed.

(** *** One session per topic *)

Lemma topicsWithPriority_topics (now : Z) (subjects : list Subject)
    (daysUntilExam : Q) :
  map (fun e => (StudyAlgorithm.subject e, StudyAlgorithm.topic e))
    (StudyAlgorithm.topicsWithPriority now subjects daysUntilExam)
  = uncompletedTopics subjects.
Proof.
  unfold StudyAlgorithm.topicsWithPriority, uncompletedTopics.
  induction subjects as [|subject subjects IH]; [reflexivity|].
  cbn [flat_map]. rewrite map_app, IH. f_equal.
  unfold RevisionAware.topicsOf.
  destruct (topics subject) as [ts|]; [|reflexivity].
  induction ts as [|t ts IHt]; [reflexivity|].
  cbn [flat_map filter]. destruct (is_completed t); cbn; [exact IHt|].
  rewrite IHt. reflexivity.
Qed.

Lemma Permutation_app_pairs {A : Type} (a b c d : list A) :
  Permutation ((a ++ b) ++ (c ++ d)) ((a ++ c) ++ (b ++ d)).
Proof.
  rewrite <- !app_assoc. apply Permutation_app_head.
  rewrite !app_assoc. apply Permutation_app_tail, Permutation_app_comm.
Qed.

(** The variant sends every uncompleted topic to exactly one of its two
    lists. *)
Lemma variantTopics_Permutation (now : Z) (subjects : list Subject)
    (daysUntilExam : Q) :
  Permutation
    (map (fun e => (RevisionAware.rsubject e, RevisionAware.rtopic e))
       (RevisionAware.revisionTopics now subjects daysUntilExam)
     ++ map (fun e => (StudyAlgorithm.subject e, StudyAlgorithm.topic e))
          (RevisionAware.learningTopics now subjects daysUntilExam))
    (uncompletedTopics subjects).
Proof.
  unfold RevisionAware.revisionTopics, RevisionAware.learningTopics,
    uncompletedTopics.
  induction subjects as [|subject subjects IH]; [reflexivity|].
  cbn [flat_map]. rewrite !map_app, Permutation_app_pairs.
  apply Permutation_app; [|exact IH].
  generalize (RevisionAware.topicsOf subject) as ts.
  induction ts as [|t ts IHt]; [reflexivity|].
  cbn [flat_map filter]. destruct (is_completed t); cbn [negb];
    [exact IHt|].
  cbv zeta. destruct (RevisionAware.isEligible _);
    cbn [app map fst snd RevisionAware.rsubject RevisionAware.rtopic
         StudyAlgorithm.subject StudyAlgorithm.topic].
  - apply perm_skip, IHt.
  - symmetry. apply Permutation_cons_app. symmetry. exact IHt.
Qed.

Lemma weave_Permutation (others : list ScheduleSession) :
  forall revisions, Permutation (weave others revisions) (others ++ revisions).
Proof.
  induction others as [| o | o1 o2 others IH] using list_pair_ind;
    intro revisions; [reflexivity | reflexivity |].
  destruct revisions as [|r revisions]; cbn [weave app].
  - do 2 apply perm_skip. apply IH.
  - do 2 apply perm_skip. rewrite IH. apply Permutation_middle.
Qed.

Lemma filter_split_Permutation {A : Type} (f : A -> bool) (l : list A) :
  Permutation (filter (fun x => negb (f x)) l ++ filter f l) l.
Proof.
  induction l as [|x l IH]; cbn; [reflexivity|].
  destruct (f x); cbn.
  - symmetry. apply Permutation_cons_app. symmetry. exact IH.
  - apply perm_skip, IH.
Qed.

(** The interleaving rearranges the schedule. *)
Lemma interleave_Permutation (schedule : list ScheduleSession) :
  Permutation (RevisionAware.interleave schedule) schedule.
Proof.
  rewrite interleave_weave, weave_Permutation.
  apply filter_split_Permutation.
Qed.

Lemma sessionsOfFirst_topics (sessions : list ScheduleSession)
    (entries : list StudyAlgorithm.Entry) :
  Forall2 sessionOfEntry sessions entries ->
  Forall2 sessionOfTopic sessions
    (map (fun e => (StudyAlgorithm.subject e, StudyAlgorithm.topic e)) entries).
Proof.
  induction 1 as [|s e sessions entries (ty & d & ->) _ IH]; cbn [map];
    constructor; [|exact IH].
  repeat split.
Qed.

Section VariantPrefix.
Variables availableMinutes pomodoroWorkMinutes pomodoroBreakMinutes : Q.

(** Both loops of the variant push one session for each entry they visit,
    in order, until they break. *)
Lemma allocateRevisions_prefix (entries : list RevisionAware.RevisionEntry) :
  forall remaining allocated sessions remaining',
    RevisionAware.allocateRevisions availableMinutes pomodoroWorkMinutes
      pomodoroBreakMinutes entries remaining allocated
    = (sessions, remaining') ->
    Forall2 sessionOfTopic sessions
      (map (fun e => (RevisionAware.rsubject e, RevisionAware.rtopic e))
         (firstn (List.length sessions) entries)).
Proof.
  induction entries as [|e rest IH]; intros remaining allocated sessions remaining'.
  - cbn. intro H. injection H as <- <-. constructor.
  - cbn [RevisionAware.allocateRevisions].
    destruct (Js.ltb remaining pomodoroWorkMinutes).
    { intro H. injection H as <- <-. constructor. }
    destruct (Js.geb allocated _).
    { intro H. injection H as <- <-. constructor. }
    match goal with |- context [RevisionAware.allocateRevisions _ _ _ rest ?r ?a] =>
      specialize (IH r a);
      destruct (RevisionAware.allocateRevisions availableMinutes
                  pomodoroWorkMinutes pomodoroBreakMinutes rest r a)
        as [ss rem1]
    end.
    specialize (IH ss rem1 eq_refl).
    intro H. injection H as <- <-.
    cbn [List.length firstn map]. constructor; [|exact IH].
    repeat split.
Qed.

Lemma allocateLearning_prefix (entries : list StudyAlgorithm.Entry) :
  forall remaining,
    let sessions :=
      RevisionAware.allocateLearning pomodoroWorkMinutes pomodoroBreakMinutes
        entries remaining in
    Forall2 sessionOfTopic sessions
      (map (fun e => (StudyAlgorithm.subject e, StudyAlgorithm.topic e))
         (firstn (List.length sessions) entries)).
Proof.
  cbv zeta.
  induction entries as [|e rest IH]; intro remaining;
    cbn [RevisionAware.allocateLearning]; [constructor|].
  destruct (Js.ltb remaining _); [constructor|].
  cbn [List.length firstn map]. constructor; [|apply IH].
  repeat split.
Qed.

End VariantPrefix.

Lemma onePerTopic_length (subjects : list Subject)
    (schedule : list ScheduleSession) :
  onePerTopic subjects schedule ->
  (List.length schedule <= List.length (uncompletedTopics subjects))%nat.
Proof.
  intros (picked & rest & Hmatch & Hperm).
  apply Forall2_length in Hmatch. apply Permutation_length in Hperm.
  rewrite length_app in Hperm. lia.
Qed.

Lemma lib_onePerTopic (now : Z) (subjects : list Subject)
    (availableMinutes work brk daysUntilExam : Q) :
  onePerTopic subjects
    (StudyAlgorithm.generateDailySchedule now subjects availableMinutes
       work brk daysUntilExam).
Proof.
  unfold StudyAlgorithm.generateDailySchedule.
  match goal with |- onePerTopic _ (StudyAlgorithm.allocate ?a ?w ?b ?l ?st) =>
    pose proof (allocate_prefix a w b l st) as Hprefix;
    set (sessions := StudyAlgorithm.allocate a w b l st) in *;
    set (sorted := l) in *
  end.
  set (key := fun e => (StudyAlgorithm.subject e, StudyAlgorithm.topic e)).
  exists (map key (firstn (List.length sessions) sorted)),
         (map key (skipn (List.length sessions) sorted)).
  split.
  - apply sessionsOfFirst_topics. exact Hprefix.
  - rewrite <- map_app, firstn_skipn.
    rewrite <- (topicsWithPriority_topics now subjects daysUntilExam).
    apply Permutation_map, sortByScoreDesc_Permutation.
Qed.

Lemma variant_onePerTopic (now : Z) (subjects : list Subject)
    (availableMinutes work brk daysUntilExam : Q) :
  onePerTopic subjects
    (RevisionAware.generateDailySchedule now subjects availableMinutes
       work brk daysUntilExam).
Proof.
  unfold RevisionAware.generateDailySchedule, RevisionAware.allocatedSchedule.
  match goal with |- context [RevisionAware.allocateRevisions ?a ?w ?b ?l ?r ?z] =>
    destruct (RevisionAware.allocateRevisions a w b l r z) as [revs rem] eqn:E;
    pose proof (allocateRevisions_prefix _ _ _ _ _ _ _ _ E) as Hrev;
    set (revisionSorted := l) in *
  end.
  cbn zeta.
  match goal with |- context [RevisionAware.allocateLearning _ _ ?l _] =>
    pose proof (allocateLearning_prefix work brk l rem) as Hlearn;
    set (learningSorted := l) in *
  end.
  cbv zeta in Hlearn.
  set (learn := RevisionAware.allocateLearning work brk learningSorted rem) in *.
  set (rkey := fun e => (RevisionAware.rsubject e, RevisionAware.rtopic e)) in *.
  set (key := fun e => (StudyAlgorithm.subject e, StudyAlgorithm.topic e)) in *.
  pose proof (Forall2_app Hrev Hlearn) as Hall.
  destruct (Permutation_Forall2
              (Permutation_sym (interleave_Permutation (revs ++ learn))) Hall)
    as (picked & Hpicked & Hmatch).
  exists picked,
    (map rkey (skipn (List.length revs) revisionSorted)
     ++ map key (skipn (List.length learn) learningSorted)).
  split; [exact Hmatch|].
  rewrite <- Hpicked, Permutation_app_pairs.
  rewrite <- !map_app, !firstn_skipn.
  rewrite <- (variantTopics_Permutation now subjects daysUntilExam).
  apply Permutation_app; apply Permutation_map, sortByScoreDesc_Permutation.
Qed.

(** X27: a schedule has at most one session per uncompleted topic.  In both
    implementations the sessions can be matched one to one, in their order,
    with distinct uncompleted topics of the input, each session carrying the
    id and name of its topic and the name and colour of its subject; so the
    number of sessions is at most the number of uncompleted topics. *)
Theorem X27_at_most_one_session_per_uncompleted_topic
    (now : Z) (subjects : list Subject)
    (availableMinutes work brk daysUntilExam : Q) :
  let lib :=
    StudyAlgorithm.generateDailySchedule now subjects availableMinutes
      work brk daysUntilExam in
  let variant :=
    RevisionAware.generateDailySchedule now subjects availableMinutes
      work brk daysUntilExam in
  (onePerTopic subjects lib
   /\ (List.length lib <= List.length (uncompletedTopics subjects))%nat)
  /\ (onePerTopic subjects variant
      /\ (List.length variant <= List.length (uncompletedTopics subjects))%nat).
Proof.
  cbv zeta.
  pose proof (lib_onePerTopic now subjects availableMinutes work brk
                daysUntilExam) as Hlib.
  pose proof (variant_onePerTopic now subjects availableMinutes work brk
                daysUntilExam) as Hvar.
  repeat split; try assumption; apply onePerTopic_length; assumption.
Qed.

(** A schedule that repeats the session of a topic is not of this kind. *)
Example repeated_session_is_not_one_per_topic (s : ScheduleSession) :
  ~ onePerTopic [subjectOf [studiedTopic]] [s; s].
Proof.
  intro H. apply onePerTopic_length in H. vm_compute in H. lia.
Qed.


(** X28: with a work time and a break that are not negative, no session of
    [src/lib/study-algorithm.ts] is cut short: a revision session lasts
    exactly one [sessionDuration], a recall session exactly the work time,
    and a learning session between one and two [sessionDuration]. *)
Theorem X28_lib_sessions_have_their_nominal_duration
    (now : Z) (subjects : list Subject)
    (availableMinutes work brk daysUntilExam : Q) (s : ScheduleSession) :
  0 <= work -> 0 <= brk ->
  In s (StudyAlgorithm.generateDailySchedule now subjects availableMinutes
          work brk daysUntilExam) ->
  match type s with
  | revision => durationMinutes s == work + brk
  | recall => durationMinutes s == work
  | learning => work + brk <= durationMinutes s <= (work + brk) * 2
  end.
Proof.
  intros Hw Hb. unfold StudyAlgorithm.generateDailySchedule. intro Hs.
  match type of Hs with In _ (StudyAlgorithm.allocate ?a ?w ?b ?l ?st) =>
    destruct (allocate_sessions a w b l st) as [_ Hin] end.
  destruct (Hin s Hs) as (e & ty & d & _ & -> & Hd).
  exact (Hd Hw Hb).
Qed.

Lemma X28_lib_sessions_duration_witness :
  exists s,
    In s (StudyAlgorithm.generateDailySchedule exampleNow
            [subjectOf [studiedTopic]] 180 25 5 30)
    /\ type s = revision /\ durationMinutes s == 25 + 5.
Proof.
  destruct (StudyAlgorithm.generateDailySchedule exampleNow
              [subjectOf [studiedTopic]] 180 25 5 30)
    as [|s rest] eqn:E.
  - vm_compute in E. discriminate E.
  - assert (Hty : type s = revision).
    { vm_compute in E. injection E as <- _. reflexivity. }
    exists s. split; [left; reflexivity|]. split; [exact Hty|].
    pose proof (X28_lib_sessions_have_their_nominal_duration exampleNow
                  [subjectOf [studiedTopic]] 180 25 5 30 s) as H.
    rewrite Hty in H. apply H.
    + unfold Qle; simpl; lia.
    + unfold Qle; simpl; lia.
    + rewrite E. left. reflexivity.
Defined.

(** X29: a budget below one session gives an empty schedule, whatever the
    topics: in [src/lib/study-algorithm.ts] when [availableMinutes] is below
    work + break; in the variant when it is below the work time (and below
    work + break). *)
Theorem X29_budget_below_one_session_gives_empty_schedule
    (now : Z) (subjects : list Subject)
    (availableMinutes work brk daysUntilExam : Q) :
  availableMinutes < work + brk ->
  StudyAlgorithm.generateDailySchedule now subjects availableMinutes work brk
    daysUntilExam = []
  /\ (availableMinutes < work ->
      RevisionAware.generateDailySchedule now subjects availableMinutes work
        brk daysUntilExam = []).
Proof.
  intro Hsd.
  assert (E1 : Js.ltb availableMinutes
                 (StudyAlgorithm.sessionDuration work brk) = true)
    by (apply ltb_true; exact Hsd).
  split.
  - unfold StudyAlgorithm.generateDailySchedule.
    destruct (sortByScoreDesc _ _) as [|e rest]; [reflexivity|].
    cbn [StudyAlgorithm.allocate StudyAlgorithm.initialAlloc
         StudyAlgorithm.remainingMinutes].
    rewrite E1. reflexivity.
  - intro Hw.
    assert (E2 : Js.ltb availableMinutes work = true)
      by (apply ltb_true; exact Hw).
    unfold RevisionAware.generateDailySchedule, RevisionAware.allocatedSchedule.
    assert (Er : forall l,
              RevisionAware.allocateRevisions availableMinutes work brk l
                availableMinutes 0 = ([], availableMinutes)).
    { intros [|e l]; cbn [RevisionAware.allocateRevisions];
        [reflexivity | rewrite E2; reflexivity]. }
    rewrite Er. cbn [app].
    assert (El : forall l,
              RevisionAware.allocateLearning work brk l availableMinutes = []).
    { intros [|e l]; cbn [RevisionAware.allocateLearning]; [reflexivity|].
      change (RevisionAware.sessionDuration work brk)
        with (StudyAlgorithm.sessionDuration work brk).
      rewrite E1. reflexivity. }
    rewrite El. reflexivity.
Qed.

Lemma X29_budget_below_one_session_witness :
  StudyAlgorithm.generateDailySchedule exampleNow
    [subjectOf [newTopic; studiedTopic]] 20 25 5 30 = [].
Proof.
  refine (proj1 (X29_budget_below_one_session_gives_empty_schedule exampleNow
                   [subjectOf [newTopic; studiedTopic]] 20 25 5 30 _)).
  unfold Qlt; simpl; lia.
Defined.

(** ** The callers: [useScheduleGenerator] and [useDashboardStats] *)

Section ScheduleGeneratorDates.
Variable startOfDay : Z -> Z.
Variables setHours setMinutes addMinutes : Z -> Q -> Z.

Lemma convertSessions_spec (l : list ScheduleSession) :
  forall currentTime total0 sessions total,
    ScheduleGenerator.convertSessions addMinutes currentTime total0 l
    = (sessions, total) ->
    total == total0 + totalDuration l
    /\ plannedTotal sessions == totalDuration l
    /\ List.length sessions = List.length l
    /\ spacedFrom addMinutes currentTime sessions.
Proof.
  induction l as [|s l IH]; intros currentTime total0 sessions total.
  - cbn. intro H. injection H as <- <-.
    change (totalDuration []) with 0. change (plannedTotal []) with 0.
    repeat split; try reflexivity. lra.
  - cbn [ScheduleGenerator.convertSessions].
    match goal with |- context [ScheduleGenerator.convertSessions _ ?t ?u l] =>
      specialize (IH t u);
      destruct (ScheduleGenerator.convertSessions addMinutes t u l) as [ss tot]
    end.
    destruct (IH ss tot eq_refl) as (Ht & Hp & Hl & Hs).
    intro H. injection H as <- <-.
    rewrite totalDuration_cons. unfold plannedTotal in *.
    cbn [fold_right ScheduleGenerator.planned_duration_minutes List.length
         spacedFrom ScheduleGenerator.scheduled_at].
    repeat split; try lra; try reflexivity.
    + rewrite Hl. reflexivity.
    + exact Hs.
Qed.

(** X30: when [generateScheduleForDate] creates sessions, there is at least
    one, [sessions_planned] is their number and [planned_minutes] their
    total planned duration, which is at most [daily_study_hours * 60] (180
    without a profile value) when the daily hours are not negative.  The
    first session is scheduled at
    [setMinutes(setHours(startOfDay(date), startHour), 0)], the hour of the
    preferred slot on the local clock of that day, and each next one at
    [addMinutes] of the one before it and its duration plus fifteen
    minutes, whatever the date functions do. *)
Theorem X30_generated_sessions_fit_the_day_and_are_spaced
    (now date : Z) (user : bool) (subjectsWithTopics : option (list SubjectRow))
    (activeExam : bool) (profile : option Profile) (daysUntilExam : option Q)
    (sessions : list ScheduleGenerator.SessionInsert)
    (update : ScheduleGenerator.DailyProgressUpdate) :
  0 <= orElse (profileField profile daily_study_hours) 3 ->
  ScheduleGenerator.generateScheduleForDate startOfDay setHours setMinutes
    addMinutes now date user subjectsWithTopics activeExam profile
    daysUntilExam = inr (sessions, update) ->
  sessions <> []
  /\ ScheduleGenerator.sessions_planned update = List.length sessions
  /\ ScheduleGenerator.planned_minutes update == plannedTotal sessions
  /\ plannedTotal sessions
     <= orElse (profileField profile daily_study_hours) 3 * 60
  /\ spacedFrom addMinutes
       (setMinutes
          (setHours (startOfDay date)
             (ScheduleGenerator.startHourOf
                (orElse (profileField profile preferred_study_slot) morning)))
          0)
       sessions.
Proof.
  intros Hhours. unfold ScheduleGenerator.generateScheduleForDate.
  destruct user; [|discriminate].
  destruct subjectsWithTopics as [rows|]; [|discriminate].
  destruct activeExam; [|discriminate].
  cbv zeta.
  set (daily := orElse (profileField profile daily_study_hours) 3 * 60).
  set (schedule := StudyAlgorithm.generateDailySchedule _ _ _ _ _ _).
  assert (Hbudget : totalDuration schedule <= daily).
  { apply withinBudget_total; [|unfold daily; lra].
    unfold schedule, StudyAlgorithm.generateDailySchedule.
    match goal with |- context [StudyAlgorithm.allocate ?a ?w ?b ?l ?st] =>
      exact (allocate_withinBudget a w b l st) end. }
  destruct schedule as [|s0 rest] eqn:Es; [discriminate|].
  destruct (ScheduleGenerator.convertSessions _ _ 0 (s0 :: rest))
    as [ss total] eqn:Ec.
  destruct (convertSessions_spec _ _ _ _ _ Ec) as (Ht & Hp & Hl & Hs).
  intro H. injection H as <- <-.
  cbn [ScheduleGenerator.sessions_planned ScheduleGenerator.planned_minutes].
  repeat split; try assumption; try lra.
  intro E. rewrite E in Hl. discriminate Hl.
Qed.

End ScheduleGeneratorDates.

(** Two topics, a profile that sets every preference and the UTC runtime:
    a learning session of 80 minutes at 14:00 of the day of [exampleNow]
    and a second session 95 minutes later, 110 planned minutes of the 120. *)
Lemma X30_generated_sessions_witness :
  exists s1 s2 update,
    ScheduleGenerator.generateScheduleForDate utcStartOfDay utcSetHours
      utcSetMinutes elapsedAddMinutes exampleNow exampleNow true
      (Some exampleRowsTwoTopics) true (Some exampleProfile) (Some 20)
    = inr ([s1; s2], update)
    /\ ScheduleGenerator.sessions_planned update = 2%nat
    /\ plannedTotal [s1; s2] <= 2 * 60
    /\ ScheduleGenerator.scheduled_at s1
       = (utcStartOfDay exampleNow + 14 * 3600000)%Z
    /\ ScheduleGenerator.planned_duration_minutes s1 = 80
    /\ ScheduleGenerator.scheduled_at s2
       = (utcStartOfDay exampleNow + 14 * 3600000 + 95 * 60000)%Z.
Proof.
  destruct (ScheduleGenerator.generateScheduleForDate utcStartOfDay utcSetHours
              utcSetMinutes elapsedAddMinutes exampleNow exampleNow true
              (Some exampleRowsTwoTopics) true (Some exampleProfile) (Some 20))
    as [err | [sessions update]] eqn:E.
  - vm_compute in E. discriminate E.
  - destruct (X30_generated_sessions_fit_the_day_and_are_spaced utcStartOfDay
                utcSetHours utcSetMinutes elapsedAddMinutes exampleNow
                exampleNow true (Some exampleRowsTwoTopics) true
                (Some exampleProfile) (Some 20) sessions update)
      as (_ & H2 & _ & H4 & H5).
    + unfold Qle; simpl; lia.
    + exact E.
    + destruct sessions as [|s1 [|s2 [|s3 rest]]];
        try (vm_compute in E; discriminate E).
      exists s1, s2, update.
      assert (Hd : ScheduleGenerator.planned_duration_minutes s1 = 80).
      { vm_compute in E. injection E as <- _ _. reflexivity. }
      destruct H5 as (Hs1 & Hs2 & _). rewrite Hd in Hs2.
      repeat split; try assumption.
Defined.

(** The bounds of the readiness percentage on inputs in range. *)
Lemma readiness_percentage_in_range (c a s d : Q) :
  0 <= c <= 100 -> 0 <= a <= 5 -> 0 <= s ->
  (0 <= StudyAlgorithm.percentage (StudyAlgorithm.calculateExamReadiness c a s d)
   <= 100)%Z.
Proof.
  intros [Hc0 Hc1] [Ha0 Ha1] Hs.
  rewrite percentage_eq.
  assert (H : 0 <= StudyAlgorithm.readinessScore c a s d <= 1).
  { unfold StudyAlgorithm.readinessScore.
    assert (Hk : 0 <= Qmin (s / 14) 1 <= 1).
    { split; [apply Q.min_glb; literal_div; lra | apply Q.le_min_r]. }
    assert (Ht : 0 <= (if Js.gtb d 0 then Qmin (d / 30) 1 else 0) <= 1).
    { destruct (Js.gtb d 0) eqn:E; [|lra].
      apply gtb_true in E.
      split; [apply Q.min_glb; literal_div; lra | apply Q.le_min_r]. }
    literal_div. lra. }
  apply (round_between _ 0 100); [reflexivity | reflexivity | lra].
Qed.

Lemma confidence_sum_bounds (ts : list TopicRow) :
  Forall validConfidence ts ->
  forall acc,
    acc + inject_Z (Z.of_nat (List.length ts))
    <= fold_left (fun sum t => sum + orElse (row_confidence_level t) 1) ts acc
    <= acc + 5 * inject_Z (Z.of_nat (List.length ts)).
Proof.
  induction 1 as [|t ts Ht _ IH]; intro acc.
  - cbn [fold_left List.length]. change (inject_Z (Z.of_nat 0)) with 0. lra.
  - cbn [fold_left List.length]. rewrite Nat2Z.inj_succ, <- Z.add_1_r.
    rewrite inject_Z_plus. change (inject_Z 1) with 1.
    specialize (IH (acc + orElse (row_confidence_level t) 1)).
    assert (Hc : 1 <= orElse (row_confidence_level t) 1 <= 5).
    { unfold validConfidence in Ht.
      destruct (row_confidence_level t); cbn; [exact Ht | lra]. }
    lra.
Qed.

Lemma averageConfidence_range (topics : option (list TopicRow)) :
  match topics with Some ts => Forall validConfidence ts | None => True end ->
  0 <= DashboardStats.averageConfidence topics <= 5.
Proof.
  intro Hv. unfold DashboardStats.averageConfidence.
  destruct topics as [[|t ts]|]; try lra.
  pose proof (confidence_sum_bounds (t :: ts) Hv 0) as Hsum.
  set (n := inject_Z (Z.of_nat (List.length (t :: ts)))) in *.
  assert (Hn : 0 < n).
  { unfold n. change 0 with (inject_Z 0). rewrite <- Zlt_Qlt. cbn. lia. }
  split.
  - apply Qle_shift_div_l; [exact Hn | lra].
  - apply Qle_shift_div_r; [exact Hn | lra].
Qed.

(** X19: the readiness shown on the dashboard is always on the scale: when
    every topic has a confidence between 1 and 5 (or none, which counts as
    1) and the streak is not negative, the completion percentage and the
    readiness percentage computed by [useDashboardStats] lie between 0 and
    100, also without topics, without a profile and without an exam date. *)
Theorem X19_dashboard_percentages_between_0_and_100
    (topics : option (list TopicRow)) (profile : option Profile)
    (daysUntilExam : option Q) :
  match topics with Some ts => Forall validConfidence ts | None => True end ->
  0 <= orElse (profileField profile current_streak) 0 ->
  let stats := DashboardStats.dashboardStats topics profile daysUntilExam in
  (0 <= DashboardStats.completionPercentage stats <= 100)%Z
  /\ (0 <= StudyAlgorithm.percentage (DashboardStats.readiness stats)
      <= 100)%Z.
Proof.
  intros Hv Hstreak. cbv zeta. unfold DashboardStats.dashboardStats.
  cbn [DashboardStats.completionPercentage DashboardStats.readiness].
  set (total := match topics with Some ts => List.length ts | None => O end).
  set (completed := match topics with
                    | Some ts => List.length (filter _ ts)
                    | None => O
                    end).
  assert (Hle : (completed <= total)%nat).
  { unfold completed, total. destruct topics as [ts|]; [|lia].
    apply filter_length_le. }
  set (pct := if (0 <? total)%nat then _ else 0%Z).
  assert (Hpct : (0 <= pct <= 100)%Z).
  { unfold pct. destruct (0 <? total)%nat eqn:E; [|lia].
    apply Nat.ltb_lt in E.
    assert (Ht : 0 < inject_Z (Z.of_nat total)).
    { change 0 with (inject_Z 0). rewrite <- Zlt_Qlt. lia. }
    assert (Hc0 : 0 <= inject_Z (Z.of_nat completed)).
    { change 0 with (inject_Z 0). rewrite <- Zle_Qle. lia. }
    assert (Hc1 : inject_Z (Z.of_nat completed) <= inject_Z (Z.of_nat total)).
    { rewrite <- Zle_Qle. lia. }
    apply (round_between _ 0 100); [reflexivity | reflexivity |].
    assert (Hr : 0 <= inject_Z (Z.of_nat completed) / inject_Z (Z.of_nat total)
                 <= 1).
    { split; [apply Qle_shift_div_l | apply Qle_shift_div_r]; lra. }
    lra. }
  split; [exact Hpct|].
  apply readiness_percentage_in_range.
  - split.
    + change 0 with (inject_Z 0). rewrite <- Zle_Qle. lia.
    + change 100 with (inject_Z 100). rewrite <- Zle_Qle. lia.
  - apply averageConfidence_range. exact Hv.
  - exact Hstreak.
Qed.

Lemma X19_dashboard_percentages_witness :
  (0 <= StudyAlgorithm.percentage
          (DashboardStats.readiness
             (DashboardStats.dashboardStats
                (Some (srow_topics (hd {| srow_id := ""; srow_name := "";
                                          srow_strength := None;
                                          srow_color := None;
                                          srow_topics := [] |} exampleRows)))
                None None)) <= 100)%Z.
Proof.
  apply (X19_dashboard_percentages_between_0_and_100
           (Some (srow_topics (hd {| srow_id := ""; srow_name := "";
                                     srow_strength := None;
                                     srow_color := None;
                                     srow_topics := [] |} exampleRows)))
           None None).
  - cbn. repeat constructor; unfold validConfidence; cbn;
      unfold Qle; simpl; lia.
  - unfold Qle; simpl; lia.
Defined.
